(** * Image encryption utility: key derivation and the encrypt/decrypt
      orchestrator (key_generate.py, main.py)

    The development embeds the two Python source files.  The functions of
    the Python standard library that the code calls (str.encode,
    bytes.decode, hashlib.sha256, base64.urlsafe_b64encode and, inside the
    cipher's constructor, base64.urlsafe_b64decode) are modelled as CPython
    implements them; the authenticated cipher and the image codec are
    interfaces (type classes).  The cipher has two instances: an ideal
    one, and Fernet's token format with its HMAC over a block cipher that
    stays abstract.  The codec has a reference instance, also in a form
    that opens lazily as PIL does. *)

From Stdlib Require Import String Ascii.
From Stdlib Require Import Init.Byte Strings.Byte.
From Stdlib Require Import Arith NArith ZArith List ListDec Lia Bool.
Import ListNotations.

Local Open Scope N_scope.

(** ** Python values *)

(** A [bytes] object. *)
Definition bytes := list byte.

(** A [str] object: the sequence of its code points.  CPython stores any
    code point up to 0x10FFFF, the surrogates 0xD800..0xDFFF included. *)
Definition pystr := list N.

(** What [to_url_safe_base64_32_bytes] and the cipher's constructor accept:
    the two branches of [isinstance(_, str)]. *)
Inductive pyobj : Type :=
| PyStr (s : pystr)
| PyBytes (b : bytes).

(** Python's [==] between such objects: a str never equals a bytes. *)
Definition pyobj_eqb (x y : pyobj) : bool :=
  match x, y with
  | PyStr s, PyStr t => if list_eq_dec N.eq_dec s t then true else false
  | PyBytes s, PyBytes t => if list_eq_dec Byte.byte_eq_dec s t then true else false
  | _, _ => false
  end.

(** Truth value of a str ([if key:]): false exactly on the empty string. *)
Definition truthy (s : pystr) : bool :=
  match s with [] => false | _ :: _ => true end.

(** A str literal with ASCII characters only. *)
Definition lit (s : string) : pystr :=
  map (fun c => N_of_ascii c) (list_ascii_of_string s).

(** A bytes literal. *)
Definition blit (s : string) : bytes := list_byte_of_string s.

(** Exceptions: the class, and the text [str(e)] gives. *)
Inductive exn_class : Type :=
| UnicodeEncodeError
| UnicodeDecodeError
| ValueError
| BinasciiError
| InvalidToken
| OtherError (name : string).

Record exn : Type := Raise { exn_cls : exn_class; exn_str : pystr }.

(** A call either returns or raises. *)
Inductive result (A : Type) : Type :=
| Ok (v : A)
| Err (e : exn).
Arguments Ok {A} v.
Arguments Err {A} e.

Definition rbind {A B} (r : result A) (k : A -> result B) : result B :=
  match r with
  | Ok v => k v
  | Err e => Err e
  end.

Definition is_ok {A} (r : result A) : bool :=
  match r with Ok _ => true | Err _ => false end.

Declare Scope result_scope.
Delimit Scope result_scope with result.
Notation "'let*' x ':=' r 'in' k" := (rbind r (fun x => k))
  (at level 10, x pattern, r at level 100, k at level 200) : result_scope.

(** The byte with value [n mod 256]. *)
Definition byte_of_N (n : N) : byte :=
  match Byte.of_N (n mod 256) with
  | Some b => b
  | None => x00
  end.

(** ** hashlib: SHA-256 (FIPS 180-4) *)
Module hashlib.

Definition mask32 : N := 0xFFFFFFFF.

(** 32-bit words are naturals below 2^32; every operation truncates. *)
Definition add32 (x y : N) : N := N.land (x + y) mask32.
Definition shl32 (x n : N) : N := N.land (N.shiftl x n) mask32.
Definition rotr (n x : N) : N := N.lor (N.shiftr x n) (shl32 x (32 - n)).
Definition not32 (x : N) : N := N.lxor x mask32.

Definition Ch (x y z : N) : N := N.lxor (N.land x y) (N.land (not32 x) z).
Definition Maj (x y z : N) : N :=
  N.lxor (N.lxor (N.land x y) (N.land x z)) (N.land y z).
Definition bsig0 (x : N) : N := N.lxor (N.lxor (rotr 2 x) (rotr 13 x)) (rotr 22 x).
Definition bsig1 (x : N) : N := N.lxor (N.lxor (rotr 6 x) (rotr 11 x)) (rotr 25 x).
Definition ssig0 (x : N) : N := N.lxor (N.lxor (rotr 7 x) (rotr 18 x)) (N.shiftr x 3).
Definition ssig1 (x : N) : N := N.lxor (N.lxor (rotr 17 x) (rotr 19 x)) (N.shiftr x 10).

(** Round constants, four to a row. *)
Definition K256 : list N :=
     [0x428A2F98; 0x71374491; 0xB5C0FBCF; 0xE9B5DBA5]
  ++ [0x3956C25B; 0x59F111F1; 0x923F82A4; 0xAB1C5ED5]
  ++ [0xD807AA98; 0x12835B01; 0x243185BE; 0x550C7DC3]
  ++ [0x72BE5D74; 0x80DEB1FE; 0x9BDC06A7; 0xC19BF174]
  ++ [0xE49B69C1; 0xEFBE4786; 0x0FC19DC6; 0x240CA1CC]
  ++ [0x2DE92C6F; 0x4A7484AA; 0x5CB0A9DC; 0x76F988DA]
  ++ [0x983E5152; 0xA831C66D; 0xB00327C8; 0xBF597FC7]
  ++ [0xC6E00BF3; 0xD5A79147; 0x06CA6351; 0x14292967]
  ++ [0x27B70A85; 0x2E1B2138; 0x4D2C6DFC; 0x53380D13]
  ++ [0x650A7354; 0x766A0ABB; 0x81C2C92E; 0x92722C85]
  ++ [0xA2BFE8A1; 0xA81A664B; 0xC24B8B70; 0xC76C51A3]
  ++ [0xD192E819; 0xD6990624; 0xF40E3585; 0x106AA070]
  ++ [0x19A4C116; 0x1E376C08; 0x2748774C; 0x34B0BCB5]
  ++ [0x391C0CB3; 0x4ED8AA4A; 0x5B9CCA4F; 0x682E6FF3]
  ++ [0x748F82EE; 0x78A5636F; 0x84C87814; 0x8CC70208]
  ++ [0x90BEFFFA; 0xA4506CEB; 0xBEF9A3F7; 0xC67178F2].

(** The eight chaining words. *)
Record chain : Type := Chain {
  ha : N; hb : N; hc : N; hd : N; he : N; hf : N; hg : N; hh : N }.

Definition IV256 : chain :=
  Chain 0x6A09E667 0xBB67AE85 0x3C6EF372 0xA54FF53A
        0x510E527F 0x9B05688C 0x1F83D9AB 0x5BE0CD19.

(** Padding: a 1 bit, zeros up to 56 mod 64 bytes, then the bit length
    as a 64-bit big-endian integer. *)
Definition be_bytes (width : nat) (n : N) : bytes :=
  map (fun i => byte_of_N (N.shiftr n (8 * N.of_nat i))) (rev (seq 0 width)).

Definition pad (msg : bytes) : bytes :=
  let len := N.of_nat (length msg) in
  let zeros := (64 - (len + 9) mod 64) mod 64 in
  msg ++ x80 :: repeat x00 (N.to_nat zeros)
      ++ be_bytes 8 ((8 * len) mod 2 ^ 64).

(** Big-endian value of a byte string. *)
Definition be_value (bs : bytes) : N :=
  fold_left (fun acc b => 256 * acc + Byte.to_N b) bs 0.

(** Cuts a byte string into [n] words of four bytes. *)
Fixpoint words (n : nat) (bs : bytes) : list N :=
  match n with
  | O => []
  | S n' => be_value (firstn 4 bs) :: words n' (skipn 4 bs)
  end.

(** Message schedule: [sched] holds W(t-1), W(t-2), ... W(0), newest
    first; [extend] appends the next [n] words. *)
Fixpoint extend (n : nat) (sched : list N) : list N :=
  match n with
  | O => sched
  | S n' =>
      let w := add32 (add32 (ssig1 (nth 1 sched 0)) (nth 6 sched 0))
                     (add32 (ssig0 (nth 14 sched 0)) (nth 15 sched 0)) in
      extend n' (w :: sched)
  end.

Definition schedule (block : list N) : list N :=
  rev (extend 48 (rev block)).

Definition round (s : chain) (kw : N * N) : chain :=
  let (k, w) := kw in
  let t1 := add32 (add32 (add32 (hh s) (bsig1 (he s)))
                         (add32 (Ch (he s) (hf s) (hg s)) k)) w in
  let t2 := add32 (bsig0 (ha s)) (Maj (ha s) (hb s) (hc s)) in
  Chain (add32 t1 t2) (ha s) (hb s) (hc s)
        (add32 (hd s) t1) (he s) (hf s) (hg s).

Definition compress (s : chain) (block : bytes) : chain :=
  let r := fold_left round (combine K256 (schedule (words 16 block))) s in
  Chain (add32 (ha s) (ha r)) (add32 (hb s) (hb r))
        (add32 (hc s) (hc r)) (add32 (hd s) (hd r))
        (add32 (he s) (he r)) (add32 (hf s) (hf r))
        (add32 (hg s) (hg r)) (add32 (hh s) (hh r)).

(** Consumes the padded message 64 bytes at a time. *)
Fixpoint absorb (nblocks : nat) (s : chain) (bs : bytes) : chain :=
  match nblocks with
  | O => s
  | S n => absorb n (compress s (firstn 64 bs)) (skipn 64 bs)
  end.

Definition be32 (w : N) : bytes :=
  [byte_of_N (N.shiftr w 24); byte_of_N (N.shiftr w 16);
   byte_of_N (N.shiftr w 8); byte_of_N w].

Definition emit (s : chain) : bytes :=
  be32 (ha s) ++ be32 (hb s) ++ be32 (hc s) ++ be32 (hd s) ++
  be32 (he s) ++ be32 (hf s) ++ be32 (hg s) ++ be32 (hh s).

(** [hashlib.sha256(data).digest()] *)
Definition sha256_digest (data : bytes) : bytes :=
  let p := pad data in
  emit (absorb (length p / 64)%nat IV256 p).

(** [hashlib.sha256(data).hexdigest()], for the published test vectors. *)
Definition hex_digit (n : N) : ascii :=
  ascii_of_N (if n <? 10 then 48 + n else 87 + n).

Definition hexlify (bs : bytes) : string :=
  string_of_list_ascii
    (flat_map (fun b => [hex_digit (Byte.to_N b / 16);
                         hex_digit (Byte.to_N b mod 16)]) bs).

Definition sha256_hexdigest (data : bytes) : string :=
  hexlify (sha256_digest data).

End hashlib.

Local Open Scope result_scope.

(** ** The text codecs behind [str.encode] and [bytes.decode]

    [exn_str] of a codec error keeps the reason, without the position. *)
Module codecs.

Definition is_surrogate (c : N) : bool := (0xD800 <=? c) && (c <=? 0xDFFF).

Definition surrogates_not_allowed : exn :=
  Raise UnicodeEncodeError (lit "surrogates not allowed").

(** One code point in UTF-8, errors='strict'.  Values above 0x10FFFF are
    not code points and no str holds them; they are refused as well. *)
Definition utf_8_encode_char (c : N) : result bytes :=
  if c <? 0x80 then Ok [byte_of_N c]
  else if c <? 0x800 then
    Ok [byte_of_N (N.lor 0xC0 (N.shiftr c 6));
        byte_of_N (N.lor 0x80 (N.land c 0x3F))]
  else if is_surrogate c then Err surrogates_not_allowed
  else if c <? 0x10000 then
    Ok [byte_of_N (N.lor 0xE0 (N.shiftr c 12));
        byte_of_N (N.lor 0x80 (N.land (N.shiftr c 6) 0x3F));
        byte_of_N (N.lor 0x80 (N.land c 0x3F))]
  else if c <? 0x110000 then
    Ok [byte_of_N (N.lor 0xF0 (N.shiftr c 18));
        byte_of_N (N.lor 0x80 (N.land (N.shiftr c 12) 0x3F));
        byte_of_N (N.lor 0x80 (N.land (N.shiftr c 6) 0x3F));
        byte_of_N (N.lor 0x80 (N.land c 0x3F))]
  else Err (Raise UnicodeEncodeError (lit "not a code point")).

(** [s.encode('utf-8')]: the first offending character raises. *)
Fixpoint utf_8_encode (s : pystr) : result bytes :=
  match s with
  | [] => Ok []
  | c :: rest =>
      let* b := utf_8_encode_char c in
      let* bs := utf_8_encode rest in
      Ok (b ++ bs)
  end.

(** [s.encode('ascii')] *)
Fixpoint ascii_encode (s : pystr) : result bytes :=
  match s with
  | [] => Ok []
  | c :: rest =>
      if c <? 0x80 then
        let* bs := ascii_encode rest in Ok (byte_of_N c :: bs)
      else Err (Raise UnicodeEncodeError (lit "ordinal not in range(128)"))
  end.

Definition is_continuation (b : byte) : bool :=
  N.land (Byte.to_N b) 0xC0 =? 0x80.

Definition low6 (b : byte) : N := N.land (Byte.to_N b) 0x3F.

Definition invalid_utf8 (reason : string) : exn :=
  Raise UnicodeDecodeError (lit reason).

(** The second byte of a sequence of three or four: a continuation byte
    that leaves the sequence neither overlong, nor a surrogate, nor above
    0x10FFFF. *)
Definition valid_second (n0 : N) (b1 : byte) : bool :=
  let n1 := Byte.to_N b1 in
  is_continuation b1
  && negb (if n0 <? 0xF0
           then (if n1 <? 0xA0 then n0 =? 0xE0 else n0 =? 0xED)
           else (if n1 <? 0x90 then n0 =? 0xF0 else n0 =? 0xF4)).

(** [b.decode('utf-8')], errors='strict': shortest form only, no
    surrogates, nothing above 0x10FFFF.  A sequence that the input cuts
    short is an unexpected end when what is there can start a character,
    and an invalid continuation byte otherwise. *)
Fixpoint utf_8_decode (bs : bytes) : result pystr :=
  match bs with
  | [] => Ok []
  | b0 :: r0 =>
      let n0 := Byte.to_N b0 in
      if n0 <? 0x80 then
        let* s := utf_8_decode r0 in Ok (n0 :: s)
      else if n0 <? 0xC2 then Err (invalid_utf8 "invalid start byte")
      else if n0 <? 0xE0 then
        match r0 with
        | b1 :: r1 =>
            if is_continuation b1 then
              let* s := utf_8_decode r1 in
              Ok (N.lor (N.shiftl (N.land n0 0x1F) 6) (low6 b1) :: s)
            else Err (invalid_utf8 "invalid continuation byte")
        | _ => Err (invalid_utf8 "unexpected end of data")
        end
      else if n0 <? 0xF0 then
        match r0 with
        | b1 :: b2 :: r2 =>
            let c := N.lor (N.shiftl (N.land n0 0x0F) 12)
                       (N.lor (N.shiftl (low6 b1) 6) (low6 b2)) in
            if is_continuation b1 && is_continuation b2
               && (0x800 <=? c) && negb (is_surrogate c) then
              let* s := utf_8_decode r2 in Ok (c :: s)
            else Err (invalid_utf8 "invalid continuation byte")
        | [b1] =>
            if valid_second n0 b1
            then Err (invalid_utf8 "unexpected end of data")
            else Err (invalid_utf8 "invalid continuation byte")
        | [] => Err (invalid_utf8 "unexpected end of data")
        end
      else if n0 <? 0xF5 then
        match r0 with
        | b1 :: b2 :: b3 :: r3 =>
            let c := N.lor (N.shiftl (N.land n0 0x07) 18)
                       (N.lor (N.shiftl (low6 b1) 12)
                          (N.lor (N.shiftl (low6 b2) 6) (low6 b3))) in
            if is_continuation b1 && is_continuation b2 && is_continuation b3
               && (0x10000 <=? c) && (c <? 0x110000) then
              let* s := utf_8_decode r3 in Ok (c :: s)
            else Err (invalid_utf8 "invalid continuation byte")
        | [b1; b2] =>
            if valid_second n0 b1 && is_continuation b2
            then Err (invalid_utf8 "unexpected end of data")
            else Err (invalid_utf8 "invalid continuation byte")
        | [b1] =>
            if valid_second n0 b1
            then Err (invalid_utf8 "unexpected end of data")
            else Err (invalid_utf8 "invalid continuation byte")
        | [] => Err (invalid_utf8 "unexpected end of data")
        end
      else Err (invalid_utf8 "invalid start byte")
  end.

End codecs.

(** ** binascii and base64 *)
Module binascii.

(** [table_b2a_base64] *)
Definition table_b2a_base64 : bytes :=
  blit "ABCDEFGHIJKLMNOPQRSTUVWXYZabcdefghijklmnopqrstuvwxyz0123456789+/".

Definition BASE64_PAD : byte := "="%byte.

Definition b2a (sextet : N) : byte :=
  nth (N.to_nat sextet) table_b2a_base64 x00.

(** [b2a_base64(data, newline=False)]: three bytes give four characters;
    a last group of one or two bytes is padded with '='. *)
Fixpoint b2a_base64 (data : bytes) : bytes :=
  match data with
  | [] => []
  | [x] =>
      let n := Byte.to_N x in
      [b2a (N.shiftr n 2); b2a (N.shiftl (N.land n 3) 4);
       BASE64_PAD; BASE64_PAD]
  | [x; y] =>
      let n := Byte.to_N x in
      let m := Byte.to_N y in
      [b2a (N.shiftr n 2);
       b2a (N.lor (N.shiftl (N.land n 3) 4) (N.shiftr m 4));
       b2a (N.shiftl (N.land m 0xF) 2); BASE64_PAD]
  | x :: y :: z :: rest =>
      let n := Byte.to_N x in
      let m := Byte.to_N y in
      let k := Byte.to_N z in
      b2a (N.shiftr n 2)
      :: b2a (N.lor (N.shiftl (N.land n 3) 4) (N.shiftr m 4))
      :: b2a (N.lor (N.shiftl (N.land m 0xF) 2) (N.shiftr k 6))
      :: b2a (N.land k 0x3F)
      :: b2a_base64 rest
  end.

(** [table_a2b_base64]: the value of an alphabet character, if it is one. *)
Fixpoint index_of (b : byte) (tbl : bytes) (i : N) : option N :=
  match tbl with
  | [] => None
  | c :: tbl' => if Byte.eqb b c then Some i else index_of b tbl' (i + 1)
  end.

Definition a2b (b : byte) : option N := index_of b table_b2a_base64 0.

(** The decoder's registers. *)
Record a2b_state : Type := A2B {
  quad_pos : N;       (* characters consumed of the current group of four *)
  leftchar : N;       (* bits carried over from the previous character *)
  pads : N;           (* consecutive '=' seen *)
  bin_data : bytes;   (* output so far, newest first *)
  finished : bool     (* the padding closed the input: the rest is ignored *)
}.

(** One character of [a2b_base64(data, strict_mode=False)]. *)
Definition a2b_step (st : a2b_state) (c : byte) : a2b_state :=
  if finished st then st
  else if Byte.eqb c BASE64_PAD then
    if (2 <=? quad_pos st) && (4 <=? quad_pos st + (pads st + 1)) then
      A2B (quad_pos st) (leftchar st) (pads st + 1) (bin_data st) true
    else
      A2B (quad_pos st) (leftchar st)
          (if 2 <=? quad_pos st then pads st + 1 else pads st)
          (bin_data st) false
  else
    match a2b c with
    | None => st
    | Some v =>
        match quad_pos st with
        | 0 => A2B 1 v 0 (bin_data st) false
        | 1 => A2B 2 (N.land v 0x0F) 0
                 (byte_of_N (N.lor (N.shiftl (leftchar st) 2) (N.shiftr v 4))
                  :: bin_data st) false
        | 2 => A2B 3 (N.land v 0x03) 0
                 (byte_of_N (N.lor (N.shiftl (leftchar st) 4) (N.shiftr v 2))
                  :: bin_data st) false
        | _ => A2B 0 0 0
                 (byte_of_N (N.lor (N.shiftl (leftchar st) 6) v)
                  :: bin_data st) false
        end
    end.

Definition incorrect_padding : exn :=
  Raise BinasciiError (lit "Incorrect padding").

Definition one_more_than_multiple_of_4 : exn :=
  Raise BinasciiError
    (lit "Invalid base64-encoded string: number of data characters cannot be 1 more than a multiple of 4").

(** [a2b_base64(data, strict_mode=False)] *)
Definition a2b_base64 (data : bytes) : result bytes :=
  let st := fold_left a2b_step data (A2B 0 0 0 [] false) in
  if finished st || (quad_pos st =? 0) then Ok (rev (bin_data st))
  else if quad_pos st =? 1 then Err one_more_than_multiple_of_4
  else Err incorrect_padding.

End binascii.

Module base64.

(** [bytes.maketrans(frm, to)] as the function the table stands for. *)
Fixpoint maketrans (frm to : bytes) (b : byte) : byte :=
  match frm, to with
  | f :: frm', t :: to' => if Byte.eqb b f then t else maketrans frm' to' b
  | _, _ => b
  end.

(** [s.translate(table)] *)
Definition translate (table : byte -> byte) (s : bytes) : bytes :=
  map table s.

Definition _urlsafe_encode_translation : byte -> byte :=
  maketrans (blit "+/") (blit "-_").
Definition _urlsafe_decode_translation : byte -> byte :=
  maketrans (blit "-_") (blit "+/").

Definition _bytes_from_decode_data (s : pyobj) : result bytes :=
  match s with
  | PyStr t =>
      match codecs.ascii_encode t with
      | Ok b => Ok b
      | Err _ =>
          Err (Raise ValueError
                 (lit "string argument should contain only ASCII characters"))
      end
  | PyBytes b => Ok b
  end.

Definition b64encode (s : bytes) : bytes := binascii.b2a_base64 s.

Definition b64decode (s : pyobj) : result bytes :=
  let* s := _bytes_from_decode_data s in
  binascii.a2b_base64 s.

Definition urlsafe_b64encode (s : bytes) : bytes :=
  translate _urlsafe_encode_translation (b64encode s).

Definition urlsafe_b64decode (s : pyobj) : result bytes :=
  let* s := _bytes_from_decode_data s in
  let s := translate _urlsafe_decode_translation s in
  b64decode (PyBytes s).

End base64.

(** ** key_generate.py *)

Definition to_url_safe_base64_32_bytes (user_input : pyobj) : result pystr :=
  (* Step 1: Convert input to bytes *)
  let* user_input :=
    match user_input with
    | PyStr s => codecs.utf_8_encode s
    | PyBytes b => Ok b
    end in
  (* Step 2: Hash input to ensure it's 32 bytes *)
  let hashed_input := hashlib.sha256_digest user_input in
  (* Step 3: Base64 URL-safe encoding *)
  let* url_safe_encoded :=
    codecs.utf_8_decode (base64.urlsafe_b64encode hashed_input) in
  Ok url_safe_encoded.

(** ** The process a call runs in

    What a Python call can read besides its arguments: the clock, the
    random source, the seed of [hash()] and the objects allocated so far.
    [hashlib.sha256(data)] allocates a hash object that has absorbed
    [data]; [h.digest()] reads the object [h] refers to. *)
Module process.

Record hash_object : Type := HashObject {
  absorbed : bytes            (* what update() has been given so far *)
}.

Record state : Type := State {
  time_time : N;              (* time.time() *)
  os_urandom : N;             (* what os.urandom() would return next *)
  hash_seed : N;              (* PYTHONHASHSEED *)
  heap : list hash_object     (* the hash objects allocated so far, by address *)
}.

(** A call: from the state of the process to a result and the state it
    leaves. *)
Definition call (A : Type) : Type := state -> result A * state.

Definition ret {A} (a : A) : call A := fun p => (Ok a, p).

Definition bind {A B} (m : call A) (k : A -> call B) : call B :=
  fun p =>
    match m p with
    | (Ok a, p') => k a p'
    | (Err e, p') => (Err e, p')
    end.

Definition lift {A} (r : result A) : call A := fun p => (r, p).

(** [hashlib.sha256(data)]: a new object, at a fresh address. *)
Definition hashlib_sha256 (data : bytes) : call nat :=
  fun p =>
    (Ok (length (heap p)),
     State (time_time p) (os_urandom p) (hash_seed p)
           (heap p ++ [HashObject data])).

(** [h.digest()] *)
Definition digest (h : nat) : call bytes :=
  fun p =>
    match nth_error (heap p) h with
    | Some o => (Ok (hashlib.sha256_digest (absorbed o)), p)
    | None => (Err (Raise (OtherError "ReferenceError") []), p)
    end.

(** key_generate.py, with the state of the process made explicit. *)
Definition to_url_safe_base64_32_bytes (user_input : pyobj) : call pystr :=
  (* Step 1: Convert input to bytes *)
  bind (match user_input with
        | PyStr s => lift (codecs.utf_8_encode s)
        | PyBytes b => ret b
        end) (fun user_input =>
  (* Step 2: Hash input to ensure it's 32 bytes *)
  bind (hashlib_sha256 user_input) (fun h =>
  bind (digest h) (fun hashed_input =>
  (* Step 3: Base64 URL-safe encoding *)
  bind (lift (codecs.utf_8_decode (base64.urlsafe_b64encode hashed_input)))
       (fun url_safe_encoded =>
  ret url_safe_encoded)))).

End process.

(** ** The external capabilities main.py calls *)

(** *** cryptography.fernet

    The constructor is the library's: it decodes the key and checks its
    length.  What [encrypt] and [decrypt] compute is the cipher's business
    and stays behind an interface. *)
Module fernet.

Record Fernet : Type := MkFernet {
  _signing_key : bytes;
  _encryption_key : bytes
}.

Definition malformed_key : exn :=
  Raise ValueError (lit "Fernet key must be 32 url-safe base64-encoded bytes.").

(** [Fernet(key)]: a binascii.Error of the decoder is turned into the
    ValueError above; a wrong length raises the same. *)
Definition __init__ (key : pyobj) : result Fernet :=
  match base64.urlsafe_b64decode key with
  | Err e =>
      match exn_cls e with
      | BinasciiError => Err malformed_key
      | _ => Err e
      end
  | Ok key =>
      if negb (length key =? 32)%nat then Err malformed_key
      else Ok (MkFernet (firstn 16 key) (skipn 16 key))
  end.

(** The 32 bytes the two halves come from. *)
Definition raw_key (f : Fernet) : bytes := _signing_key f ++ _encryption_key f.

End fernet.

(** [fernet.encrypt] reads the clock and draws an initialisation vector:
    [entropy] is what it reads.  [fernet.decrypt] returns the plaintext or
    raises InvalidToken. *)
Class Cipher : Type := {
  entropy : Type;
  encrypt : fernet.Fernet -> entropy -> bytes -> bytes;
  decrypt : fernet.Fernet -> bytes -> result bytes
}.

(** ** What Fernet does with a key and a token (cryptography.fernet)

    The token format, the padding and the HMAC are the library's; the block
    cipher, AES in CBC mode, stays behind an interface. *)

(** *** HMAC-SHA256 (RFC 2104), as [HMAC(key, hashes.SHA256())] computes it *)
Module hmac.

Definition block_size : nat := 64.

Definition xor_with (pad : N) (key : bytes) : bytes :=
  map (fun b => byte_of_N (N.lxor (Byte.to_N b) pad)) key.

(** The key, hashed when longer than a block and filled with zeros. *)
Definition block_key (key : bytes) : bytes :=
  let key := if (block_size <? length key)%nat
             then hashlib.sha256_digest key else key in
  key ++ repeat x00 (block_size - length key).

Definition digest (key msg : bytes) : bytes :=
  let k := block_key key in
  hashlib.sha256_digest
    (xor_with 0x5C k ++ hashlib.sha256_digest (xor_with 0x36 k ++ msg)).

End hmac.

(** *** PKCS7 padding to blocks of 16 bytes *)
Module padding.

Definition invalid_padding : exn := Raise ValueError (lit "Invalid padding bytes.").

(** [padder.update(data) + padder.finalize()] *)
Definition pad (data : bytes) : bytes :=
  let n := (16 - length data mod 16)%nat in
  data ++ repeat (byte_of_N (N.of_nat n)) n.

(** [unpadder.update(data) + unpadder.finalize()]: whole blocks, and the
    last byte says how many bytes of that value end the data. *)
Definition unpad (data : bytes) : result bytes :=
  match rev data with
  | [] => Err invalid_padding
  | last :: _ =>
      let n := N.to_nat (Byte.to_N last) in
      if ((length data mod 16 =? 0) && (1 <=? n) && (n <=? 16))%nat
         && forallb (Byte.eqb last) (skipn (length data - n) data)
      then Ok (firstn (length data - n) data)
      else Err invalid_padding
  end.

End padding.

(** *** AES in CBC mode: the capability Fernet encrypts with.
    [cbc_decrypt] is [decryptor.update(data) + decryptor.finalize()], which
    raises ValueError on data that is not whole blocks. *)
Class BlockCipher : Type := {
  cbc_encrypt : bytes -> bytes -> bytes -> bytes;          (* key, iv, data *)
  cbc_decrypt : bytes -> bytes -> bytes -> result bytes
}.

Module token.

Section Scheme.

Context {aes : BlockCipher}.

(** What [encrypt] reads: [int(time.time())] and [os.urandom(16)]. *)
Record clock_and_random : Type := ClockAndRandom {
  current_time : N;
  iv : bytes
}.

(** [n.to_bytes(length=8, byteorder="big")], for a time below 2^64. *)
Definition to_bytes8 (n : N) : bytes :=
  map (fun i => byte_of_N (N.shiftr n (8 * i))) [7; 6; 5; 4; 3; 2; 1; 0].

Definition invalid_token : exn := Raise InvalidToken [].

Definition _encrypt_from_parts (f : fernet.Fernet) (data : bytes)
           (current_time : N) (iv : bytes) : bytes :=
  let padded_data := padding.pad data in
  let ciphertext := cbc_encrypt (fernet._encryption_key f) iv padded_data in
  let basic_parts := [x80] ++ to_bytes8 current_time ++ iv ++ ciphertext in
  let hmac := hmac.digest (fernet._signing_key f) basic_parts in
  base64.urlsafe_b64encode (basic_parts ++ hmac).

Definition encrypt (f : fernet.Fernet) (rnd : clock_and_random) (data : bytes)
  : bytes :=
  _encrypt_from_parts f data (current_time rnd) (iv rnd).

(** The decoded token, once its first byte is the version 0x80 and it has
    room for the timestamp. *)
Definition _get_unverified_token_data (token : bytes) : result bytes :=
  match base64.urlsafe_b64decode (PyBytes token) with
  | Err _ => Err invalid_token
  | Ok data =>
      match data with
      | [] => Err invalid_token
      | version :: _ =>
          if negb (Byte.eqb version x80) then Err invalid_token
          else if (length data <? 9)%nat then Err invalid_token
          else Ok data
      end
  end.

(** [data[:-32]] and [data[-32:]] *)
Definition signed_part (data : bytes) : bytes := firstn (length data - 32) data.
Definition tag_part (data : bytes) : bytes := skipn (length data - 32) data.

Definition bytes_eqb (a b : bytes) : bool :=
  if list_eq_dec Byte.byte_eq_dec a b then true else false.

Definition _verify_signature (f : fernet.Fernet) (data : bytes) : result unit :=
  if bytes_eqb (hmac.digest (fernet._signing_key f) (signed_part data))
               (tag_part data)
  then Ok tt else Err invalid_token.

Definition _decrypt_data (f : fernet.Fernet) (data : bytes) : result bytes :=
  let* _ := _verify_signature f data in
  let iv := firstn 16 (skipn 9 data) in                              (* data[9:25] *)
  let ciphertext := firstn (length data - 32 - 25) (skipn 25 data) in (* data[25:-32] *)
  if negb (length iv =? 16)%nat then
    (* modes.CBC(iv) refuses a short iv with a ValueError that names its
       size; it is not turned into InvalidToken *)
    Err (Raise ValueError (lit "Invalid IV size for CBC."))
  else
    match cbc_decrypt (fernet._encryption_key f) iv ciphertext with
    | Err _ => Err invalid_token
    | Ok plaintext_padded =>
        match padding.unpad plaintext_padded with
        | Err _ => Err invalid_token
        | Ok unpadded => Ok unpadded
        end
    end.

(** [fernet.decrypt(token)], without ttl. *)
Definition decrypt (f : fernet.Fernet) (token : bytes) : result bytes :=
  let* data := _get_unverified_token_data token in
  _decrypt_data f data.

#[export] Instance cipher : Cipher :=
  Build_Cipher clock_and_random encrypt decrypt.

End Scheme.

End token.

(** *** PIL.Image

    [image_save im fmt] is [im.save(buf, format=fmt)] followed by
    [buf.getvalue()] on a fresh [io.BytesIO].  [Image_open data] is
    [Image.open] together with the decoding of the pixel data, which PIL
    puts off until the image is first used: main.py shows every image it
    opens with st.image before anything else happens to it, so an image
    that does not decode fails at the same place of a run, inside or
    outside the same try block.  [Lazy] below keeps the two steps apart
    and [lazy_main_eager] proves that the runs are the same. *)
Class Codec : Type := {
  image : Type;
  pixels : Type;
  image_format : image -> option pystr;
  image_pixels : image -> pixels;
  Image_open : bytes -> result image;
  image_save : image -> option pystr -> result bytes
}.

Definition pixel_equivalent {codec : Codec} (a b : image) : Prop :=
  image_pixels a = image_pixels b.

(** ** Effects: the calls that reach the screen and the cipher, in order *)

Section Orchestrator.

Context {cipher : Cipher} {codec : Codec}.

(** The streamlit calls of main.py with the arguments that matter. *)
Inductive st_call : Type :=
| st_title (body : pystr)
| st_sidebar_title (body : pystr)
| st_sidebar_radio (label : pystr) (options : list pystr)
| st_sidebar_text_input (label : pystr) (type : pystr)
| st_file_uploader (label : pystr) (type : list pystr)
| st_image (im : image) (caption : pystr)
| st_success (body : pystr)
| st_download_button (label : pystr) (data : bytes) (file_name mime : pystr)
| st_error (body : pystr)
| st_warning (body : pystr).

Inductive event : Type :=
| Shown (c : st_call)
| FernetInit (key : pyobj)
| FernetEncrypt (data : bytes)
| FernetDecrypt (token : bytes).

(** A run: the events so far, and a value or the exception in flight. *)
Definition run (A : Type) : Type := (list event * result A)%type.

Definition ret {A} (a : A) : run A := ([], Ok a).

Definition bind {A B} (m : run A) (k : A -> run B) : run B :=
  match m with
  | (log, Ok a) => let (log', r) := k a in (log ++ log', r)
  | (log, Err e) => (log, Err e)
  end.

Definition lift {A} (r : result A) : run A := ([], r).

Definition tell (ev : event) : run unit := ([ev], Ok tt).

(** A streamlit call: it is recorded and returns.  What a call of main.py
    can raise comes from its argument: st.image decodes the image it is
    given, and that decoding is accounted for in the codec ([Image_open],
    and [Lazy.st_image_] where the two steps are apart). *)
Definition st (c : st_call) : run unit := tell (Shown c).

(** [try: body except Exception as e: handler] *)
Definition try_except {A} (body : run A) (handler : exn -> run A) : run A :=
  match body with
  | (log, Err e) => let (log', r) := handler e in (log ++ log', r)
  | (log, Ok a) => (log, Ok a)
  end.

Definition events {A} (m : run A) : list event := fst m.
Definition outcome {A} (m : run A) : result A := snd m.

End Orchestrator.

Declare Scope run_scope.
Delimit Scope run_scope with run.
Notation "x <- m ;; k" := (bind m (fun x => k))
  (at level 61, m at next level, right associativity) : run_scope.
Notation "m ;; k" := (bind m (fun _ => k))
  (at level 61, right associativity) : run_scope.

(** ** main.py *)

Section Main.

Context {cipher : Cipher} {codec : Codec}.

Local Open Scope run_scope.

Definition Fernet (key : pyobj) : run fernet.Fernet :=
  tell (FernetInit key) ;; lift (fernet.__init__ key).

Definition fernet_encrypt (f : fernet.Fernet) (rnd : entropy) (data : bytes)
  : run bytes :=
  tell (FernetEncrypt data) ;; ret (encrypt f rnd data).

Definition fernet_decrypt (f : fernet.Fernet) (token : bytes) : run bytes :=
  tell (FernetDecrypt token) ;; lift (decrypt f token).

(** [rnd] is what [fernet.encrypt] reads from the clock and the random
    source during the call. *)
Definition encrypt_image (image : image) (key : pyobj) (rnd : entropy)
  : run bytes :=
  fernet <- Fernet key ;;
  image_bytes <- lift (image_save image (image_format image)) ;;
  encrypted_data <- fernet_encrypt fernet rnd image_bytes ;;
  ret encrypted_data.

Definition decrypt_image (encrypted_data : bytes) (key : pyobj) : run image :=
  fernet <- Fernet key ;;
  decrypted_data <- fernet_decrypt fernet encrypted_data ;;
  decrypted_image <- lift (Image_open decrypted_data) ;;
  ret decrypted_image.

(** The sidebar choice. *)
Inductive action : Type := Encrypt_an_Image | Decrypt_an_Image.

Definition action_label (a : action) : pystr :=
  match a with
  | Encrypt_an_Image => lit "Encrypt an Image"
  | Decrypt_an_Image => lit "Decrypt an Image"
  end.

(** What the widgets return during one run of the script. *)
Record session : Type := Session {
  radio : action;                  (* st.sidebar.radio *)
  text_input : pystr;              (* st.sidebar.text_input *)
  file_uploader : option bytes;    (* st.file_uploader: None, or the file's content *)
  urandom : entropy                (* what fernet.encrypt reads *)
}.

(** [x or default] on an optional str. *)
Definition str_or (x : option pystr) (default : pystr) : pystr :=
  match x with
  | Some s => if truthy s then s else default
  | None => default
  end.

(** [s.lower()] on the letters A-Z; format names are ASCII. *)
Definition lower (s : pystr) : pystr :=
  map (fun c => if (0x41 <=? c) && (c <=? 0x5A) then c + 32 else c) s.

Definition main (ss : session) : run unit :=
  st (st_title (lit "Image Encryption and Decryption Using AES")) ;;
  (* Sidebar *)
  st (st_sidebar_title (lit "Options")) ;;
  st (st_sidebar_radio (lit "Choose an action")
        [action_label Encrypt_an_Image; action_label Decrypt_an_Image]) ;;
  let option := radio ss in
  st (st_sidebar_text_input (lit "Encryption Key (Use a valid Fernet key)")
        (lit "password")) ;;
  let user_input := text_input ss in
  key <- lift (to_url_safe_base64_32_bytes (PyStr user_input)) ;;
  match option with
  | Encrypt_an_Image =>
      st (st_file_uploader (lit "Upload an Image")
            [lit "jpg"; lit "jpeg"; lit "png"]) ;;
      match file_uploader ss with
      | Some uploaded_file =>
          image <- lift (Image_open uploaded_file) ;;
          st (st_image image (lit "Original Image")) ;;
          if truthy key then
            try_except
              (key_bytes <- lift (codecs.utf_8_encode key) ;;
               encrypted_data <- encrypt_image image (PyBytes key_bytes) (urandom ss) ;;
               st (st_success (lit "Image Encrypted Successfully!")) ;;
               st (st_download_button (lit "Download Encrypted Image")
                     encrypted_data (lit "encrypted_image.enc")
                     (lit "application/octet-stream")))
              (fun e => st (st_error (lit "Encryption failed: " ++ exn_str e)))
          else
            st (st_warning (lit "Please provide a valid encryption key."))
      | None => ret tt
      end
  | Decrypt_an_Image =>
      st (st_file_uploader (lit "Upload Encrypted Image") [lit "enc"]) ;;
      match file_uploader ss with
      | Some encrypted_file =>          (* if encrypted_file and key: *)
          if truthy key then
            try_except
              (key_bytes <- lift (codecs.utf_8_encode key) ;;
               let encrypted_data := encrypted_file in
               decrypted_image <- decrypt_image encrypted_data (PyBytes key_bytes) ;;
               st (st_image decrypted_image (lit "Decrypted Image")) ;;
               (* Save decrypted image to bytes for download *)
               let decrypted_image_format :=
                 str_or (image_format decrypted_image) (lit "PNG") in
               decrypted_image_bytes <-
                 lift (image_save decrypted_image (Some decrypted_image_format)) ;;
               st (st_download_button (lit "Download Decrypted Image")
                     decrypted_image_bytes
                     (lit "decrypted_image." ++ lower decrypted_image_format)
                     (lit "image/" ++ lower decrypted_image_format)))
              (fun e => st (st_error (lit "Decryption failed: " ++ exn_str e)))
          else
            st (st_warning
                  (lit "Please upload an encrypted image and provide a valid encryption key."))
      | None =>
          st (st_warning
                (lit "Please upload an encrypted image and provide a valid encryption key."))
      end
  end.

End Main.

(** ** The key-derivation contract in the words of the specification

    "Compute a cryptographic hash digest of the UTF-8 encoding of the
    input, producing exactly 32 bytes; encode those bytes with the URL-safe
    base64 alphabet (- and _ substituted for + and /, including padding)."
    Base64 is written here as RFC 4648 describes it: a group of 24 input
    bits is read as four 6-bit indices into the alphabet. *)
Module KeySpec.

Definition urlsafe_alphabet : pystr :=
  lit "ABCDEFGHIJKLMNOPQRSTUVWXYZabcdefghijklmnopqrstuvwxyz0123456789-_".

Definition pad_char : N := 61.   (* '=' *)

Definition digit (i : N) : N := nth (N.to_nat (i mod 64)) urlsafe_alphabet 0.

Fixpoint urlsafe_base64 (data : bytes) : pystr :=
  match data with
  | [] => []
  | [x] =>
      let v := 16 * Byte.to_N x in                 (* 8 bits and 4 zero bits *)
      [digit (v / 64); digit v; pad_char; pad_char]
  | [x; y] =>
      let v := 4 * (256 * Byte.to_N x + Byte.to_N y) in   (* 16 bits and 2 zero bits *)
      [digit (v / 4096); digit (v / 64); digit v; pad_char]
  | x :: y :: z :: rest =>
      let v := 65536 * Byte.to_N x + 256 * Byte.to_N y + Byte.to_N z in
      digit (v / 262144) :: digit (v / 4096) :: digit (v / 64) :: digit v
      :: urlsafe_base64 rest
  end.

(** The derived key of a passphrase whose UTF-8 encoding is [utf8]. *)
Definition derived_key (utf8 : bytes) : pystr :=
  urlsafe_base64 (hashlib.sha256_digest utf8).

(** A Unicode scalar value: a code point that is not a surrogate. *)
Definition scalar_value (c : N) : Prop :=
  c < 0xD800 \/ (0xDFFF < c /\ c <= 0x10FFFF).

(** Text: a str with a UTF-8 encoding. *)
Definition well_formed_text (s : pystr) : Prop := Forall scalar_value s.

(** A str that holds a surrogate code point. *)
Definition holds_surrogate (s : pystr) : Prop :=
  Exists (fun c => 0xD800 <= c /\ c <= 0xDFFF) s.

(** The inputs the derivation accepts. *)
Definition encodable (x : pyobj) : Prop :=
  match x with
  | PyStr s => well_formed_text s
  | PyBytes _ => True
  end.

End KeySpec.

(** ** Contracts of the capabilities *)

Section Contracts.

Context (cipher : Cipher) (codec : Codec).

(** A token decrypts, under the key that made it, to what was encrypted. *)
Definition decrypts_own_tokens : Prop :=
  forall f rnd data, decrypt f (encrypt f rnd data) = Ok data.

(** The codec reads back, pixel for pixel, what it writes for [im] in
    [im]'s own format. *)
Definition saved_faithfully (im : image) : Prop :=
  exists data im',
    image_save im (image_format im) = Ok data
    /\ Image_open data = Ok im'
    /\ pixel_equivalent im' im.

End Contracts.

(** ** Reference instances of the two interfaces *)
Module Reference.

(** The ideal cipher: a token is the payload sealed with the key, and
    opens under that key only. *)
Fixpoint strip_prefix (p tok : bytes) : option bytes :=
  match p, tok with
  | [], _ => Some tok
  | a :: p', b :: tok' => if Byte.eqb a b then strip_prefix p' tok' else None
  | _ :: _, [] => None
  end.

Definition seal (f : fernet.Fernet) (_ : unit) (data : bytes) : bytes :=
  fernet.raw_key f ++ data.

Definition unseal (f : fernet.Fernet) (token : bytes) : result bytes :=
  match strip_prefix (fernet.raw_key f) token with
  | Some data => Ok data
  | None => Err (Raise InvalidToken [])
  end.

#[export] Instance cipher : Cipher :=
  {| entropy := unit; encrypt := seal; decrypt := unseal |}.

(** A codec with a lossless format, a lossy one, a read-only one and a
    raw one.  A "PNG" file is 'P' and the samples.  A "JPEG" file is 'J',
    the quantisation step and the quantised samples; it is written with
    step 4 whatever the step of the file the image came from.  A "PSD"
    file is 'S' and the samples; the codec reads it and has no writer for
    it.  A raw file is 'R' and the samples, and its image carries no
    format. *)
Record picture : Type := Picture {
  picture_format : option pystr;
  samples : list N
}.

Definition pystr_eqb (s t : pystr) : bool :=
  if list_eq_dec N.eq_dec s t then true else false.

Definition unidentified : exn :=
  Raise (OtherError "UnidentifiedImageError") (lit "cannot identify image file").

Definition open (data : bytes) : result picture :=
  match data with
  | tag :: body =>
      if Byte.eqb tag "P"%byte then
        Ok (Picture (Some (lit "PNG")) (map Byte.to_N body))
      else if Byte.eqb tag "S"%byte then
        Ok (Picture (Some (lit "PSD")) (map Byte.to_N body))
      else if Byte.eqb tag "R"%byte then
        Ok (Picture None (map Byte.to_N body))
      else if Byte.eqb tag "J"%byte then
        match body with
        | step :: body' =>
            Ok (Picture (Some (lit "JPEG"))
                  (map (fun b => Byte.to_N step * Byte.to_N b) body'))
        | [] => Err unidentified
        end
      else Err unidentified
  | [] => Err unidentified
  end.

Definition save (im : picture) (fmt : option pystr) : result bytes :=
  match fmt with
  | None => Err (Raise ValueError (lit "unknown file extension: "))
  | Some f =>
      if pystr_eqb f (lit "PNG") then
        Ok ("P"%byte :: map byte_of_N (samples im))
      else if pystr_eqb f (lit "JPEG") then
        Ok ("J"%byte :: x04 :: map (fun p => byte_of_N (p / 4)) (samples im))
      else Err (Raise (OtherError "KeyError") (lit "'" ++ f ++ lit "'"))
  end.

#[export] Instance codec : Codec :=
  {| image := picture;
     pixels := list N;
     image_format := picture_format;
     image_pixels := samples;
     Image_open := open;
     image_save := save |}.

End Reference.

(** A toy block cipher for sample runs: CBC chaining over the block
    function that adds the key bit by bit.  It shows the mode, not AES. *)
Module XorCBC.

Fixpoint xor_bytes (a b : bytes) : bytes :=
  match a, b with
  | x :: a', y :: b' =>
      byte_of_N (N.lxor (Byte.to_N x) (Byte.to_N y)) :: xor_bytes a' b'
  | _, _ => a
  end.

Fixpoint encrypt_blocks (n : nat) (key prev data : bytes) : bytes :=
  match n with
  | O => []
  | S n' =>
      let c := xor_bytes (xor_bytes (firstn 16 data) prev) key in
      c ++ encrypt_blocks n' key c (skipn 16 data)
  end.

Fixpoint decrypt_blocks (n : nat) (key prev data : bytes) : bytes :=
  match n with
  | O => []
  | S n' =>
      let c := firstn 16 data in
      xor_bytes (xor_bytes c key) prev ++ decrypt_blocks n' key c (skipn 16 data)
  end.

#[export] Instance block_cipher : BlockCipher :=
  {| cbc_encrypt key iv data := encrypt_blocks (length data / 16) key iv data;
     cbc_decrypt key iv data :=
       if (length data mod 16 =? 0)%nat
       then Ok (decrypt_blocks (length data / 16) key iv data)
       else Err (Raise ValueError
                   (lit "The length of the provided data is not a multiple of the block length.")) |}.

End XorCBC.

(** ** Lazy opening

    PIL opens an image lazily: [Image.open] reads the header, and the
    pixel data is decoded when it is first needed, by [image.load()], which
    st.image and [image.save] call.  A file whose header reads and whose
    data is cut short opens and then fails to load.  [Lazy.main] is main.py
    with the two steps apart; [Lazy.eager] is the codec that [main] above
    runs on, whose [Image_open] is the opening followed by the load. *)
Module Lazy.

Class LazyCodec : Type := {
  lazy_image : Type;
  lazy_pixels : Type;
  lazy_format : lazy_image -> option pystr;
  lazy_image_pixels : lazy_image -> lazy_pixels;
  lazy_open : bytes -> result lazy_image;                    (* Image.open *)
  load : lazy_image -> result unit;                          (* image.load() *)
  lazy_save : lazy_image -> option pystr -> result bytes     (* image.save *)
}.

Section Main.

Context {cipher : Cipher} {lc : LazyCodec}.

#[export] Instance eager : Codec :=
  {| image := lazy_image;
     pixels := lazy_pixels;
     image_format := lazy_format;
     image_pixels := lazy_image_pixels;
     Image_open data :=
       let* im := lazy_open data in
       let* _ := load im in
       Ok im;
     image_save := lazy_save |}.

Local Open Scope run_scope.

(** [st.image(image, caption=...)]: the image is decoded, then shown. *)
Definition st_image_ (im : lazy_image) (caption : pystr) : run unit :=
  lift (load im) ;; st (st_image im caption).

Definition decrypt_image (encrypted_data : bytes) (key : pyobj)
  : run lazy_image :=
  fernet <- Fernet key ;;
  decrypted_data <- fernet_decrypt fernet encrypted_data ;;
  decrypted_image <- lift (lazy_open decrypted_data) ;;
  ret decrypted_image.

Definition main (ss : session) : run unit :=
  st (st_title (lit "Image Encryption and Decryption Using AES")) ;;
  (* Sidebar *)
  st (st_sidebar_title (lit "Options")) ;;
  st (st_sidebar_radio (lit "Choose an action")
        [action_label Encrypt_an_Image; action_label Decrypt_an_Image]) ;;
  let option := radio ss in
  st (st_sidebar_text_input (lit "Encryption Key (Use a valid Fernet key)")
        (lit "password")) ;;
  let user_input := text_input ss in
  key <- lift (to_url_safe_base64_32_bytes (PyStr user_input)) ;;
  match option with
  | Encrypt_an_Image =>
      st (st_file_uploader (lit "Upload an Image")
            [lit "jpg"; lit "jpeg"; lit "png"]) ;;
      match file_uploader ss with
      | Some uploaded_file =>
          image <- lift (lazy_open uploaded_file) ;;
          st_image_ image (lit "Original Image") ;;
          if truthy key then
            try_except
              (key_bytes <- lift (codecs.utf_8_encode key) ;;
               encrypted_data <- encrypt_image image (PyBytes key_bytes) (urandom ss) ;;
               st (st_success (lit "Image Encrypted Successfully!")) ;;
               st (st_download_button (lit "Download Encrypted Image")
                     encrypted_data (lit "encrypted_image.enc")
                     (lit "application/octet-stream")))
              (fun e => st (st_error (lit "Encryption failed: " ++ exn_str e)))
          else
            st (st_warning (lit "Please provide a valid encryption key."))
      | None => ret tt
      end
  | Decrypt_an_Image =>
      st (st_file_uploader (lit "Upload Encrypted Image") [lit "enc"]) ;;
      match file_uploader ss with
      | Some encrypted_file =>          (* if encrypted_file and key: *)
          if truthy key then
            try_except
              (key_bytes <- lift (codecs.utf_8_encode key) ;;
               let encrypted_data := encrypted_file in
               decrypted_image <- decrypt_image encrypted_data (PyBytes key_bytes) ;;
               st_image_ decrypted_image (lit "Decrypted Image") ;;
               (* Save decrypted image to bytes for download *)
               let decrypted_image_format :=
                 str_or (lazy_format decrypted_image) (lit "PNG") in
               decrypted_image_bytes <-
                 lift (lazy_save decrypted_image (Some decrypted_image_format)) ;;
               st (st_download_button (lit "Download Decrypted Image")
                     decrypted_image_bytes
                     (lit "decrypted_image." ++ lower decrypted_image_format)
                     (lit "image/" ++ lower decrypted_image_format)))
              (fun e => st (st_error (lit "Decryption failed: " ++ exn_str e)))
          else
            st (st_warning
                  (lit "Please upload an encrypted image and provide a valid encryption key."))
      | None =>
          st (st_warning
                (lit "Please upload an encrypted image and provide a valid encryption key."))
      end
  end.

End Main.

(** The reference codec opened lazily; a file that starts with 'T' is a
    PNG cut short: it opens and does not load. *)
Definition truncated : exn :=
  Raise (OtherError "OSError") (lit "image file is truncated").

#[export] Instance reference : LazyCodec :=
  {| lazy_image := bool * Reference.picture;
     lazy_pixels := list N;
     lazy_format im := Reference.picture_format (snd im);
     lazy_image_pixels im := Reference.samples (snd im);
     lazy_open data :=
       match data with
       | tag :: body =>
           if Byte.eqb tag "T"%byte
           then Ok (false, Reference.Picture (Some (lit "PNG")) (map Byte.to_N body))
           else let* im := Reference.open data in Ok (true, im)
       | [] => Err Reference.unidentified
       end;
     load im := if fst im then Ok tt else Err truncated;
     lazy_save im fmt :=
       if fst im then Reference.save (snd im) fmt else Err truncated |}.

End Lazy.

(** ** Auxiliary definitions of the proofs *)

(** Checking a property of small numbers by enumeration. *)
Fixpoint all_below (n : nat) (p : N -> bool) : bool :=
  match n with
  | O => true
  | S k => p (N.of_nat k) && all_below k p
  end.

Definition pair_check (p : N -> N -> bool) : bool :=
  all_below 256 (fun n => all_below 256 (p n)).

(** A byte that is an ASCII character. *)
Definition is_ascii (b : byte) : bool := Byte.to_N b <? 0x80.

(** A character of an encoding, once translated back by the decoder. *)
Definition back (c : byte) : byte :=
  base64._urlsafe_decode_translation (base64._urlsafe_encode_translation c).

Definition reads_as (s : N) : bool :=
  let c := back (binascii.b2a s) in
  negb (Byte.eqb c binascii.BASE64_PAD)
  && match binascii.a2b c with Some v => v =? s | None => false end.

(** The key as a function of the bytes that are hashed, the bytes
    [key.encode()] gives, and the cipher object built from either. *)
Definition key_of (data : bytes) : pystr :=
  map Byte.to_N (base64.urlsafe_b64encode (hashlib.sha256_digest data)).

Definition key_bytes_of (data : bytes) : bytes :=
  base64.urlsafe_b64encode (hashlib.sha256_digest data).

Definition fernet_of (raw : bytes) : fernet.Fernet :=
  fernet.MkFernet (firstn 16 raw) (skipn 16 raw).

Definition fernet_of_key (data : bytes) : fernet.Fernet :=
  fernet_of (hashlib.sha256_digest data).

(** The calls every run starts with, up to the file uploader of the chosen
    action. *)
Definition page_header {codec : Codec} (a : action) : list event :=
  [Shown (st_title (lit "Image Encryption and Decryption Using AES"));
   Shown (st_sidebar_title (lit "Options"));
   Shown (st_sidebar_radio (lit "Choose an action")
            [action_label Encrypt_an_Image; action_label Decrypt_an_Image]);
   Shown (st_sidebar_text_input (lit "Encryption Key (Use a valid Fernet key)")
            (lit "password"));
   Shown (match a with
          | Encrypt_an_Image =>
              st_file_uploader (lit "Upload an Image")
                [lit "jpg"; lit "jpeg"; lit "png"]
          | Decrypt_an_Image =>
              st_file_uploader (lit "Upload Encrypted Image") [lit "enc"]
          end)].

(** What the encrypt branch does once the image is displayed. *)
Definition encrypt_events {cipher : Cipher} {codec : Codec}
  (f : fernet.Fernet) (key_bytes : bytes) (im : image) (rnd : entropy)
  : list event :=
  FernetInit (PyBytes key_bytes)
  :: match image_save im (image_format im) with
     | Ok data =>
         [FernetEncrypt data;
          Shown (st_success (lit "Image Encrypted Successfully!"));
          Shown (st_download_button (lit "Download Encrypted Image")
                   (encrypt f rnd data) (lit "encrypted_image.enc")
                   (lit "application/octet-stream"))]
     | Err e => [Shown (st_error (lit "Encryption failed: " ++ exn_str e))]
     end.

(** What the decrypt branch does with a file and a key. *)
Definition decrypt_events {cipher : Cipher} {codec : Codec}
  (f : fernet.Fernet) (key_bytes blob : bytes) : list event :=
  let failed e := [Shown (st_error (lit "Decryption failed: " ++ exn_str e))] in
  FernetInit (PyBytes key_bytes) :: FernetDecrypt blob
  :: match decrypt f blob with
     | Err e => failed e
     | Ok data =>
         match Image_open data with
         | Err e => failed e
         | Ok im =>
             let fmt := str_or (image_format im) (lit "PNG") in
             Shown (st_image im (lit "Decrypted Image"))
             :: match image_save im (Some fmt) with
                | Err e => failed e
                | Ok out =>
                    [Shown (st_download_button (lit "Download Decrypted Image")
                              out
                              (lit "decrypted_image." ++ lower fmt)
                              (lit "image/" ++ lower fmt))]
                end
         end
     end.





(** The calls of the sidebar, before any file uploader. *)
Definition sidebar_events {codec : Codec} : list event :=
  [Shown (st_title (lit "Image Encryption and Decryption Using AES"));
   Shown (st_sidebar_title (lit "Options"));
   Shown (st_sidebar_radio (lit "Choose an action")
            [action_label Encrypt_an_Image; action_label Decrypt_an_Image]);
   Shown (st_sidebar_text_input (lit "Encryption Key (Use a valid Fernet key)")
            (lit "password"))].

(** The warning of the decrypt branch. *)
Definition upload_warning : pystr :=
  lit "Please upload an encrypted image and provide a valid encryption key.".

(** An event that is a call to the cipher. *)
Definition is_cipher_call {codec : Codec} (ev : event) : bool :=
  match ev with
  | Shown _ => false
  | FernetInit _ | FernetEncrypt _ | FernetDecrypt _ => true
  end.

(** [len(key)] of what the cipher's constructor is given. *)
Definition pylen (x : pyobj) : nat :=
  match x with
  | PyStr s => length s
  | PyBytes b => length b
  end.

(** What the decoder still owes, in quarters of a byte, for the characters
    of an unfinished group of four. *)
Definition pending (quad_pos : N) : nat :=
  match quad_pos with
  | 0 => 0
  | 1 => 3
  | 2 => 2
  | _ => 1
  end.

(** The bytes of a token that its tag signs: version, time, iv and
    ciphertext. *)
Definition token_body {aes : BlockCipher} (f : fernet.Fernet)
           (rnd : token.clock_and_random) (data : bytes) : bytes :=
  [x80] ++ token.to_bytes8 (token.current_time rnd) ++ token.iv rnd
        ++ cbc_encrypt (fernet._encryption_key f) (token.iv rnd) (padding.pad data).

(** The signed bytes of a token as it is uploaded. *)
Definition signed_bytes (tok : bytes) : bytes :=
  match base64.urlsafe_b64decode (PyBytes tok) with
  | Ok data => token.signed_part data
  | Err _ => []
  end.

(** * Properties *)

(** ** Published vectors and sample runs of the library models *)

Example sha256_empty :
  hashlib.sha256_hexdigest (blit "") =
  "e3b0c44298fc1c149afbf4c8996fb92427ae41e4649b934ca495991b7852b855"%string.
Proof. vm_compute. reflexivity. Qed.

Example sha256_abc :
  hashlib.sha256_hexdigest (blit "abc") =
  "ba7816bf8f01cfea414140de5dae2223b00361a396177a9cb410ff61f20015ad"%string.
Proof. vm_compute. reflexivity. Qed.

Example sha256_two_blocks :
  hashlib.sha256_hexdigest
    (blit "abcdbcdecdefdefgefghfghighijhijkijkljklmklmnlmnomnopnopq") =
  "248d6a61d20638b8e5c026930c3e6039a33ce45964ff2167f6ecedd419db06c1"%string.
Proof. vm_compute. reflexivity. Qed.

Example utf8_euro : codecs.utf_8_encode [0x20AC] = Ok [xe2; x82; xac].
Proof. reflexivity. Qed.

Example utf8_emoji :
  codecs.utf_8_encode [0x1F600] = Ok [xf0; x9f; x98; x80]
  /\ codecs.utf_8_decode [xf0; x9f; x98; x80] = Ok [0x1F600].
Proof. split; reflexivity. Qed.

Example utf8_overlong_rejected :
  is_ok (codecs.utf_8_decode [xc0; x80]) = false
  /\ is_ok (codecs.utf_8_decode [xed; xa0; x80]) = false.
Proof. split; reflexivity. Qed.

Example b64_foobar :
  base64.b64encode (blit "foobar") = blit "Zm9vYmFy"
  /\ base64.b64encode (blit "fooba") = blit "Zm9vYmE="
  /\ base64.b64encode (blit "foob") = blit "Zm9vYg==".
Proof. repeat split; reflexivity. Qed.

Example b64_urlsafe :
  base64.urlsafe_b64encode [xfb; xff; xbf] = blit "-_-_"
  /\ base64.urlsafe_b64decode (PyStr (lit "-_-_")) = Ok [xfb; xff; xbf]
  /\ base64.urlsafe_b64decode (PyBytes (blit "Zm9vYg==")) = Ok (blit "foob")
  /\ base64.urlsafe_b64decode (PyBytes (blit "Zm9vYg=")) = Err binascii.incorrect_padding
  /\ base64.urlsafe_b64decode (PyBytes (blit "Z")) = Err binascii.one_more_than_multiple_of_4.
Proof. repeat split; reflexivity. Qed.

Example key_of_empty_passphrase :
  to_url_safe_base64_32_bytes (PyStr (lit "")) =
  Ok (lit "47DEQpj8HBSa-_TImW-5JCeuQeRkm5NMpJWZG3hSuFU=").
Proof. vm_compute. reflexivity. Qed.

Example key_of_secret :
  to_url_safe_base64_32_bytes (PyStr (lit "secret")) =
  Ok (lit "K7gNU3sdo-OL0wNhqoVWhr3g6s1xYv72ol_pe_Unols=").
Proof. vm_compute. reflexivity. Qed.

Example b64_lenient_decoder :
  base64.urlsafe_b64decode (PyBytes (blit "Zm9vYg=a=")) = Ok (blit "foob" ++ [x06])
  /\ base64.urlsafe_b64decode (PyBytes (blit "Zg==Zg==")) = Ok (blit "f")
  /\ base64.urlsafe_b64decode (PyBytes (blit "Zm9v=")) = Ok (blit "foo")
  /\ base64.urlsafe_b64decode (PyBytes (blit "Zg=a")) = Err binascii.incorrect_padding.
Proof. repeat split; reflexivity. Qed.

Example sha256_padding_boundaries :
  hashlib.sha256_hexdigest (repeat "a"%byte 55) =
  "9f4390f8d30c2dd92ec9f095b65e2b9ae9b0a925a5258e241c9f1e910f734318"%string
  /\ hashlib.sha256_hexdigest (repeat "a"%byte 64) =
     "ffe054fe7ae0cb6dc65c3af9b61d5209f439851db43d0ba5997337df154668eb"%string.
Proof. split; vm_compute; reflexivity. Qed.

Example utf8_boundaries :
  codecs.utf_8_encode [0xE9; 0x7FF; 0x800; 0xD7FF; 0xE000; 0xFFFF; 0x10000; 0x10FFFF]
  = Ok [xc3; xa9; xdf; xbf; xe0; xa0; x80; xed; x9f; xbf; xee; x80; x80;
        xef; xbf; xbf; xf0; x90; x80; x80; xf4; x8f; xbf; xbf]
  /\ codecs.utf_8_decode
       [xc3; xa9; xdf; xbf; xe0; xa0; x80; xed; x9f; xbf; xee; x80; x80;
        xef; xbf; xbf; xf0; x90; x80; x80; xf4; x8f; xbf; xbf]
     = Ok [0xE9; 0x7FF; 0x800; 0xD7FF; 0xE000; 0xFFFF; 0x10000; 0x10FFFF].
Proof. split; reflexivity. Qed.

Example utf8_decode_errors :
  codecs.utf_8_decode [xf4; x90; x80; x80]
  = Err (codecs.invalid_utf8 "invalid continuation byte")
  /\ codecs.utf_8_decode [xc1; xbf] = Err (codecs.invalid_utf8 "invalid start byte")
  /\ codecs.utf_8_decode [xe2; x82] = Err (codecs.invalid_utf8 "unexpected end of data").
Proof. repeat split; reflexivity. Qed.

Example utf8_cut_short :
  codecs.utf_8_decode [xe2; x41] = Err (codecs.invalid_utf8 "invalid continuation byte")
  /\ codecs.utf_8_decode [xe0; x80] = Err (codecs.invalid_utf8 "invalid continuation byte")
  /\ codecs.utf_8_decode [xed; xa0] = Err (codecs.invalid_utf8 "invalid continuation byte")
  /\ codecs.utf_8_decode [xf0; x9f; x41] = Err (codecs.invalid_utf8 "invalid continuation byte")
  /\ codecs.utf_8_decode [xf4; x90] = Err (codecs.invalid_utf8 "invalid continuation byte")
  /\ codecs.utf_8_decode [xf0; x9f; x98] = Err (codecs.invalid_utf8 "unexpected end of data")
  /\ codecs.utf_8_decode [xf0; x9f] = Err (codecs.invalid_utf8 "unexpected end of data")
  /\ codecs.utf_8_decode [xc3] = Err (codecs.invalid_utf8 "unexpected end of data")
  /\ codecs.utf_8_decode [xc3; x41] = Err (codecs.invalid_utf8 "invalid continuation byte").
Proof. repeat split; reflexivity. Qed.

Example hmac_rfc4231 :
  hashlib.hexlify (hmac.digest (repeat x0b 20) (blit "Hi There"))
  = "b0344c61d8db38535ca8afceaf0bf12b881dc200c9833da726e9376c2e32cff7"%string
  /\ hashlib.hexlify (hmac.digest (blit "Jefe") (blit "what do ya want for nothing?"))
     = "5bdcc146bf60754e6a042426089575c75a003f089d2739839dec58b964ec3843"%string
  /\ hashlib.hexlify
       (hmac.digest (repeat xaa 131)
          (blit "Test Using Larger Than Block-Size Key - Hash Key First"))
     = "60e431591ee0b67f0d8a26aacbf5b77f8e0bc6213728c5140546040f0ee37f54"%string.
Proof. repeat split; vm_compute; reflexivity. Qed.

Example pkcs7_samples :
  padding.unpad (padding.pad (blit "abc")) = Ok (blit "abc")
  /\ length (padding.pad (blit "0123456789abcdef")) = 32%nat
  /\ padding.unpad (blit "0123456789abcdef") = Err padding.invalid_padding
  /\ padding.unpad [] = Err padding.invalid_padding.
Proof. repeat split; vm_compute; reflexivity. Qed.

(** A token of the model: 0x80, the time, the iv, one block of ciphertext
    and the tag, 73 bytes as 100 characters that start like every Fernet
    token of these years.  It decrypts under its key; an upload that is no
    token is refused. *)
Example token_sample_run :
  let f := fernet.MkFernet (blit "0123456789abcdef") (blit "ABCDEFGHIJKLMNOP") in
  let rnd := token.ClockAndRandom 1700000000 (blit "fedcba9876543210") in
  let tok := token.encrypt (aes := XorCBC.block_cipher) f rnd (blit "Pabc") in
  length tok = 100%nat
  /\ firstn 7 tok = blit "gAAAAAB"
  /\ token.decrypt (aes := XorCBC.block_cipher) f tok = Ok (blit "Pabc")
  /\ token.decrypt (aes := XorCBC.block_cipher) f (blit "truncated")
     = Err token.invalid_token
  /\ token.decrypt (aes := XorCBC.block_cipher) f (firstn 96 tok)
     = Err token.invalid_token.
Proof. cbv zeta. repeat split; vm_compute; reflexivity. Qed.

(** The tag is made with the signing half of the key only: under a key
    with the same signing half and another encryption half the tag
    verifies, and what the block cipher gives back is returned if its
    padding happens to be right.  Under another signing half the token is
    refused. *)
Example same_signing_half_is_not_refused :
  let f := fernet.MkFernet (blit "0123456789abcdef") (blit "ABCDEFGHIJKLMNOP") in
  let f2 := fernet.MkFernet (blit "0123456789abcdef") (blit "aBCDEFGHIJKLMNOP") in
  let f3 := fernet.MkFernet (blit "1123456789abcdef") (blit "ABCDEFGHIJKLMNOP") in
  let rnd := token.ClockAndRandom 1700000000 (blit "fedcba9876543210") in
  let tok := token.encrypt (aes := XorCBC.block_cipher) f rnd (blit "Pabc") in
  token.decrypt (aes := XorCBC.block_cipher) f2 tok = Ok (blit "pabc")
  /\ token.decrypt (aes := XorCBC.block_cipher) f3 tok = Err token.invalid_token.
Proof. cbv zeta. split; vm_compute; reflexivity. Qed.

Example utf8_surrogate_rejected :
  codecs.utf_8_encode [0x70; 0x77; 0xDFFF] = Err codecs.surrogates_not_allowed.
Proof. reflexivity. Qed.

(** ** Enumeration and induction principles *)

Lemma all_below_spec (n : nat) (p : N -> bool) :
  all_below n p = true -> forall i, i < N.of_nat n -> p i = true.
Proof.
  induction n as [|k IH]; simpl; intros Hall i Hi.
  - lia.
  - apply andb_true_iff in Hall as [Hk Hrest].
    destruct (N.eq_dec i (N.of_nat k)) as [->|Hne]; [exact Hk|].
    apply IH; [exact Hrest | lia].
Qed.

Lemma byte_of_to_N (b : byte) : byte_of_N (Byte.to_N b) = b.
Proof.
  unfold byte_of_N.
  rewrite N.mod_small by (pose proof (Byte.to_N_bounded b); lia).
  now rewrite Byte.of_to_N.
Qed.

Lemma byte_of_N_mod (n m : N) : n mod 256 = m mod 256 -> byte_of_N n = byte_of_N m.
Proof. unfold byte_of_N. now intros ->. Qed.

Lemma to_N_lt_256 (b : byte) : Byte.to_N b < 256.
Proof. pose proof (Byte.to_N_bounded b); lia. Qed.

Lemma Ok_inj {A : Type} (x y : A) : Ok x = Ok y -> x = y.
Proof. now intros [= ->]. Qed.

(** Induction on byte strings three bytes at a time. *)
Lemma list_ind3 {A} (P : list A -> Prop) :
  P [] ->
  (forall x, P [x]) ->
  (forall x y, P [x; y]) ->
  (forall x y z rest, P rest -> P (x :: y :: z :: rest)) ->
  forall l, P l.
Proof.
  intros H0 H1 H2 H3.
  fix IH 1.
  intros [|x [|y [|z rest]]].
  - exact H0.
  - apply H1.
  - apply H2.
  - apply H3, IH.
Qed.

(** ** Facts about the library models *)

Section Sha256Facts.

Lemma be32_length (w : N) : length (hashlib.be32 w) = 4%nat.
Proof. reflexivity. Qed.

Lemma emit_length (s : hashlib.chain) : length (hashlib.emit s) = 32%nat.
Proof. destruct s; reflexivity. Qed.

(** A SHA-256 digest has 32 bytes, whatever the message. *)
Lemma sha256_digest_length (data : bytes) :
  length (hashlib.sha256_digest data) = 32%nat.
Proof. unfold hashlib.sha256_digest. apply emit_length. Qed.

(** The padded message is a whole number of 64-byte blocks, so [absorb]
    leaves no byte unread. *)
Lemma pad_length (msg : bytes) :
  (length (hashlib.pad msg) mod 64 = 0)%nat.
Proof.
  unfold hashlib.pad, hashlib.be_bytes.
  rewrite length_app. cbn [length].
  rewrite length_app, repeat_length, length_map, length_rev, length_seq.
  set (len := length msg).
  assert (Hz : (N.to_nat ((64 - (N.of_nat len + 9) mod 64) mod 64)
               = (64 - (len + 9) mod 64) mod 64)%nat).
  { rewrite N2Nat.inj_mod, N2Nat.inj_sub, N2Nat.inj_mod, N2Nat.inj_add.
    rewrite Nat2N.id.
    change (N.to_nat 64) with 64%nat. change (N.to_nat 9) with 9%nat.
    reflexivity. }
  rewrite Hz. clear Hz.
  pose proof (Nat.mod_upper_bound (len + 9) 64 ltac:(lia)) as Hb.
  pose proof (Nat.div_mod_eq (len + 9) 64) as Hd.
  generalize dependent ((len + 9) mod 64)%nat. intros r Hb Hd.
  generalize dependent ((len + 9) / 64)%nat. intros q Hd.
  destruct (Nat.eq_dec r 0) as [E|E].
  - subst r. rewrite Nat.sub_0_r, Nat.Div0.mod_same.
    replace (len + S (0 + 8))%nat with (q * 64)%nat by lia.
    apply Nat.Div0.mod_mul.
  - rewrite (Nat.mod_small (64 - r) 64) by lia.
    replace (len + S (64 - r + 8))%nat with (S q * 64)%nat by lia.
    apply Nat.Div0.mod_mul.
Qed.

End Sha256Facts.

(** ** Facts about base64 *)

Lemma pair_check_spec (p : N -> N -> bool) :
  pair_check p = true ->
  forall n m, n < 256 -> m < 256 -> p n m = true.
Proof.
  intros Hall n m Hn Hm.
  apply (all_below_spec 256 (p n)); [|exact Hm].
  apply (all_below_spec 256 (fun n => all_below 256 (p n))); assumption.
Qed.

(** Closes an equation between two numbers computed from two bytes by
    trying the 65536 pairs. *)
Ltac by_pairs n m Hn Hm :=
  apply N.eqb_eq;
  pattern n, m;
  match goal with
  | |- (fun a b => @?p a b = true) _ _ =>
      apply (pair_check_spec p); [vm_compute; reflexivity | exact Hn | exact Hm]
  end.

Ltac by_singles n Hn :=
  apply N.eqb_eq;
  pattern n;
  match goal with
  | |- (fun a => @?p a = true) _ =>
      apply (all_below_spec 256 p); [vm_compute; reflexivity | exact Hn]
  end.

Section Sextets.

Variables n m : N.
Hypothesis Hn : n < 256.
Hypothesis Hm : m < 256.

Lemma sextet_first : N.shiftr n 2 = n / 4.
Proof. by_singles n Hn. Qed.

Lemma sextet_second :
  N.lor (N.shiftl (N.land n 3) 4) (N.shiftr m 4) = n mod 4 * 16 + m / 16.
Proof. by_pairs n m Hn Hm. Qed.

Lemma sextet_third :
  N.lor (N.shiftl (N.land n 0xF) 2) (N.shiftr m 6) = n mod 16 * 4 + m / 64.
Proof. by_pairs n m Hn Hm. Qed.

Lemma sextet_fourth : N.land n 0x3F = n mod 64.
Proof. by_singles n Hn. Qed.

Lemma sextet_second_last : N.shiftl (N.land n 3) 4 = n mod 4 * 16.
Proof. by_singles n Hn. Qed.

Lemma sextet_third_last : N.shiftl (N.land n 0xF) 2 = n mod 16 * 4.
Proof. by_singles n Hn. Qed.

(** What the decoder rebuilds from the sextets. *)
Lemma rebuild_first :
  N.lor (N.shiftl (n / 4) 2) (N.shiftr (n mod 4 * 16 + m / 16) 4) = n.
Proof. by_pairs n m Hn Hm. Qed.

Lemma carry_second : N.land (n mod 4 * 16 + m / 16) 0x0F = m / 16.
Proof. by_pairs n m Hn Hm. Qed.

Lemma rebuild_second :
  N.lor (N.shiftl (n / 16) 4) (N.shiftr (n mod 16 * 4 + m / 64) 2) = n.
Proof. by_pairs n m Hn Hm. Qed.

Lemma carry_third : N.land (n mod 16 * 4 + m / 64) 0x03 = m / 64.
Proof. by_pairs n m Hn Hm. Qed.

Lemma rebuild_third : N.lor (N.shiftl (n / 64) 6) (n mod 64) = n.
Proof. by_singles n Hn. Qed.

Lemma rebuild_first_last :
  N.lor (N.shiftl (n / 4) 2) (N.shiftr (n mod 4 * 16) 4) = n.
Proof. by_singles n Hn. Qed.

Lemma carry_second_last : N.land (n mod 4 * 16) 0x0F = 0.
Proof. by_singles n Hn. Qed.

Lemma rebuild_second_last :
  N.lor (N.shiftl (n / 16) 4) (N.shiftr (n mod 16 * 4) 2) = n.
Proof. by_singles n Hn. Qed.

End Sextets.

(** Linear arithmetic with division and remainder by constants. *)
Ltac divmod_lia := Zify.zify; Z.to_euclidean_division_equations; lia.

(** The 6-bit groups of 24, 16+2 and 8+4 bits. *)
Section Groups.

Lemma group_first (n m k : N) :
  m < 256 -> k < 256 ->
  ((65536 * n + 256 * m + k) / 262144) mod 64 = (n / 4) mod 64.
Proof. intros. divmod_lia. Qed.

Lemma group_second (n m k : N) :
  m < 256 -> k < 256 ->
  ((65536 * n + 256 * m + k) / 4096) mod 64 = n mod 4 * 16 + m / 16.
Proof. intros. divmod_lia. Qed.

Lemma group_third (n m k : N) :
  k < 256 ->
  ((65536 * n + 256 * m + k) / 64) mod 64 = m mod 16 * 4 + k / 64.
Proof. intros. divmod_lia. Qed.

Lemma group_fourth (n m k : N) :
  (65536 * n + 256 * m + k) mod 64 = k mod 64.
Proof. divmod_lia. Qed.

Lemma pair_first (n m : N) :
  m < 256 -> (4 * (256 * n + m) / 4096) mod 64 = (n / 4) mod 64.
Proof. intros. divmod_lia. Qed.

Lemma pair_second (n m : N) :
  m < 256 -> (4 * (256 * n + m) / 64) mod 64 = n mod 4 * 16 + m / 16.
Proof. intros. divmod_lia. Qed.

Lemma pair_third (n m : N) :
  (4 * (256 * n + m)) mod 64 = m mod 16 * 4.
Proof. divmod_lia. Qed.

Lemma single_first (n : N) : (16 * n / 64) mod 64 = (n / 4) mod 64.
Proof. divmod_lia. Qed.

Lemma single_second (n : N) : (16 * n) mod 64 = n mod 4 * 16.
Proof. divmod_lia. Qed.

Lemma quarter_small (n : N) : n < 256 -> (n / 4) mod 64 = n / 4.
Proof. intros. divmod_lia. Qed.

End Groups.

Section Base64Facts.

Import binascii base64.

Lemma b2a_base64_length (data : bytes) :
  length (b2a_base64 data) = (4 * ((length data + 2) / 3))%nat.
Proof.
  induction data as [| x | x y | x y z rest IH] using list_ind3;
    try reflexivity.
  cbn [b2a_base64 length]. rewrite IH.
  replace (S (S (S (length rest))) + 2)%nat
    with (length rest + 2 + 1 * 3)%nat by lia.
  rewrite Nat.div_add by lia. lia.
Qed.

(** The translated character of a sextet is the digit of the URL-safe
    alphabet, and it stays clear of '='. *)
Lemma urlsafe_digit (s : N) :
  s < 64 ->
  Byte.to_N (_urlsafe_encode_translation (b2a s)) = KeySpec.digit s.
Proof.
  intros Hs. apply N.eqb_eq. pattern s.
  match goal with
  | |- (fun a => @?p a = true) _ =>
      apply (all_below_spec 64 p); [vm_compute; reflexivity | exact Hs]
  end.
Qed.

Lemma digit_mod (i : N) : KeySpec.digit (i mod 64) = KeySpec.digit i.
Proof. unfold KeySpec.digit. now rewrite N.Div0.mod_mod. Qed.

Lemma urlsafe_digit_of (s i : N) :
  i mod 64 = s ->
  Byte.to_N (_urlsafe_encode_translation (b2a s)) = KeySpec.digit i.
Proof.
  intros <-. rewrite urlsafe_digit, digit_mod; [reflexivity|].
  apply N.mod_lt. lia.
Qed.

(** The encoder of the library and the encoding the specification
    describes give the same characters. *)
Lemma urlsafe_b64encode_spec (data : bytes) :
  map Byte.to_N (urlsafe_b64encode data) = KeySpec.urlsafe_base64 data.
Proof.
  unfold urlsafe_b64encode, b64encode, translate.
  induction data as [| x | x y | x y z rest IH] using list_ind3.
  - reflexivity.
  - pose proof (to_N_lt_256 x) as Hx.
    cbn [b2a_base64 KeySpec.urlsafe_base64 map].
    rewrite sextet_first, sextet_second_last by assumption.
    rewrite (urlsafe_digit_of _ (16 * Byte.to_N x / 64))
      by (rewrite single_first; apply quarter_small; assumption).
    rewrite (urlsafe_digit_of _ (16 * Byte.to_N x))
      by (apply single_second).
    reflexivity.
  - pose proof (to_N_lt_256 x) as Hx. pose proof (to_N_lt_256 y) as Hy.
    cbn [b2a_base64 KeySpec.urlsafe_base64 map].
    rewrite sextet_first, sextet_second, sextet_third_last by assumption.
    rewrite (urlsafe_digit_of _ (4 * (256 * Byte.to_N x + Byte.to_N y) / 4096))
      by (rewrite pair_first by assumption; apply quarter_small; assumption).
    rewrite (urlsafe_digit_of _ (4 * (256 * Byte.to_N x + Byte.to_N y) / 64))
      by (apply pair_second; assumption).
    rewrite (urlsafe_digit_of _ (4 * (256 * Byte.to_N x + Byte.to_N y)))
      by (apply pair_third).
    reflexivity.
  - pose proof (to_N_lt_256 x) as Hx. pose proof (to_N_lt_256 y) as Hy.
    pose proof (to_N_lt_256 z) as Hz.
    cbn [b2a_base64 KeySpec.urlsafe_base64 map].
    rewrite IH.
    rewrite sextet_first, sextet_second, sextet_third, sextet_fourth
      by assumption.
    set (v := 65536 * Byte.to_N x + 256 * Byte.to_N y + Byte.to_N z).
    rewrite (urlsafe_digit_of _ (v / 262144))
      by (unfold v; rewrite group_first by assumption; apply quarter_small; assumption).
    rewrite (urlsafe_digit_of _ (v / 4096))
      by (apply group_second; assumption).
    rewrite (urlsafe_digit_of _ (v / 64))
      by (apply group_third; assumption).
    rewrite (urlsafe_digit_of _ v)
      by (apply group_fourth).
    reflexivity.
Qed.

Lemma b2a_ascii (s : N) : is_ascii (_urlsafe_encode_translation (b2a s)) = true.
Proof.
  unfold b2a.
  destruct (nth_in_or_default (N.to_nat s) table_b2a_base64 x00) as [Hin | ->].
  - revert Hin. generalize (nth (N.to_nat s) table_b2a_base64 x00). intros c Hin.
    assert (Hall : forallb (fun c => is_ascii (_urlsafe_encode_translation c))
                     table_b2a_base64 = true) by (vm_compute; reflexivity).
    rewrite forallb_forall in Hall. now apply Hall.
  - reflexivity.
Qed.

Lemma urlsafe_b64encode_ascii (data : bytes) :
  forallb is_ascii (urlsafe_b64encode data) = true.
Proof.
  unfold urlsafe_b64encode, b64encode, translate.
  induction data as [| x | x y | x y z rest IH] using list_ind3;
    cbn [b2a_base64 map forallb];
    rewrite ?b2a_ascii, ?IH; reflexivity.
Qed.

End Base64Facts.

Section CodecFacts.

Import codecs.

(** ASCII bytes decode to the code points of the same values. *)
Lemma utf_8_decode_ascii (bs : bytes) :
  forallb is_ascii bs = true ->
  utf_8_decode bs = Ok (map Byte.to_N bs).
Proof.
  induction bs as [|b bs IH]; [reflexivity|].
  cbn [forallb]. intros H. apply andb_true_iff in H as [Hb Hbs].
  cbn [utf_8_decode map]. unfold is_ascii in Hb. rewrite Hb.
  rewrite (IH Hbs). reflexivity.
Qed.

(** ... and the str they decode to encodes back to them, in ASCII and in
    UTF-8 alike. *)
Lemma utf_8_encode_ascii (bs : bytes) :
  forallb is_ascii bs = true ->
  utf_8_encode (map Byte.to_N bs) = Ok bs.
Proof.
  induction bs as [|b bs IH]; [reflexivity|].
  cbn [forallb]. intros H. apply andb_true_iff in H as [Hb Hbs].
  cbn [utf_8_encode map]. unfold utf_8_encode_char.
  unfold is_ascii in Hb. rewrite Hb. cbn [rbind].
  rewrite (IH Hbs). cbn [rbind app]. now rewrite byte_of_to_N.
Qed.

Lemma ascii_encode_ascii (bs : bytes) :
  forallb is_ascii bs = true ->
  ascii_encode (map Byte.to_N bs) = Ok bs.
Proof.
  induction bs as [|b bs IH]; [reflexivity|].
  cbn [forallb]. intros H. apply andb_true_iff in H as [Hb Hbs].
  cbn [ascii_encode map]. unfold is_ascii in Hb. rewrite Hb.
  rewrite (IH Hbs). cbn [rbind]. now rewrite byte_of_to_N.
Qed.

Lemma scalar_value_dec (c : N) :
  {KeySpec.scalar_value c} + {~ KeySpec.scalar_value c}.
Proof.
  unfold KeySpec.scalar_value.
  destruct (c <? 0xD800) eqn:E1.
  - left. apply N.ltb_lt in E1. lia.
  - apply N.ltb_ge in E1.
    destruct (0xDFFF <? c) eqn:E2.
    + apply N.ltb_lt in E2.
      destruct (c <=? 0x10FFFF) eqn:E3.
      * apply N.leb_le in E3. left. lia.
      * apply N.leb_gt in E3. right. lia.
    + apply N.ltb_ge in E2. right. lia.
Qed.

Lemma utf_8_encode_char_ok (c : N) :
  KeySpec.scalar_value c <-> exists b, utf_8_encode_char c = Ok b.
Proof.
  unfold KeySpec.scalar_value, utf_8_encode_char, is_surrogate.
  destruct (N.ltb_spec c 0x80); [split; [eauto | lia]|].
  destruct (N.ltb_spec c 0x800); [split; [eauto | lia]|].
  destruct (N.leb_spec 0xD800 c); destruct (N.leb_spec c 0xDFFF); cbn [andb];
    try (split; [lia | intros [b Hb]; discriminate]);
    (destruct (N.ltb_spec c 0x10000); [split; [eauto | lia]|]);
    (destruct (N.ltb_spec c 0x110000);
     [split; [eauto | lia] | split; [lia | intros [b Hb]; discriminate]]).
Qed.

(** [s.encode('utf-8')] returns exactly on text. *)
Lemma utf_8_encode_ok (s : pystr) :
  KeySpec.well_formed_text s <-> exists b, utf_8_encode s = Ok b.
Proof.
  unfold KeySpec.well_formed_text.
  induction s as [|c s IH]; cbn [utf_8_encode].
  - split; [eauto | constructor].
  - split.
    + intros H. inversion H as [|? ? Hc Hs]; subst.
      apply utf_8_encode_char_ok in Hc as [b ->].
      apply IH in Hs as [bs ->]. cbn [rbind]. eauto.
    + intros [b Hb].
      destruct (utf_8_encode_char c) as [bc|] eqn:Ec; [|discriminate].
      destruct (utf_8_encode s) as [bs|] eqn:Es; [|discriminate].
      constructor.
      * apply utf_8_encode_char_ok. eauto.
      * apply IH. eauto.
Qed.

End CodecFacts.

(** ** Decoding an encoding *)
Section Base64RoundTrip.

Import binascii base64.

Lemma b2a_reads_back (s : N) :
  s < 64 ->
  Byte.eqb (back (b2a s)) BASE64_PAD = false /\ a2b (back (b2a s)) = Some s.
Proof.
  intros Hs.
  assert (H : reads_as s = true).
  { apply (all_below_spec 64 reads_as); [vm_compute; reflexivity | exact Hs]. }
  unfold reads_as in H. apply andb_true_iff in H as [Hpad Hval].
  split.
  - now apply negb_true_iff in Hpad.
  - destruct (a2b (back (b2a s))) as [v|]; [|discriminate].
    apply N.eqb_eq in Hval. now subst.
Qed.

(** The decoder on a character that stands for the sextet [s]. *)
Lemma a2b_step_sextet (s q lc p : N) (out : bytes) :
  s < 64 ->
  a2b_step (A2B q lc p out false) (back (b2a s)) =
  match q with
  | 0 => A2B 1 s 0 out false
  | 1 => A2B 2 (N.land s 0x0F) 0
           (byte_of_N (N.lor (N.shiftl lc 2) (N.shiftr s 4)) :: out) false
  | 2 => A2B 3 (N.land s 0x03) 0
           (byte_of_N (N.lor (N.shiftl lc 4) (N.shiftr s 2)) :: out) false
  | _ => A2B 0 0 0 (byte_of_N (N.lor (N.shiftl lc 6) s) :: out) false
  end.
Proof.
  intros Hs. destruct (b2a_reads_back s Hs) as [Hpad Hval].
  unfold a2b_step. cbn [finished quad_pos leftchar bin_data].
  rewrite Hpad, Hval. reflexivity.
Qed.

Lemma back_pad : back BASE64_PAD = BASE64_PAD.
Proof. reflexivity. Qed.

(** A full group of four characters leaves the decoder where it started,
    three bytes further. *)
Lemma a2b_group (x y z : byte) (out : bytes) :
  let n := Byte.to_N x in
  let m := Byte.to_N y in
  let k := Byte.to_N z in
  fold_left a2b_step
    [back (b2a (N.shiftr n 2));
     back (b2a (N.lor (N.shiftl (N.land n 3) 4) (N.shiftr m 4)));
     back (b2a (N.lor (N.shiftl (N.land m 0xF) 2) (N.shiftr k 6)));
     back (b2a (N.land k 0x3F))]
    (A2B 0 0 0 out false)
  = A2B 0 0 0 (z :: y :: x :: out) false.
Proof.
  intros n m k.
  pose proof (to_N_lt_256 x) as Hx. pose proof (to_N_lt_256 y) as Hy.
  pose proof (to_N_lt_256 z) as Hz. fold n in Hx. fold m in Hy. fold k in Hz.
  rewrite (sextet_first n Hx), (sextet_second n m Hx Hy),
    (sextet_third m k Hy Hz), (sextet_fourth k Hz).
  cbn [fold_left].
  rewrite !a2b_step_sextet by divmod_lia.
  rewrite (rebuild_first n m Hx Hy), (carry_second n m Hx Hy).
  rewrite (rebuild_second m k Hy Hz), (carry_third m k Hy Hz).
  rewrite (rebuild_third k Hz).
  unfold n, m, k. now rewrite !byte_of_to_N.
Qed.

Lemma a2b_last_one (x : byte) (out : bytes) :
  let n := Byte.to_N x in
  exists lc p,
    fold_left a2b_step
      [back (b2a (N.shiftr n 2)); back (b2a (N.shiftl (N.land n 3) 4));
       back BASE64_PAD; back BASE64_PAD]
      (A2B 0 0 0 out false)
    = A2B 2 lc p (x :: out) true.
Proof.
  intros n. pose proof (to_N_lt_256 x) as Hx. fold n in Hx.
  rewrite (sextet_first n Hx), (sextet_second_last n Hx).
  cbn [fold_left].
  rewrite !a2b_step_sextet by divmod_lia.
  rewrite (rebuild_first_last n Hx).
  unfold n. rewrite byte_of_to_N. rewrite back_pad.
  eexists _, _. reflexivity.
Qed.

Lemma a2b_last_two (x y : byte) (out : bytes) :
  let n := Byte.to_N x in
  let m := Byte.to_N y in
  exists lc p,
    fold_left a2b_step
      [back (b2a (N.shiftr n 2));
       back (b2a (N.lor (N.shiftl (N.land n 3) 4) (N.shiftr m 4)));
       back (b2a (N.shiftl (N.land m 0xF) 2)); back BASE64_PAD]
      (A2B 0 0 0 out false)
    = A2B 3 lc p (y :: x :: out) true.
Proof.
  intros n m. pose proof (to_N_lt_256 x) as Hx. pose proof (to_N_lt_256 y) as Hy.
  fold n in Hx. fold m in Hy.
  rewrite (sextet_first n Hx), (sextet_second n m Hx Hy),
    (sextet_third_last m Hy).
  cbn [fold_left].
  rewrite !a2b_step_sextet by divmod_lia.
  rewrite (rebuild_first n m Hx Hy), (carry_second n m Hx Hy).
  rewrite (rebuild_second_last m Hy).
  unfold n, m. rewrite !byte_of_to_N. rewrite back_pad.
  eexists _, _. reflexivity.
Qed.

(** The decoder's run over a whole encoding. *)
Lemma a2b_run (data out : bytes) :
  exists st,
    fold_left a2b_step (map back (b2a_base64 data)) (A2B 0 0 0 out false) = st
    /\ finished st || (quad_pos st =? 0) = true
    /\ bin_data st = rev data ++ out.
Proof.
  revert out.
  induction data as [| x | x y | x y z rest IH] using list_ind3; intros out.
  - eexists. repeat split.
  - destruct (a2b_last_one x out) as (lc & p & E).
    cbn [b2a_base64 map]. cbv zeta in E. rewrite E.
    eexists. repeat split.
  - destruct (a2b_last_two x y out) as (lc & p & E).
    cbn [b2a_base64 map]. cbv zeta in E. rewrite E.
    eexists. repeat split.
  - cbn [b2a_base64 map].
    change (?a :: ?b :: ?c :: ?d :: ?l) with ([a; b; c; d] ++ l).
    rewrite fold_left_app.
    pose proof (a2b_group x y z out) as E. cbv zeta in E. rewrite E.
    destruct (IH (z :: y :: x :: out)) as (st & Est & Hfin & Hout).
    exists st. repeat split; [exact Est | exact Hfin |].
    rewrite Hout. cbn [rev]. now rewrite <- !app_assoc.
Qed.

(** [urlsafe_b64decode(urlsafe_b64encode(data)) == data] *)
Lemma urlsafe_b64decode_encode (data : bytes) :
  urlsafe_b64decode (PyBytes (urlsafe_b64encode data)) = Ok data.
Proof.
  unfold urlsafe_b64decode, b64decode, urlsafe_b64encode, b64encode, translate.
  cbn [_bytes_from_decode_data rbind].
  rewrite map_map. fold back. unfold a2b_base64.
  destruct (a2b_run data []) as (st & -> & Hfin & Hout).
  rewrite Hfin, Hout, app_nil_r, rev_involutive. reflexivity.
Qed.

End Base64RoundTrip.

(** ** Key derivation *)

Section KeyDerivation.

Lemma derive_bytes (data : bytes) :
  to_url_safe_base64_32_bytes (PyBytes data) = Ok (key_of data).
Proof.
  unfold to_url_safe_base64_32_bytes. cbn [rbind].
  rewrite utf_8_decode_ascii by apply urlsafe_b64encode_ascii.
  reflexivity.
Qed.

Lemma derive_str (s : pystr) :
  to_url_safe_base64_32_bytes (PyStr s) =
  rbind (codecs.utf_8_encode s) (fun utf8 => Ok (key_of utf8)).
Proof.
  unfold to_url_safe_base64_32_bytes.
  destruct (codecs.utf_8_encode s) as [utf8|e]; cbn [rbind]; [|reflexivity].
  rewrite utf_8_decode_ascii by apply urlsafe_b64encode_ascii.
  reflexivity.
Qed.

(** Every key the derivation returns is the encoding of a digest. *)
Lemma derived_key_shape (x : pyobj) (k : pystr) :
  to_url_safe_base64_32_bytes x = Ok k -> exists data, k = key_of data.
Proof.
  destruct x as [s|b].
  - rewrite derive_str.
    destruct (codecs.utf_8_encode s) as [utf8|e]; cbn [rbind]; [|discriminate].
    intros [= <-]. now exists utf8.
  - rewrite derive_bytes. intros [= <-]. now exists b.
Qed.

Lemma derive_returns (x : pyobj) :
  KeySpec.encodable x -> exists k, to_url_safe_base64_32_bytes x = Ok k.
Proof.
  destruct x as [s|b]; cbn [KeySpec.encodable]; intros H.
  - apply utf_8_encode_ok in H as [utf8 E].
    rewrite derive_str, E. cbn [rbind]. eauto.
  - rewrite derive_bytes. eauto.
Qed.

Lemma derive_raises (s : pystr) :
  ~ KeySpec.well_formed_text s ->
  exists e, to_url_safe_base64_32_bytes (PyStr s) = Err e.
Proof.
  intros H. rewrite derive_str.
  destruct (codecs.utf_8_encode s) as [utf8|e] eqn:E; cbn [rbind]; [|eauto].
  exfalso. apply H. apply utf_8_encode_ok. eauto.
Qed.

Lemma key_of_spec (data : bytes) : key_of data = KeySpec.derived_key data.
Proof. apply urlsafe_b64encode_spec. Qed.

Lemma key_of_length (data : bytes) : length (key_of data) = 44%nat.
Proof.
  unfold key_of, base64.urlsafe_b64encode, base64.translate, base64.b64encode.
  rewrite !length_map, b2a_base64_length, sha256_digest_length.
  reflexivity.
Qed.

(** The key decodes to the digest it encodes, given as a str or as the
    bytes of [key.encode()]. *)
Lemma key_of_encode (data : bytes) :
  codecs.utf_8_encode (key_of data) =
  Ok (base64.urlsafe_b64encode (hashlib.sha256_digest data)).
Proof. apply utf_8_encode_ascii, urlsafe_b64encode_ascii. Qed.

Lemma urlsafe_b64decode_str (bs : bytes) :
  forallb is_ascii bs = true ->
  base64.urlsafe_b64decode (PyStr (map Byte.to_N bs)) =
  base64.urlsafe_b64decode (PyBytes bs).
Proof.
  intros H. unfold base64.urlsafe_b64decode.
  cbn [base64._bytes_from_decode_data].
  now rewrite ascii_encode_ascii.
Qed.

Lemma key_of_decodes (data : bytes) :
  base64.urlsafe_b64decode (PyStr (key_of data)) =
  Ok (hashlib.sha256_digest data).
Proof.
  unfold key_of. generalize (hashlib.sha256_digest data). intros d.
  rewrite urlsafe_b64decode_str by apply urlsafe_b64encode_ascii.
  apply urlsafe_b64decode_encode.
Qed.

Lemma pyobj_eqb_eq (x y : pyobj) : pyobj_eqb x y = true -> x = y.
Proof.
  destruct x as [s|s], y as [t|t]; cbn [pyobj_eqb]; try discriminate.
  - destruct (list_eq_dec N.eq_dec s t); [now subst | discriminate].
  - destruct (list_eq_dec byte_eq_dec s t); [now subst | discriminate].
Qed.

End KeyDerivation.

Section EncodeErrors.

Import codecs.

(** Whatever [str.encode('utf-8')] raises is a UnicodeEncodeError. *)
Lemma utf_8_encode_char_error (c : N) (e : exn) :
  utf_8_encode_char c = Err e -> exn_cls e = UnicodeEncodeError.
Proof.
  unfold utf_8_encode_char.
  destruct (c <? 0x80); [discriminate|].
  destruct (c <? 0x800); [discriminate|].
  destruct (is_surrogate c); [now intros [= <-]|].
  destruct (c <? 0x10000); [discriminate|].
  destruct (c <? 0x110000); [discriminate|].
  now intros [= <-].
Qed.

Lemma utf_8_encode_error (s : pystr) (e : exn) :
  utf_8_encode s = Err e -> exn_cls e = UnicodeEncodeError.
Proof.
  induction s as [|c s IH]; [discriminate|].
  cbn [utf_8_encode].
  destruct (utf_8_encode_char c) as [b|e0] eqn:Ec; cbn [rbind].
  - destruct (utf_8_encode s) as [bs|e1]; cbn [rbind]; [discriminate|].
    intros [= <-]. now apply IH.
  - intros [= <-]. now apply (utf_8_encode_char_error c).
Qed.

Lemma surrogate_is_no_text (s : pystr) :
  KeySpec.holds_surrogate s -> ~ KeySpec.well_formed_text s.
Proof.
  unfold KeySpec.holds_surrogate, KeySpec.well_formed_text.
  intros Hs Ht. apply Exists_exists in Hs as (c & Hin & Hc).
  rewrite Forall_forall in Ht. specialize (Ht c Hin).
  unfold KeySpec.scalar_value in Ht. lia.
Qed.

(** On a str that holds a surrogate the derivation raises
    UnicodeEncodeError. *)
Lemma derive_raises_on_surrogate (s : pystr) :
  KeySpec.holds_surrogate s ->
  exists e,
    to_url_safe_base64_32_bytes (PyStr s) = Err e
    /\ exn_cls e = UnicodeEncodeError.
Proof.
  intros Hs. apply surrogate_is_no_text in Hs.
  rewrite derive_str.
  destruct (utf_8_encode s) as [utf8|e] eqn:E; cbn [rbind].
  - exfalso. apply Hs. apply utf_8_encode_ok. eauto.
  - exists e. split; [reflexivity | now apply (utf_8_encode_error s)].
Qed.

End EncodeErrors.

Section ProcessFacts.

(** The object a call has just allocated is the one its address reads. *)
Lemma fresh_object_read (p : process.state) (data : bytes) :
  nth_error (process.heap p ++ [process.HashObject data])
            (length (process.heap p))
  = Some (process.HashObject data).
Proof.
  rewrite nth_error_app2 by apply Nat.le_refl.
  now rewrite Nat.sub_diag.
Qed.

(** A call in a process returns what the function of the argument alone
    returns, whatever the state of the process. *)
Lemma process_derive (x : pyobj) (p : process.state) :
  fst (process.to_url_safe_base64_32_bytes x p) = to_url_safe_base64_32_bytes x.
Proof.
  unfold process.to_url_safe_base64_32_bytes, to_url_safe_base64_32_bytes,
    process.bind, process.lift, process.ret.
  destruct x as [s|b].
  - destruct (codecs.utf_8_encode s) as [utf8|e]; cbn [rbind fst]; [|reflexivity].
    unfold process.hashlib_sha256, process.digest. cbn [process.heap].
    rewrite fresh_object_read. cbn [process.absorbed].
    destruct (codecs.utf_8_decode _); reflexivity.
  - cbn [rbind]. unfold process.hashlib_sha256, process.digest.
    cbn [process.heap]. rewrite fresh_object_read. cbn [process.absorbed].
    destruct (codecs.utf_8_decode _); reflexivity.
Qed.

(** What a call leaves behind: one more hash object, nothing else. *)
Lemma process_derive_state (x : pyobj) (p : process.state) :
  let p' := snd (process.to_url_safe_base64_32_bytes x p) in
  process.time_time p' = process.time_time p
  /\ process.os_urandom p' = process.os_urandom p
  /\ process.hash_seed p' = process.hash_seed p
  /\ exists fresh, process.heap p' = process.heap p ++ fresh.
Proof.
  unfold process.to_url_safe_base64_32_bytes, process.bind, process.lift,
    process.ret.
  destruct x as [s|b].
  - destruct (codecs.utf_8_encode s) as [utf8|e]; cbn [snd].
    + unfold process.hashlib_sha256, process.digest. cbn [process.heap].
      rewrite fresh_object_read.
      destruct (codecs.utf_8_decode _); cbn [snd process.time_time
        process.os_urandom process.hash_seed process.heap]; eauto 6.
    + repeat split. exists []. now rewrite app_nil_r.
  - unfold process.hashlib_sha256, process.digest. cbn [process.heap].
    rewrite fresh_object_read.
    destruct (codecs.utf_8_decode _); cbn [snd process.time_time
      process.os_urandom process.hash_seed process.heap]; eauto 6.
Qed.

End ProcessFacts.

(** C1, as amended.  For every input string that is text (no surrogate
    code point), the key derivation returns exactly the URL-safe base64
    encoding, with padding and with '-' and '_' in place of '+' and '/',
    of the 32-byte SHA-256 digest of the UTF-8 encoding of the string; on
    every str that holds a surrogate it raises UnicodeEncodeError. *)
Theorem key_is_urlsafe_base64_of_sha256 (s : pystr) :
  (KeySpec.well_formed_text s ->
   exists utf8,
     codecs.utf_8_encode s = Ok utf8
     /\ length (hashlib.sha256_digest utf8) = 32%nat
     /\ to_url_safe_base64_32_bytes (PyStr s) = Ok (KeySpec.derived_key utf8))
  /\ (KeySpec.holds_surrogate s ->
      exists e,
        to_url_safe_base64_32_bytes (PyStr s) = Err e
        /\ exn_cls e = UnicodeEncodeError).
Proof.
  split.
  - intros H. apply utf_8_encode_ok in H as [utf8 E].
    exists utf8. split; [exact E|]. split; [apply sha256_digest_length|].
    rewrite derive_str, E. cbn [rbind]. now rewrite key_of_spec.
  - apply derive_raises_on_surrogate.
Qed.

Lemma key_is_urlsafe_base64_of_sha256_witness :
  (exists utf8,
     codecs.utf_8_encode (lit "secret") = Ok utf8
     /\ length (hashlib.sha256_digest utf8) = 32%nat
     /\ to_url_safe_base64_32_bytes (PyStr (lit "secret"))
        = Ok (KeySpec.derived_key utf8))
  /\ (exists e,
        to_url_safe_base64_32_bytes (PyStr (lit "pass" ++ [0xDC00] ++ lit "word"))
        = Err e
        /\ exn_cls e = UnicodeEncodeError).
Proof.
  split.
  - apply (proj1 (key_is_urlsafe_base64_of_sha256 (lit "secret"))).
    unfold KeySpec.well_formed_text, KeySpec.scalar_value.
    repeat constructor; cbv; reflexivity.
  - apply (proj2 (key_is_urlsafe_base64_of_sha256
                    (lit "pass" ++ [0xDC00] ++ lit "word"))).
    unfold KeySpec.holds_surrogate.
    do 4 apply Exists_cons_tl. apply Exists_cons_hd. split; discriminate.
Defined.

(** C1 as stated fails on a str with a lone surrogate: it has no UTF-8
    encoding and the derivation raises UnicodeEncodeError. *)
Lemma key_of_lone_surrogate_raises :
  to_url_safe_base64_32_bytes (PyStr [0xD800]) = Err codecs.surrogates_not_allowed
  /\ ~ (exists utf8,
          codecs.utf_8_encode [0xD800] = Ok utf8
          /\ to_url_safe_base64_32_bytes (PyStr [0xD800])
             = Ok (KeySpec.derived_key utf8)).
Proof.
  split; [reflexivity|].
  intros (utf8 & E & _). discriminate E.
Qed.

(** C2.  Key derivation is deterministic: two runs on equal inputs return
    the same key (or raise the same exception), whatever the state of the
    process each run starts in: the clock, the random source, the hash
    seed and the objects left by earlier calls, the first run's own hash
    object included.  A run reads its argument and the hash object it has
    itself created, and what it returns is the value of
    [to_url_safe_base64_32_bytes] on the argument. *)
Theorem key_derivation_deterministic (s1 s2 : pyobj) (p1 p2 : process.state) :
  pyobj_eqb s1 s2 = true ->
  fst (process.to_url_safe_base64_32_bytes s1 p1)
  = fst (process.to_url_safe_base64_32_bytes s2 p2)
  /\ fst (process.to_url_safe_base64_32_bytes s2
            (snd (process.to_url_safe_base64_32_bytes s1 p1)))
     = fst (process.to_url_safe_base64_32_bytes s1 p1)
  /\ fst (process.to_url_safe_base64_32_bytes s1 p1)
     = to_url_safe_base64_32_bytes s1.
Proof.
  intros H. apply pyobj_eqb_eq in H. subst s2.
  rewrite !process_derive. repeat split.
Qed.

Lemma key_derivation_deterministic_witness :
  let p1 := process.State 1700000000 7 0 [] in
  let p2 := process.State 1800000000 99 42 [process.HashObject (blit "salt")] in
  fst (process.to_url_safe_base64_32_bytes (PyStr (lit "secret")) p1)
  = fst (process.to_url_safe_base64_32_bytes (PyStr (lit "sec" ++ lit "ret")) p2)
  /\ fst (process.to_url_safe_base64_32_bytes (PyStr (lit "sec" ++ lit "ret"))
            (snd (process.to_url_safe_base64_32_bytes (PyStr (lit "secret")) p1)))
     = fst (process.to_url_safe_base64_32_bytes (PyStr (lit "secret")) p1)
  /\ fst (process.to_url_safe_base64_32_bytes (PyStr (lit "secret")) p1)
     = to_url_safe_base64_32_bytes (PyStr (lit "secret")).
Proof.
  cbv zeta.
  apply (key_derivation_deterministic
           (PyStr (lit "secret")) (PyStr (lit "sec" ++ lit "ret"))
           (process.State 1700000000 7 0 [])
           (process.State 1800000000 99 42 [process.HashObject (blit "salt")])).
  reflexivity.
Defined.

(** C6, as amended.  Key derivation returns on every bytes input and on
    every str that is text, the empty string and short strings included:
    the result is a syntactically valid key, one that decodes to a 32-byte
    value.  On every str that holds a surrogate it raises
    UnicodeEncodeError. *)
Theorem key_derivation_total_on_text (x : pyobj) :
  (KeySpec.encodable x ->
   exists k raw,
     to_url_safe_base64_32_bytes x = Ok k
     /\ base64.urlsafe_b64decode (PyStr k) = Ok raw
     /\ length raw = 32%nat)
  /\ (forall s,
        x = PyStr s ->
        KeySpec.holds_surrogate s ->
        exists e,
          to_url_safe_base64_32_bytes x = Err e
          /\ exn_cls e = UnicodeEncodeError).
Proof.
  split.
  - intros H. destruct (derive_returns x H) as [k Ek].
    destruct (derived_key_shape x k Ek) as [data ->].
    exists (key_of data), (hashlib.sha256_digest data).
    split; [exact Ek|].
    split; [apply key_of_decodes | apply sha256_digest_length].
  - intros s -> Hs. now apply derive_raises_on_surrogate.
Qed.

Lemma key_derivation_total_on_text_witness :
  (exists k raw,
     to_url_safe_base64_32_bytes (PyStr []) = Ok k
     /\ base64.urlsafe_b64decode (PyStr k) = Ok raw
     /\ length raw = 32%nat)
  /\ (exists e,
        to_url_safe_base64_32_bytes (PyStr [0x70; 0x77; 0xDFFF]) = Err e
        /\ exn_cls e = UnicodeEncodeError).
Proof.
  split.
  - apply (proj1 (key_derivation_total_on_text (PyStr []))).
    constructor.
  - apply (proj2 (key_derivation_total_on_text (PyStr [0x70; 0x77; 0xDFFF]))
             [0x70; 0x77; 0xDFFF] eq_refl).
    unfold KeySpec.holds_surrogate.
    do 2 apply Exists_cons_tl. apply Exists_cons_hd. split; discriminate.
Defined.

(** C6 as stated fails: a str that holds a surrogate makes the derivation
    raise. *)
Lemma key_derivation_not_total :
  to_url_safe_base64_32_bytes (PyStr (lit "pw" ++ [0xDFFF]))
  = Err codecs.surrogates_not_allowed.
Proof. reflexivity. Qed.

(** C10, as amended.  On every bytes input and every str that is text, the
    empty string included, the derivation returns a str of exactly 44
    characters; the result is never empty, so its truth value is True.  On
    every str that holds a surrogate nothing is returned: the call raises
    UnicodeEncodeError. *)
Theorem derived_key_has_44_characters (x : pyobj) :
  (KeySpec.encodable x ->
   exists k,
     to_url_safe_base64_32_bytes x = Ok k
     /\ length k = 44%nat
     /\ truthy k = true)
  /\ (forall s,
        x = PyStr s ->
        KeySpec.holds_surrogate s ->
        exists e,
          to_url_safe_base64_32_bytes x = Err e
          /\ exn_cls e = UnicodeEncodeError).
Proof.
  split.
  - intros H. destruct (derive_returns x H) as [k Ek].
    destruct (derived_key_shape x k Ek) as [data ->].
    exists (key_of data). split; [exact Ek|].
    pose proof (key_of_length data) as L. split; [exact L|].
    destruct (key_of data); [discriminate L | reflexivity].
  - intros s -> Hs. now apply derive_raises_on_surrogate.
Qed.

Lemma derived_key_has_44_characters_witness :
  (exists k,
     to_url_safe_base64_32_bytes (PyStr (lit "")) = Ok k
     /\ length k = 44%nat
     /\ truthy k = true)
  /\ (exists e,
        to_url_safe_base64_32_bytes (PyStr [0xDC80]) = Err e
        /\ exn_cls e = UnicodeEncodeError).
Proof.
  split.
  - apply (proj1 (derived_key_has_44_characters (PyStr (lit "")))).
    constructor.
  - apply (proj2 (derived_key_has_44_characters (PyStr [0xDC80]))
             [0xDC80] eq_refl).
    apply Exists_cons_hd. split; discriminate.
Defined.

(** C10 as stated fails: on a str with a surrogate the derivation raises,
    and no str, of 44 characters or otherwise, is returned. *)
Lemma no_key_for_surrogate_escape :
  to_url_safe_base64_32_bytes (PyStr [0xDC80]) = Err codecs.surrogates_not_allowed
  /\ ~ (exists k,
          to_url_safe_base64_32_bytes (PyStr [0xDC80]) = Ok k
          /\ length k = 44%nat).
Proof.
  split; [reflexivity|].
  intros (k & E & _). discriminate E.
Qed.

(** ** The orchestrator *)

Section FernetFacts.

Lemma raw_key_fernet_of (raw : bytes) : fernet.raw_key (fernet_of raw) = raw.
Proof. apply firstn_skipn. Qed.

Lemma fernet_init_encoding (raw : bytes) :
  length raw = 32%nat ->
  fernet.__init__ (PyBytes (base64.urlsafe_b64encode raw)) = Ok (fernet_of raw).
Proof.
  intros L. unfold fernet.__init__.
  rewrite urlsafe_b64decode_encode, L. reflexivity.
Qed.

Lemma fernet_init_str (raw : bytes) :
  length raw = 32%nat ->
  fernet.__init__ (PyStr (map Byte.to_N (base64.urlsafe_b64encode raw)))
  = Ok (fernet_of raw).
Proof.
  intros L. unfold fernet.__init__.
  rewrite urlsafe_b64decode_str by apply urlsafe_b64encode_ascii.
  rewrite urlsafe_b64decode_encode, L. reflexivity.
Qed.

Lemma fernet_init_key_bytes (data : bytes) :
  fernet.__init__ (PyBytes (key_bytes_of data)) = Ok (fernet_of_key data).
Proof. apply fernet_init_encoding, sha256_digest_length. Qed.

Lemma fernet_init_key (data : bytes) :
  fernet.__init__ (PyStr (key_of data)) = Ok (fernet_of_key data).
Proof. apply fernet_init_str, sha256_digest_length. Qed.

Lemma key_truthy (data : bytes) : truthy (key_of data) = true.
Proof.
  pose proof (key_of_length data) as L.
  destruct (key_of data); [discriminate L | reflexivity].
Qed.

Lemma raw_key_of_key (data : bytes) :
  fernet.raw_key (fernet_of_key data) = hashlib.sha256_digest data.
Proof. apply raw_key_fernet_of. Qed.

(** Different keys come from different digests. *)
Lemma key_of_differs (d1 d2 : bytes) :
  key_of d1 <> key_of d2 ->
  hashlib.sha256_digest d1 <> hashlib.sha256_digest d2.
Proof. intros H E. apply H. unfold key_of. now rewrite E. Qed.

End FernetFacts.

Section Runs.

Context {cipher : Cipher} {codec : Codec}.

Lemma encrypt_image_run (im : image) (key : pyobj) (rnd : entropy)
      (f : fernet.Fernet) :
  fernet.__init__ key = Ok f ->
  encrypt_image im key rnd =
  match image_save im (image_format im) with
  | Ok data => ([FernetInit key; FernetEncrypt data], Ok (encrypt f rnd data))
  | Err e => ([FernetInit key], Err e)
  end.
Proof.
  intros Hf. unfold encrypt_image, Fernet, fernet_encrypt, bind, tell, lift, ret.
  rewrite Hf. destruct (image_save im (image_format im)); reflexivity.
Qed.

Lemma decrypt_image_run (blob : bytes) (key : pyobj) (f : fernet.Fernet) :
  fernet.__init__ key = Ok f ->
  decrypt_image blob key =
  match decrypt f blob with
  | Ok data =>
      match Image_open data with
      | Ok im => ([FernetInit key; FernetDecrypt blob], Ok im)
      | Err e => ([FernetInit key; FernetDecrypt blob], Err e)
      end
  | Err e => ([FernetInit key; FernetDecrypt blob], Err e)
  end.
Proof.
  intros Hf. unfold decrypt_image, Fernet, fernet_decrypt, bind, tell, lift, ret.
  rewrite Hf. destruct (decrypt f blob) as [data|e]; [|reflexivity].
  destruct (Image_open data); reflexivity.
Qed.

Variable ss : session.
Variable data : bytes.
Hypothesis Hkey :
  to_url_safe_base64_32_bytes (PyStr (text_input ss)) = Ok (key_of data).

(** The encrypt branch with a file that opens. *)
Lemma main_encrypt_run (file : bytes) (im : image) :
  radio ss = Encrypt_an_Image ->
  file_uploader ss = Some file ->
  Image_open file = Ok im ->
  main ss =
  (page_header Encrypt_an_Image
     ++ Shown (st_image im (lit "Original Image"))
     :: encrypt_events (fernet_of_key data) (key_bytes_of data) im (urandom ss),
   Ok tt).
Proof.
  intros Hr Hfile Hopen. unfold main. cbv zeta.
  rewrite Hkey, Hr, Hfile, Hopen.
  cbn [bind lift tell st ret app].
  rewrite key_truthy, key_of_encode.
  fold (key_bytes_of data).
  cbn [bind lift tell st ret app].
  rewrite (encrypt_image_run im _ _ _ (fernet_init_key_bytes data)).
  unfold encrypt_events, page_header.
  destruct (image_save im (image_format im)); reflexivity.
Qed.

(** The decrypt branch with a file. *)
Lemma main_decrypt_run (blob : bytes) :
  radio ss = Decrypt_an_Image ->
  file_uploader ss = Some blob ->
  main ss =
  (page_header Decrypt_an_Image
     ++ decrypt_events (fernet_of_key data) (key_bytes_of data) blob,
   Ok tt).
Proof.
  intros Hr Hfile. unfold main. cbv zeta.
  rewrite Hkey, Hr, Hfile.
  cbn [bind lift tell st ret app].
  rewrite key_truthy, key_of_encode.
  fold (key_bytes_of data).
  cbn [bind lift tell st ret app].
  rewrite (decrypt_image_run blob _ _ (fernet_init_key_bytes data)).
  unfold decrypt_events, page_header.
  destruct (decrypt (fernet_of_key data) blob) as [plain|e]; [|reflexivity].
  destruct (Image_open plain) as [im|e]; [|reflexivity].
  cbv zeta. cbn [bind lift tell st ret app].
  destruct (image_save im (Some (str_or (image_format im) (lit "PNG"))));
    reflexivity.
Qed.

End Runs.

(** ** The reference instances meet the contracts *)

Section ReferenceFacts.

Import Reference.

Lemma strip_prefix_app (p data : bytes) : strip_prefix p (p ++ data) = Some data.
Proof.
  induction p as [|a p IH]; [reflexivity|].
  cbn [strip_prefix app].
  assert (Haa : Byte.eqb a a = true) by now apply byte_dec_lb.
  now rewrite Haa.
Qed.

Lemma strip_prefix_other (p q data : bytes) :
  length p = length q -> p <> q -> strip_prefix q (p ++ data) = None.
Proof.
  revert q. induction p as [|a p IH]; intros [|b q] L Hne;
    try discriminate L.
  - now contradiction Hne.
  - cbn [strip_prefix app].
    destruct (Byte.eqb b a) eqn:E; [|reflexivity].
    apply byte_dec_bl in E. subst b.
    apply IH; [now injection L | intros ->; now apply Hne].
Qed.

Lemma reference_decrypts_own_tokens : decrypts_own_tokens cipher.
Proof.
  intros f rnd data. cbn [decrypt encrypt cipher]. unfold unseal, seal.
  now rewrite strip_prefix_app.
Qed.



End ReferenceFacts.

(** ** Two passphrases with one key *)

Section Collisions.





End Collisions.

Section MoreRuns.

Context {cipher : Cipher} {codec : Codec}.

Variable ss : session.
Variable data : bytes.
Hypothesis Hkey :
  to_url_safe_base64_32_bytes (PyStr (text_input ss)) = Ok (key_of data).

Lemma main_encrypt_no_file :
  radio ss = Encrypt_an_Image ->
  file_uploader ss = None ->
  main ss = (page_header Encrypt_an_Image, Ok tt).
Proof.
  intros Hr Hfile. unfold main. cbv zeta. rewrite Hkey, Hr, Hfile.
  reflexivity.
Qed.

Lemma main_encrypt_unreadable (file : bytes) (e : exn) :
  radio ss = Encrypt_an_Image ->
  file_uploader ss = Some file ->
  Image_open file = Err e ->
  main ss = (page_header Encrypt_an_Image, Err e).
Proof.
  intros Hr Hfile Hopen. unfold main. cbv zeta.
  rewrite Hkey, Hr, Hfile, Hopen. reflexivity.
Qed.

Lemma header_shows_no_error (a : action) (body : pystr) :
  ~ In (Shown (st_error body)) (page_header a).
Proof.
  unfold page_header. cbn [In].
  intros [H|[H|[H|[H|[H|[]]]]]]; try discriminate H.
  destruct a; discriminate H.
Qed.

Lemma header_shows_no_warning (a : action) (body : pystr) :
  ~ In (Shown (st_warning body)) (page_header a).
Proof.
  unfold page_header. cbn [In].
  intros [H|[H|[H|[H|[H|[]]]]]]; try discriminate H.
  destruct a; discriminate H.
Qed.

End MoreRuns.

(** ** The claims about the orchestrator *)

Section OrchestratorClaims.

Context {cipher : Cipher} {codec : Codec}.

(** C3, as amended.  For every passphrase that is text and every image
    that the codec writes in the image's own format and reads back pixel
    for pixel, decrypting the output of [encrypt_image] under the same
    derived key succeeds and reproduces an image pixel-equivalent to the
    original, provided the cipher decrypts its own tokens. *)
Theorem round_trip_reproduces_pixels
        (im : image) (P : pystr) (rnd : entropy) :
  decrypts_own_tokens cipher ->
  KeySpec.well_formed_text P ->
  saved_faithfully codec im ->
  exists k token im',
    to_url_safe_base64_32_bytes (PyStr P) = Ok k
    /\ outcome (encrypt_image im (PyStr k) rnd) = Ok token
    /\ outcome (decrypt_image token (PyStr k)) = Ok im'
    /\ pixel_equivalent im' im.
Proof.
  intros Hlaw HP (saved & im' & Hsave & Hopen & Hpix).
  apply utf_8_encode_ok in HP as [utf8 E].
  exists (key_of utf8), (encrypt (fernet_of_key utf8) rnd saved), im'.
  split; [now rewrite derive_str, E|].
  rewrite (encrypt_image_run im _ rnd _ (fernet_init_key utf8)), Hsave.
  split; [reflexivity|].
  rewrite (decrypt_image_run _ _ _ (fernet_init_key utf8)).
  rewrite Hlaw, Hopen. split; [reflexivity | exact Hpix].
Qed.


(** C5.  When the uploaded blob is not a valid token under the derived
    key, so that the cipher's decrypt raises, the exception is caught and
    shown as "Decryption failed: ..." and the run of the script ends
    normally. *)
Theorem invalid_token_is_reported
        (ss : session) (blob : bytes) (k : pystr)
        (f : fernet.Fernet) (e : exn) :
  radio ss = Decrypt_an_Image ->
  file_uploader ss = Some blob ->
  to_url_safe_base64_32_bytes (PyStr (text_input ss)) = Ok k ->
  fernet.__init__ (PyStr k) = Ok f ->
  decrypt f blob = Err e ->
  outcome (main ss) = Ok tt
  /\ exists key_bytes,
       codecs.utf_8_encode k = Ok key_bytes
       /\ events (main ss) =
          page_header Decrypt_an_Image
            ++ [FernetInit (PyBytes key_bytes); FernetDecrypt blob;
                Shown (st_error (lit "Decryption failed: " ++ exn_str e))].
Proof.
  intros Hr Hfile Hk Hf Hdec.
  destruct (derived_key_shape _ _ Hk) as [d ->].
  rewrite fernet_init_key in Hf. injection Hf as <-.
  rewrite (main_decrypt_run ss d Hk blob Hr Hfile).
  split; [reflexivity|].
  exists (key_bytes_of d). split; [apply key_of_encode|].
  cbn [events fst]. unfold decrypt_events. now rewrite Hdec.
Qed.

(** C7 (what the code does).  With an empty passphrase and a file
    uploaded, the key is the 44-character key of the empty string: the
    cipher is constructed with it and no warning is shown. *)
Theorem empty_passphrase_reaches_cipher (ss : session) (file : bytes) :
  text_input ss = [] ->
  file_uploader ss = Some file ->
  (radio ss = Encrypt_an_Image -> is_ok (Image_open file) = true) ->
  In (FernetInit (PyBytes (blit "47DEQpj8HBSa-_TImW-5JCeuQeRkm5NMpJWZG3hSuFU=")))
     (events (main ss))
  /\ forall body, ~ In (Shown (st_warning body)) (events (main ss)).
Proof.
  intros Htext Hfile Hopen.
  assert (Hk : to_url_safe_base64_32_bytes (PyStr (text_input ss))
               = Ok (key_of [])).
  { rewrite Htext, derive_str. reflexivity. }
  assert (Hkb : key_bytes_of [] =
                blit "47DEQpj8HBSa-_TImW-5JCeuQeRkm5NMpJWZG3hSuFU=")
    by (vm_compute; reflexivity).
  destruct (radio ss) eqn:Hr.
  - destruct (Image_open file) as [im|e] eqn:Eo;
      [|specialize (Hopen eq_refl); discriminate Hopen].
    rewrite (main_encrypt_run ss [] Hk file im Hr Hfile Eo).
    cbn [events fst]. unfold encrypt_events. rewrite Hkb. split.
    + apply in_or_app. right. right. left. reflexivity.
    + intros body Hin. apply in_app_or in Hin as [Hin|Hin].
      * exact (header_shows_no_warning _ _ Hin).
      * destruct Hin as [Hin|[Hin|Hin]]; try discriminate Hin.
        destruct (image_save im (image_format im)); cbn [In] in Hin;
          intuition discriminate.
  - rewrite (main_decrypt_run ss [] Hk file Hr Hfile).
    cbn [events fst]. unfold decrypt_events. rewrite Hkb. split.
    + apply in_or_app. right. left. reflexivity.
    + intros body Hin. apply in_app_or in Hin as [Hin|Hin].
      * exact (header_shows_no_warning _ _ Hin).
      * destruct Hin as [Hin|[Hin|Hin]]; try discriminate Hin.
        destruct (decrypt (fernet_of_key []) file) as [plain|e];
          [|cbn [In] in Hin; intuition discriminate].
        destruct (Image_open plain) as [im|e];
          [|cbn [In] in Hin; intuition discriminate].
        cbv zeta in Hin. destruct Hin as [Hin|Hin]; [discriminate Hin|].
        destruct (image_save im _); cbn [In] in Hin; intuition discriminate.
Qed.

(** C8.  When the decrypted image carries no format, the decrypt path
    saves it as PNG and offers it as "decrypted_image.png" with MIME type
    "image/png"; no warning is shown. *)
Theorem missing_format_defaults_to_png
        (ss : session) (blob : bytes) (k : pystr) (f : fernet.Fernet)
        (plain : bytes) (im : image) (out : bytes) :
  radio ss = Decrypt_an_Image ->
  file_uploader ss = Some blob ->
  to_url_safe_base64_32_bytes (PyStr (text_input ss)) = Ok k ->
  fernet.__init__ (PyStr k) = Ok f ->
  decrypt f blob = Ok plain ->
  Image_open plain = Ok im ->
  image_format im = None ->
  image_save im (Some (lit "PNG")) = Ok out ->
  outcome (main ss) = Ok tt
  /\ (exists key_bytes,
        events (main ss) =
        page_header Decrypt_an_Image
          ++ [FernetInit (PyBytes key_bytes); FernetDecrypt blob;
              Shown (st_image im (lit "Decrypted Image"));
              Shown (st_download_button (lit "Download Decrypted Image")
                       out (lit "decrypted_image.png") (lit "image/png"))])
  /\ forall body, ~ In (Shown (st_warning body)) (events (main ss)).
Proof.
  intros Hr Hfile Hk Hf Hdec Hopen Hfmt Hsave.
  destruct (derived_key_shape _ _ Hk) as [d ->].
  rewrite fernet_init_key in Hf. injection Hf as <-.
  rewrite (main_decrypt_run ss d Hk blob Hr Hfile).
  cbn [events outcome fst snd]. unfold decrypt_events.
  rewrite Hdec, Hopen. cbv zeta. rewrite Hfmt. cbn [str_or]. rewrite Hsave.
  split; [reflexivity|]. split.
  - exists (key_bytes_of d). reflexivity.
  - intros body Hin. apply in_app_or in Hin as [Hin|Hin].
    + exact (header_shows_no_warning _ _ Hin).
    + cbn [In] in Hin. intuition discriminate.
Qed.

(** C9, as amended.  Every key the derivation returns meets the cipher's
    key format: given as a str or as the bytes of [key.encode()], it
    decodes to exactly 32 bytes and the constructor returns a cipher
    object.  With a derived key [encrypt_image] raises only what the
    codec raised while saving the image, and so does the
    "Encryption failed" branch of [main]. *)
Theorem derived_key_is_a_fernet_key (x : pyobj) (k : pystr) :
  to_url_safe_base64_32_bytes x = Ok k ->
  exists key_bytes f,
    codecs.utf_8_encode k = Ok key_bytes
    /\ fernet.__init__ (PyStr k) = Ok f
    /\ fernet.__init__ (PyBytes key_bytes) = Ok f
    /\ base64.urlsafe_b64decode (PyBytes key_bytes) = Ok (fernet.raw_key f)
    /\ length (fernet.raw_key f) = 32%nat
    /\ (forall im rnd e,
          outcome (encrypt_image im (PyBytes key_bytes) rnd) = Err e ->
          image_save im (image_format im) = Err e)
    /\ (forall ss body,
          x = PyStr (text_input ss) ->
          radio ss = Encrypt_an_Image ->
          In (Shown (st_error body)) (events (main ss)) ->
          exists im e,
            image_save im (image_format im) = Err e
            /\ body = lit "Encryption failed: " ++ exn_str e).
Proof.
  intros Hk. destruct (derived_key_shape _ _ Hk) as [d ->].
  exists (key_bytes_of d), (fernet_of_key d).
  split; [apply key_of_encode|].
  split; [apply fernet_init_key|].
  split; [apply fernet_init_key_bytes|].
  split; [rewrite raw_key_of_key; apply urlsafe_b64decode_encode|].
  split; [rewrite raw_key_of_key; apply sha256_digest_length|].
  split.
  - intros im rnd e.
    rewrite (encrypt_image_run im _ rnd _ (fernet_init_key_bytes d)).
    destruct (image_save im (image_format im)); cbn [outcome snd];
      congruence.
  - intros ss body -> Hr Hin.
    destruct (file_uploader ss) as [file|] eqn:Hfile.
    + destruct (Image_open file) as [im|e] eqn:Hopen.
      * rewrite (main_encrypt_run ss d Hk file im Hr Hfile Hopen) in Hin.
        cbn [events fst] in Hin.
        apply in_app_or in Hin as [Hin|Hin];
          [now apply header_shows_no_error in Hin|].
        unfold encrypt_events in Hin.
        destruct Hin as [Hin|[Hin|Hin]]; try discriminate Hin.
        destruct (image_save im (image_format im)) as [saved|e] eqn:Hsave.
        -- cbn [In] in Hin. intuition discriminate.
        -- destruct Hin as [Hin|[]]. injection Hin as <-.
           exists im, e. split; [exact Hsave | reflexivity].
      * rewrite (main_encrypt_unreadable ss d Hk file e Hr Hfile Hopen) in Hin.
        now apply header_shows_no_error in Hin.
    + rewrite (main_encrypt_no_file ss d Hk Hr Hfile) in Hin.
      now apply header_shows_no_error in Hin.
Qed.

End OrchestratorClaims.

(** ** HMAC and the token format *)

Section TokenFacts.

Context {aes : BlockCipher}.

Lemma hmac_digest_length (key msg : bytes) :
  length (hmac.digest key msg) = 32%nat.
Proof. apply sha256_digest_length. Qed.

Lemma signed_part_app (body tag : bytes) :
  length tag = 32%nat ->
  token.signed_part (body ++ tag) = body /\ token.tag_part (body ++ tag) = tag.
Proof.
  intros L. unfold token.signed_part, token.tag_part.
  rewrite length_app, L.
  replace (length body + 32 - 32)%nat with (length body) by lia.
  split.
  - rewrite firstn_app, Nat.sub_diag, firstn_all. cbn [firstn]. apply app_nil_r.
  - rewrite skipn_app, Nat.sub_diag, skipn_all. reflexivity.
Qed.

Lemma encrypt_token (f : fernet.Fernet) (rnd : token.clock_and_random)
      (data : bytes) :
  token.encrypt f rnd data =
  base64.urlsafe_b64encode
    (token_body f rnd data
       ++ hmac.digest (fernet._signing_key f) (token_body f rnd data)).
Proof. reflexivity. Qed.

Lemma token_unverified (f : fernet.Fernet) (rnd : token.clock_and_random)
      (data : bytes) :
  token._get_unverified_token_data (token.encrypt f rnd data) =
  Ok (token_body f rnd data
        ++ hmac.digest (fernet._signing_key f) (token_body f rnd data)).
Proof.
  rewrite encrypt_token. unfold token._get_unverified_token_data.
  rewrite urlsafe_b64decode_encode.
  generalize (hmac.digest (fernet._signing_key f) (token_body f rnd data)).
  intros tag. unfold token_body.
  generalize (token.iv rnd
                ++ cbc_encrypt (fernet._encryption_key f) (token.iv rnd)
                     (padding.pad data)).
  intros rest. reflexivity.
Qed.

Lemma signed_bytes_token (f : fernet.Fernet) (rnd : token.clock_and_random)
      (data : bytes) :
  signed_bytes (token.encrypt f rnd data) = token_body f rnd data.
Proof.
  unfold signed_bytes. rewrite encrypt_token, urlsafe_b64decode_encode.
  apply signed_part_app, hmac_digest_length.
Qed.

Lemma bytes_eqb_eq (a b : bytes) : token.bytes_eqb a b = true <-> a = b.
Proof.
  unfold token.bytes_eqb. destruct (list_eq_dec byte_eq_dec a b); split;
    congruence.
Qed.

(** A token is refused under a signing key that gives its signed bytes
    another tag ... *)
Lemma token_refused (f f2 : fernet.Fernet) (rnd : token.clock_and_random)
      (data : bytes) :
  hmac.digest (fernet._signing_key f2) (token_body f rnd data)
  <> hmac.digest (fernet._signing_key f) (token_body f rnd data) ->
  token.decrypt f2 (token.encrypt f rnd data) = Err token.invalid_token.
Proof.
  intros Hne. unfold token.decrypt. rewrite token_unverified. cbn [rbind].
  unfold token._decrypt_data, token._verify_signature.
  destruct (signed_part_app (token_body f rnd data)
              (hmac.digest (fernet._signing_key f) (token_body f rnd data))
              (hmac_digest_length _ _)) as [-> ->].
  destruct (token.bytes_eqb _ _) eqn:E; [|reflexivity].
  apply bytes_eqb_eq in E. contradiction.
Qed.

(** ... and returns plaintext only under a signing key that gives them
    the same tag. *)
Lemma token_accepted (f f2 : fernet.Fernet) (rnd : token.clock_and_random)
      (data plain : bytes) :
  token.decrypt f2 (token.encrypt f rnd data) = Ok plain ->
  hmac.digest (fernet._signing_key f2) (token_body f rnd data)
  = hmac.digest (fernet._signing_key f) (token_body f rnd data).
Proof.
  intros H.
  destruct (list_eq_dec byte_eq_dec
              (hmac.digest (fernet._signing_key f2) (token_body f rnd data))
              (hmac.digest (fernet._signing_key f) (token_body f rnd data)))
    as [E|Hne]; [exact E|].
  rewrite (token_refused f f2 rnd data Hne) in H. discriminate H.
Qed.

End TokenFacts.

Section WrongKey.

Context {aes : BlockCipher} {codec : Codec}.


End WrongKey.

(** ** The claims on the reference instances *)

Lemma secret_is_text : KeySpec.well_formed_text (lit "secret").
Proof. repeat constructor. Qed.

Lemma round_trip_reproduces_pixels_witness :
  exists k token im',
    to_url_safe_base64_32_bytes (PyStr (lit "secret")) = Ok k
    /\ outcome (encrypt_image (cipher := Reference.cipher)
                  (codec := Reference.codec)
                  (Reference.Picture (Some (lit "PNG")) [255; 0; 0])
                  (PyStr k) tt) = Ok token
    /\ outcome (decrypt_image (cipher := Reference.cipher)
                  (codec := Reference.codec) token (PyStr k)) = Ok im'
    /\ pixel_equivalent (codec := Reference.codec)
         im' (Reference.Picture (Some (lit "PNG")) [255; 0; 0]).
Proof.
  apply (round_trip_reproduces_pixels
           (cipher := Reference.cipher) (codec := Reference.codec)
           (Reference.Picture (Some (lit "PNG")) [255; 0; 0]) (lit "secret") tt).
  - exact reference_decrypts_own_tokens.
  - exact secret_is_text.
  - exists [x50; xff; x00; x00],
           (Reference.Picture (Some (lit "PNG")) [255; 0; 0]).
    repeat split; reflexivity.
Defined.

(** C3 as stated fails.  An image read from a JPEG file is written back
    with the codec's own quantisation, so the decrypted image has other
    pixels; and a passphrase with a surrogate derives no key at all. *)
Lemma jpeg_round_trip_changes_pixels :
  let im := Reference.Picture (Some (lit "JPEG")) [5; 9] in
  Reference.open [x4a; x01; x05; x09] = Ok im
  /\ (exists k token im',
        to_url_safe_base64_32_bytes (PyStr (lit "secret")) = Ok k
        /\ outcome (encrypt_image (cipher := Reference.cipher)
                      (codec := Reference.codec) im (PyStr k) tt) = Ok token
        /\ outcome (decrypt_image (cipher := Reference.cipher)
                      (codec := Reference.codec) token (PyStr k)) = Ok im'
        /\ ~ pixel_equivalent (codec := Reference.codec) im' im)
  /\ ~ (exists k, to_url_safe_base64_32_bytes (PyStr [0xD83D]) = Ok k).
Proof.
  cbv zeta. split; [reflexivity|]. split.
  - exists (key_of (blit "secret")),
           (hashlib.sha256_digest (blit "secret") ++ [x4a; x04; x01; x02]),
           (Reference.Picture (Some (lit "JPEG")) [4; 8]).
    split; [vm_compute; reflexivity|].
    split; [vm_compute; reflexivity|].
    split; [vm_compute; reflexivity|].
    intros H. discriminate H.
  - intros [k H]. discriminate H.
Qed.



Lemma invalid_token_is_reported_witness :
  let ss := Session (cipher := Reference.cipher)
              Decrypt_an_Image (lit "secret") (Some (blit "truncated")) tt in
  outcome (main (codec := Reference.codec) ss) = Ok tt
  /\ exists key_bytes,
       codecs.utf_8_encode (key_of (blit "secret")) = Ok key_bytes
       /\ events (main (codec := Reference.codec) ss) =
          page_header (codec := Reference.codec) Decrypt_an_Image
            ++ [FernetInit (PyBytes key_bytes);
                FernetDecrypt (blit "truncated");
                Shown (st_error (lit "Decryption failed: " ++ []))].
Proof.
  cbv zeta.
  apply (invalid_token_is_reported
           (cipher := Reference.cipher) (codec := Reference.codec)
           (Session (cipher := Reference.cipher)
              Decrypt_an_Image (lit "secret") (Some (blit "truncated")) tt)
           (blit "truncated") (key_of (blit "secret"))
           (fernet_of_key (blit "secret")) (Raise InvalidToken [])).
  - reflexivity.
  - reflexivity.
  - vm_compute. reflexivity.
  - apply fernet_init_key.
  - vm_compute. reflexivity.
Defined.

Lemma empty_passphrase_reaches_cipher_witness :
  let ss := Session (cipher := Reference.cipher)
              Encrypt_an_Image [] (Some (blit "Pabc")) tt in
  In (FernetInit (PyBytes (blit "47DEQpj8HBSa-_TImW-5JCeuQeRkm5NMpJWZG3hSuFU=")))
     (events (main (codec := Reference.codec) ss))
  /\ forall body,
       ~ In (Shown (st_warning body)) (events (main (codec := Reference.codec) ss)).
Proof.
  cbv zeta.
  apply (empty_passphrase_reaches_cipher
           (cipher := Reference.cipher) (codec := Reference.codec)
           (Session (cipher := Reference.cipher)
              Encrypt_an_Image [] (Some (blit "Pabc")) tt)
           (blit "Pabc")).
  - reflexivity.
  - reflexivity.
  - intros _. reflexivity.
Defined.

Lemma missing_format_defaults_to_png_witness :
  let blob := hashlib.sha256_digest (blit "secret") ++ blit "Rabc" in
  let ss := Session (cipher := Reference.cipher)
              Decrypt_an_Image (lit "secret") (Some blob) tt in
  outcome (main (codec := Reference.codec) ss) = Ok tt
  /\ (exists key_bytes,
        events (main (codec := Reference.codec) ss) =
        page_header (codec := Reference.codec) Decrypt_an_Image
          ++ [FernetInit (PyBytes key_bytes); FernetDecrypt blob;
              Shown (st_image (codec := Reference.codec) (Reference.Picture None [97; 98; 99])
                       (lit "Decrypted Image"));
              Shown (st_download_button (lit "Download Decrypted Image")
                       (blit "Pabc") (lit "decrypted_image.png")
                       (lit "image/png"))])
  /\ forall body,
       ~ In (Shown (st_warning body)) (events (main (codec := Reference.codec) ss)).
Proof.
  cbv zeta.
  apply (missing_format_defaults_to_png
           (cipher := Reference.cipher) (codec := Reference.codec)
           (Session (cipher := Reference.cipher) Decrypt_an_Image (lit "secret")
              (Some (hashlib.sha256_digest (blit "secret") ++ blit "Rabc")) tt)
           (hashlib.sha256_digest (blit "secret") ++ blit "Rabc")
           (key_of (blit "secret")) (fernet_of_key (blit "secret"))
           (blit "Rabc") (Reference.Picture None [97; 98; 99]) (blit "Pabc")).
  - reflexivity.
  - reflexivity.
  - vm_compute. reflexivity.
  - apply fernet_init_key.
  - vm_compute. reflexivity.
  - reflexivity.
  - reflexivity.
  - reflexivity.
Defined.

Lemma derived_key_is_a_fernet_key_witness :
  exists key_bytes f,
    codecs.utf_8_encode (key_of (blit "secret")) = Ok key_bytes
    /\ fernet.__init__ (PyStr (key_of (blit "secret"))) = Ok f
    /\ fernet.__init__ (PyBytes key_bytes) = Ok f
    /\ base64.urlsafe_b64decode (PyBytes key_bytes) = Ok (fernet.raw_key f)
    /\ length (fernet.raw_key f) = 32%nat
    /\ (forall (im : Reference.picture) rnd e,
          outcome (encrypt_image (cipher := Reference.cipher)
                     (codec := Reference.codec) im (PyBytes key_bytes) rnd) = Err e ->
          Reference.save im (Reference.picture_format im) = Err e)
    /\ (forall ss body,
          PyStr (lit "secret") = PyStr (text_input ss) ->
          radio ss = Encrypt_an_Image ->
          In (Shown (st_error body))
             (events (main (cipher := Reference.cipher)
                        (codec := Reference.codec) ss)) ->
          exists im e,
            Reference.save im (Reference.picture_format im) = Err e
            /\ body = lit "Encryption failed: " ++ exn_str e).
Proof.
  apply (derived_key_is_a_fernet_key
           (cipher := Reference.cipher) (codec := Reference.codec)
           (PyStr (lit "secret")) (key_of (blit "secret"))).
  vm_compute. reflexivity.
Defined.

(** C9 as stated fails: with a derived key the "Encryption failed" branch
    is still reached when the codec cannot write the image, here one read
    from a file in a format the codec has no writer for. *)
Lemma encryption_fails_with_derived_key :
  let ss := Session (cipher := Reference.cipher)
              Encrypt_an_Image (lit "secret") (Some (blit "Sabc")) tt in
  to_url_safe_base64_32_bytes (PyStr (text_input ss))
  = Ok (lit "K7gNU3sdo-OL0wNhqoVWhr3g6s1xYv72ol_pe_Unols=")
  /\ main (codec := Reference.codec) ss =
     (page_header (codec := Reference.codec) Encrypt_an_Image
        ++ [Shown (st_image (codec := Reference.codec) (Reference.Picture (Some (lit "PSD")) [97; 98; 99])
                     (lit "Original Image"));
            FernetInit (PyBytes (blit "K7gNU3sdo-OL0wNhqoVWhr3g6s1xYv72ol_pe_Unols="));
            Shown (st_error (lit "Encryption failed: 'PSD'"))],
      Ok tt).
Proof. cbv zeta. split; vm_compute; reflexivity. Qed.


(** * Further properties of the code *)

(** ** key_generate.py *)

(** X1.  A str and the bytes of its UTF-8 encoding derive the same key:
    the [isinstance] branch only encodes. *)
Theorem str_and_utf8_bytes_share_key (s : pystr) (utf8 : bytes) :
  codecs.utf_8_encode s = Ok utf8 ->
  to_url_safe_base64_32_bytes (PyStr s) = to_url_safe_base64_32_bytes (PyBytes utf8).
Proof. intros E. now rewrite derive_str, E, derive_bytes. Qed.

Lemma str_and_utf8_bytes_share_key_witness :
  to_url_safe_base64_32_bytes (PyStr [0x70; 0xE9; 0x20AC]) =
  to_url_safe_base64_32_bytes (PyBytes [x70; xc3; xa9; xe2; x82; xac]).
Proof.
  apply (str_and_utf8_bytes_share_key [0x70; 0xE9; 0x20AC]
           [x70; xc3; xa9; xe2; x82; xac]).
  reflexivity.
Defined.

Lemma urlsafe_alphabet_length : length KeySpec.urlsafe_alphabet = 64%nat.
Proof. reflexivity. Qed.

Lemma digit_in_alphabet (i : N) : In (KeySpec.digit i) KeySpec.urlsafe_alphabet.
Proof.
  unfold KeySpec.digit. apply nth_In. rewrite urlsafe_alphabet_length.
  pose proof (N.mod_lt i 64 ltac:(lia)). lia.
Qed.

(** An encoding of 3n+2 bytes is digits of the alphabet and one '='. *)
Lemma urlsafe_base64_two_left (data : bytes) :
  (length data mod 3 = 2)%nat ->
  exists body,
    KeySpec.urlsafe_base64 data = body ++ [KeySpec.pad_char]
    /\ Forall (fun c => In c KeySpec.urlsafe_alphabet) body.
Proof.
  induction data as [| x | x y | x y z rest IH] using list_ind3; intros L.
  - discriminate L.
  - discriminate L.
  - eexists [_; _; _]. split; [reflexivity|].
    repeat (apply Forall_cons; [apply digit_in_alphabet|]). apply Forall_nil.
  - cbn [length] in L.
    replace (S (S (S (length rest)))) with (length rest + 1 * 3)%nat in L by lia.
    rewrite Nat.Div0.mod_add in L.
    destruct (IH L) as (body & E & Hall).
    cbn [KeySpec.urlsafe_base64]. rewrite E.
    eexists (_ :: _ :: _ :: _ :: body). split; [reflexivity|].
    repeat (apply Forall_cons; [apply digit_in_alphabet|]). exact Hall.
Qed.

Lemma alphabet_has_no_plus_or_slash (c : N) :
  In c KeySpec.urlsafe_alphabet -> c <> 43 /\ c <> 47.
Proof.
  intros H.
  assert (Hall : forallb (fun c => negb (c =? 43) && negb (c =? 47))
                   KeySpec.urlsafe_alphabet = true) by reflexivity.
  rewrite forallb_forall in Hall. specialize (Hall c H).
  apply andb_true_iff in Hall as [H1 H2].
  apply negb_true_iff in H1, H2. apply N.eqb_neq in H1, H2. now split.
Qed.

(** X2.  Every key the derivation returns is 43 characters of the URL-safe
    alphabet (A-Z, a-z, 0-9, '-', '_') followed by a single '='; it never
    holds '+' or '/'. *)
Theorem derived_key_alphabet (x : pyobj) (k : pystr) :
  to_url_safe_base64_32_bytes x = Ok k ->
  exists body,
    k = body ++ [61]
    /\ length body = 43%nat
    /\ Forall (fun c => In c KeySpec.urlsafe_alphabet) body
    /\ Forall (fun c => c <> 43 /\ c <> 47) k.
Proof.
  intros Hk. destruct (derived_key_shape _ _ Hk) as [data ->].
  pose proof (key_of_length data) as L. rewrite key_of_spec in *.
  unfold KeySpec.derived_key in *.
  destruct (urlsafe_base64_two_left (hashlib.sha256_digest data))
    as (body & E & Hall).
  { now rewrite sha256_digest_length. }
  rewrite E in *. exists body. split; [reflexivity|].
  split; [rewrite length_app in L; cbn [length] in L; lia|].
  split; [exact Hall|].
  apply Forall_app. split.
  - apply Forall_forall. intros c Hc. apply alphabet_has_no_plus_or_slash.
    rewrite Forall_forall in Hall. now apply Hall.
  - apply Forall_cons; [split; discriminate | apply Forall_nil].
Qed.

Lemma derived_key_alphabet_witness :
  exists body,
    lit "K7gNU3sdo-OL0wNhqoVWhr3g6s1xYv72ol_pe_Unols=" = body ++ [61]
    /\ length body = 43%nat
    /\ Forall (fun c => In c KeySpec.urlsafe_alphabet) body
    /\ Forall (fun c => c <> 43 /\ c <> 47)
         (lit "K7gNU3sdo-OL0wNhqoVWhr3g6s1xYv72ol_pe_Unols=").
Proof.
  apply (derived_key_alphabet (PyStr (lit "secret"))).
  vm_compute. reflexivity.
Defined.

(** X3.  The cipher object built from the key of a passphrase holds the
    SHA-256 digest of the passphrase's UTF-8 bytes: the first 16 bytes as
    signing key, the last 16 as encryption key. *)
Theorem cipher_key_is_the_digest (s : pystr) (utf8 : bytes) (k : pystr) :
  codecs.utf_8_encode s = Ok utf8 ->
  to_url_safe_base64_32_bytes (PyStr s) = Ok k ->
  exists f,
    fernet.__init__ (PyStr k) = Ok f
    /\ fernet.raw_key f = hashlib.sha256_digest utf8
    /\ fernet._signing_key f = firstn 16 (hashlib.sha256_digest utf8)
    /\ fernet._encryption_key f = skipn 16 (hashlib.sha256_digest utf8)
    /\ length (fernet._signing_key f) = 16%nat
    /\ length (fernet._encryption_key f) = 16%nat.
Proof.
  intros E Hk. rewrite derive_str, E in Hk. injection Hk as <-.
  exists (fernet_of_key utf8).
  split; [apply fernet_init_key|].
  split; [apply raw_key_of_key|].
  unfold fernet_of_key, fernet_of. cbn [fernet._signing_key fernet._encryption_key].
  pose proof (sha256_digest_length utf8) as L.
  split; [reflexivity|]. split; [reflexivity|]. split.
  - now rewrite length_firstn, L.
  - now rewrite length_skipn, L.
Qed.

Lemma cipher_key_is_the_digest_witness :
  exists f,
    fernet.__init__ (PyStr (lit "47DEQpj8HBSa-_TImW-5JCeuQeRkm5NMpJWZG3hSuFU=")) = Ok f
    /\ fernet.raw_key f = hashlib.sha256_digest []
    /\ fernet._signing_key f = firstn 16 (hashlib.sha256_digest [])
    /\ fernet._encryption_key f = skipn 16 (hashlib.sha256_digest [])
    /\ length (fernet._signing_key f) = 16%nat
    /\ length (fernet._encryption_key f) = 16%nat.
Proof.
  apply (cipher_key_is_the_digest [] []).
  - reflexivity.
  - vm_compute. reflexivity.
Defined.

(** Keys agree exactly when the digests they encode agree. *)
Lemma key_of_agree_iff (b1 b2 : bytes) :
  @Ok pystr (key_of b1) = Ok (key_of b2)
  <-> hashlib.sha256_digest b1 = hashlib.sha256_digest b2.
Proof.
  split.
  - intros H.
    apply (f_equal (fun r => rbind r (fun k => base64.urlsafe_b64decode (PyStr k))))
      in H.
    cbn [rbind] in H. rewrite !key_of_decodes in H.
    exact (f_equal (fun r => match r with Ok d => d | Err _ => [] end) H).
  - intros E. unfold key_of. now rewrite E.
Qed.

(** X4.  Two byte strings derive the same key exactly when they have the
    same SHA-256 digest: the encoding adds no collision of its own. *)
Theorem same_key_iff_same_digest (b1 b2 : bytes) :
  to_url_safe_base64_32_bytes (PyBytes b1) = to_url_safe_base64_32_bytes (PyBytes b2)
  <-> hashlib.sha256_digest b1 = hashlib.sha256_digest b2.
Proof. rewrite !derive_bytes. apply key_of_agree_iff. Qed.

(** ** The UTF-8 encoding loses nothing *)

Ltac by_enum k n Hn :=
  pattern n;
  match goal with
  | |- (fun a => @?p a = true) _ =>
      apply (all_below_spec k p); [vm_compute; reflexivity | exact Hn]
  end.

Section Utf8RoundTrip.

Import codecs.

Lemma land_shiftl_low (h l k : N) : l < 2 ^ k -> N.land (N.shiftl h k) l = 0.
Proof.
  intros Hl. apply N.bits_inj_iff. intros i.
  rewrite N.land_spec, N.bits_0.
  destruct (N.lt_ge_cases i k) as [Hi|Hi].
  - now rewrite N.shiftl_spec_low.
  - rewrite <- (N.mod_small l (2 ^ k)) by exact Hl.
    rewrite N.mod_pow2_bits_high by exact Hi. apply andb_false_r.
Qed.

Lemma lor_shiftl_add (h l k : N) :
  l < 2 ^ k -> N.lor (N.shiftl h k) l = h * 2 ^ k + l.
Proof.
  intros Hl.
  rewrite <- N.lxor_lor by now apply land_shiftl_low.
  rewrite <- N.add_nocarry_lxor by now apply land_shiftl_low.
  now rewrite N.shiftl_mul_pow2.
Qed.

Lemma to_N_byte_of_N (n : N) : n < 256 -> Byte.to_N (byte_of_N n) = n.
Proof.
  intros Hn. unfold byte_of_N. rewrite N.mod_small by exact Hn.
  destruct (Byte.of_N n) as [b|] eqn:E.
  - now apply Byte.to_of_N.
  - apply Byte.of_N_None_iff in E. lia.
Qed.

Lemma low_six_bits (c : N) : N.land c 0x3F = c mod 64.
Proof. change 0x3F with (N.ones 6). now rewrite N.land_ones. Qed.

(** The bytes the encoder writes, as the decoder reads them. *)
Lemma continuation_byte (l : N) :
  l < 64 ->
  is_continuation (byte_of_N (N.lor 0x80 l)) = true
  /\ low6 (byte_of_N (N.lor 0x80 l)) = l.
Proof.
  intros Hl.
  assert (H : is_continuation (byte_of_N (N.lor 0x80 l))
              && (low6 (byte_of_N (N.lor 0x80 l)) =? l) = true)
    by (by_enum 64%nat l Hl).
  apply andb_true_iff in H as [H1 H2]. now apply N.eqb_eq in H2.
Qed.

Lemma lead_of_two (h : N) :
  h < 32 ->
  Byte.to_N (byte_of_N (N.lor 0xC0 h)) = 0xC0 + h
  /\ N.land (0xC0 + h) 0x1F = h.
Proof.
  intros Hh.
  assert (H : (Byte.to_N (byte_of_N (N.lor 0xC0 h)) =? 0xC0 + h)
              && (N.land (0xC0 + h) 0x1F =? h) = true)
    by (by_enum 32%nat h Hh).
  apply andb_true_iff in H as [H1 H2]. now apply N.eqb_eq in H1, H2.
Qed.

Lemma lead_of_three (h : N) :
  h < 16 ->
  Byte.to_N (byte_of_N (N.lor 0xE0 h)) = 0xE0 + h
  /\ N.land (0xE0 + h) 0x0F = h.
Proof.
  intros Hh.
  assert (H : (Byte.to_N (byte_of_N (N.lor 0xE0 h)) =? 0xE0 + h)
              && (N.land (0xE0 + h) 0x0F =? h) = true)
    by (by_enum 16%nat h Hh).
  apply andb_true_iff in H as [H1 H2]. now apply N.eqb_eq in H1, H2.
Qed.

Lemma lead_of_four (h : N) :
  h < 8 ->
  Byte.to_N (byte_of_N (N.lor 0xF0 h)) = 0xF0 + h
  /\ N.land (0xF0 + h) 0x07 = h.
Proof.
  intros Hh.
  assert (H : (Byte.to_N (byte_of_N (N.lor 0xF0 h)) =? 0xF0 + h)
              && (N.land (0xF0 + h) 0x07 =? h) = true)
    by (by_enum 8%nat h Hh).
  apply andb_true_iff in H as [H1 H2]. now apply N.eqb_eq in H1, H2.
Qed.

(** One step of the decoder. *)
Lemma utf_8_decode_cons (b0 : byte) (r0 : bytes) :
  utf_8_decode (b0 :: r0) =
  let n0 := Byte.to_N b0 in
  if n0 <? 0x80 then
    let* s := utf_8_decode r0 in Ok (n0 :: s)
  else if n0 <? 0xC2 then Err (invalid_utf8 "invalid start byte")
  else if n0 <? 0xE0 then
    match r0 with
    | b1 :: r1 =>
        if is_continuation b1 then
          let* s := utf_8_decode r1 in
          Ok (N.lor (N.shiftl (N.land n0 0x1F) 6) (low6 b1) :: s)
        else Err (invalid_utf8 "invalid continuation byte")
    | _ => Err (invalid_utf8 "unexpected end of data")
    end
  else if n0 <? 0xF0 then
    match r0 with
    | b1 :: b2 :: r2 =>
        let c := N.lor (N.shiftl (N.land n0 0x0F) 12)
                   (N.lor (N.shiftl (low6 b1) 6) (low6 b2)) in
        if is_continuation b1 && is_continuation b2
           && (0x800 <=? c) && negb (is_surrogate c) then
          let* s := utf_8_decode r2 in Ok (c :: s)
        else Err (invalid_utf8 "invalid continuation byte")
    | [b1] =>
        if valid_second n0 b1
        then Err (invalid_utf8 "unexpected end of data")
        else Err (invalid_utf8 "invalid continuation byte")
    | [] => Err (invalid_utf8 "unexpected end of data")
    end
  else if n0 <? 0xF5 then
    match r0 with
    | b1 :: b2 :: b3 :: r3 =>
        let c := N.lor (N.shiftl (N.land n0 0x07) 18)
                   (N.lor (N.shiftl (low6 b1) 12)
                      (N.lor (N.shiftl (low6 b2) 6) (low6 b3))) in
        if is_continuation b1 && is_continuation b2 && is_continuation b3
           && (0x10000 <=? c) && (c <? 0x110000) then
          let* s := utf_8_decode r3 in Ok (c :: s)
        else Err (invalid_utf8 "invalid continuation byte")
    | [b1; b2] =>
        if valid_second n0 b1 && is_continuation b2
        then Err (invalid_utf8 "unexpected end of data")
        else Err (invalid_utf8 "invalid continuation byte")
    | [b1] =>
        if valid_second n0 b1
        then Err (invalid_utf8 "unexpected end of data")
        else Err (invalid_utf8 "invalid continuation byte")
    | [] => Err (invalid_utf8 "unexpected end of data")
    end
  else Err (invalid_utf8 "invalid start byte").
Proof. reflexivity. Qed.

Ltac decide_tests :=
  repeat match goal with
    | |- context [?a <? ?b] =>
        first [ replace (a <? b) with true by (symmetry; apply N.ltb_lt; divmod_lia)
              | replace (a <? b) with false by (symmetry; apply N.ltb_ge; divmod_lia) ]
    | |- context [?a <=? ?b] =>
        first [ replace (a <=? b) with true by (symmetry; apply N.leb_le; divmod_lia)
              | replace (a <=? b) with false by (symmetry; apply N.leb_gt; divmod_lia) ]
    end.

(** The decoder reads back the character the encoder wrote. *)
Lemma utf_8_decode_char (c : N) (b rest : bytes) :
  utf_8_encode_char c = Ok b ->
  utf_8_decode (b ++ rest) = let* s := utf_8_decode rest in Ok (c :: s).
Proof.
  unfold utf_8_encode_char.
  destruct (N.ltb_spec c 0x80) as [H1|H1].
  { intros E. apply Ok_inj in E. subst b. cbn [app]. rewrite utf_8_decode_cons. cbv zeta.
    rewrite to_N_byte_of_N by lia. decide_tests. reflexivity. }
  destruct (N.ltb_spec c 0x800) as [H2|H2].
  { intros E. apply Ok_inj in E. subst b. cbn [app]. rewrite utf_8_decode_cons. cbv beta iota zeta.
    rewrite N.shiftr_div_pow2, low_six_bits. change (2 ^ 6) with 64.
    assert (Hh : c / 64 < 32) by divmod_lia.
    assert (Hh' : 2 <= c / 64) by divmod_lia.
    assert (Hl : c mod 64 < 64) by divmod_lia.
    destruct (lead_of_two _ Hh) as [-> ->].
    destruct (continuation_byte _ Hl) as [-> ->].
    decide_tests.
    change 6 with (N.of_nat 6) at 1.
    rewrite lor_shiftl_add by exact Hl.
    replace (c / 64 * 2 ^ N.of_nat 6 + c mod 64) with c
      by (change (2 ^ N.of_nat 6) with 64; divmod_lia).
    reflexivity. }
  destruct (is_surrogate c) eqn:Hs; [discriminate|].
  destruct (N.ltb_spec c 0x10000) as [H3|H3].
  { intros E. apply Ok_inj in E. subst b. cbn [app]. rewrite utf_8_decode_cons. cbv beta iota zeta.
    rewrite !N.shiftr_div_pow2, !low_six_bits.
    change (2 ^ 6) with 64. change (2 ^ 12) with 4096.
    assert (Hh : c / 4096 < 16) by divmod_lia.
    assert (Hm : (c / 64) mod 64 < 64) by divmod_lia.
    assert (Hl : c mod 64 < 64) by divmod_lia.
    destruct (lead_of_three _ Hh) as [-> ->].
    destruct (continuation_byte _ Hm) as [-> ->].
    destruct (continuation_byte _ Hl) as [-> ->].
    replace (N.lor (N.shiftl (c / 4096) 12)
               (N.lor (N.shiftl ((c / 64) mod 64) 6) (c mod 64))) with c.
    2:{ rewrite (lor_shiftl_add _ _ 6) by exact Hl.
        rewrite (lor_shiftl_add _ _ 12)
          by (change (2 ^ 6) with 64; change (2 ^ 12) with 4096; lia).
        change (2 ^ 6) with 64; change (2 ^ 12) with 4096. divmod_lia. }
    rewrite Hs. decide_tests. reflexivity. }
  destruct (N.ltb_spec c 0x110000) as [H4|H4]; [|discriminate].
  intros E. apply Ok_inj in E. subst b. cbn [app]. rewrite utf_8_decode_cons. cbv beta iota zeta.
  rewrite !N.shiftr_div_pow2, !low_six_bits.
  change (2 ^ 6) with 64. change (2 ^ 12) with 4096. change (2 ^ 18) with 262144.
  assert (Hh : c / 262144 < 8) by divmod_lia.
  assert (Hh' : c / 262144 < 5) by divmod_lia.
  assert (Hn : (c / 4096) mod 64 < 64) by divmod_lia.
  assert (Hm : (c / 64) mod 64 < 64) by divmod_lia.
  assert (Hl : c mod 64 < 64) by divmod_lia.
  destruct (lead_of_four _ Hh) as [-> ->].
  destruct (continuation_byte _ Hn) as [-> ->].
  destruct (continuation_byte _ Hm) as [-> ->].
  destruct (continuation_byte _ Hl) as [-> ->].
  replace (N.lor (N.shiftl (c / 262144) 18)
             (N.lor (N.shiftl ((c / 4096) mod 64) 12)
                (N.lor (N.shiftl ((c / 64) mod 64) 6) (c mod 64)))) with c.
  2:{ rewrite (lor_shiftl_add _ _ 6) by exact Hl.
      rewrite (lor_shiftl_add _ _ 12)
        by (change (2 ^ 6) with 64; change (2 ^ 12) with 4096; lia).
      rewrite (lor_shiftl_add _ _ 18)
        by (change (2 ^ 6) with 64; change (2 ^ 12) with 4096;
            change (2 ^ 18) with 262144; lia).
      change (2 ^ 6) with 64; change (2 ^ 12) with 4096;
        change (2 ^ 18) with 262144. divmod_lia. }
  decide_tests. reflexivity.
Qed.

(** [s.encode('utf-8').decode('utf-8') == s] *)
Lemma utf_8_decode_encode (s : pystr) (b : bytes) :
  utf_8_encode s = Ok b -> utf_8_decode b = Ok s.
Proof.
  revert b. induction s as [|c s IH]; intros b.
  - now intros [= <-].
  - cbn [utf_8_encode].
    destruct (utf_8_encode_char c) as [bc|] eqn:Ec; [|discriminate].
    destruct (utf_8_encode s) as [bs|] eqn:Es; [|discriminate].
    cbn [rbind]. intros [= <-].
    rewrite (utf_8_decode_char c bc bs Ec), (IH bs eq_refl). reflexivity.
Qed.

Lemma utf_8_encode_injective (s1 s2 : pystr) (b : bytes) :
  utf_8_encode s1 = Ok b -> utf_8_encode s2 = Ok b -> s1 = s2.
Proof.
  intros E1 E2. apply utf_8_decode_encode in E1, E2. congruence.
Qed.

End Utf8RoundTrip.

(** X5.  The hashed bytes determine the passphrase: decoding them as
    UTF-8 gives the passphrase back, so two passphrases that are text
    are hashed as the same bytes only when they are equal, and they
    derive the same key exactly when the SHA-256 digests of their
    encodings agree. *)
Theorem text_passphrases_share_key_iff_digest
        (s1 s2 : pystr) (b1 b2 : bytes) :
  codecs.utf_8_encode s1 = Ok b1 ->
  codecs.utf_8_encode s2 = Ok b2 ->
  codecs.utf_8_decode b1 = Ok s1
  /\ (b1 = b2 <-> s1 = s2)
  /\ (to_url_safe_base64_32_bytes (PyStr s1) = to_url_safe_base64_32_bytes (PyStr s2)
      <-> hashlib.sha256_digest b1 = hashlib.sha256_digest b2).
Proof.
  intros E1 E2. split; [now apply utf_8_decode_encode|]. split.
  - split.
    + intros <-. now apply (utf_8_encode_injective s1 s2 b1).
    + intros <-. congruence.
  - rewrite !derive_str, E1, E2. cbn [rbind]. apply key_of_agree_iff.
Qed.

Lemma text_passphrases_share_key_iff_digest_witness :
  codecs.utf_8_decode [xc3; xa9] = Ok [0xE9]
  /\ ([xc3; xa9] = [xe2; x82; xac] <-> [0xE9] = [0x20AC])
  /\ (to_url_safe_base64_32_bytes (PyStr [0xE9])
      = to_url_safe_base64_32_bytes (PyStr [0x20AC])
      <-> hashlib.sha256_digest [xc3; xa9]
          = hashlib.sha256_digest [xe2; x82; xac]).
Proof.
  apply (text_passphrases_share_key_iff_digest [0xE9] [0x20AC]
           [xc3; xa9] [xe2; x82; xac]); reflexivity.
Defined.

(** ** main.py *)

Section MainRuns.

Context {cipher : Cipher} {codec : Codec}.

Lemma page_header_sidebar (a : action) :
  exists uploader, page_header a = sidebar_events ++ [Shown uploader]
                   /\ forall body, uploader <> st_warning body.
Proof.
  destruct a; eexists; (split; [reflexivity | discriminate]).
Qed.

Lemma main_derive_fails (ss : session) (e : exn) :
  to_url_safe_base64_32_bytes (PyStr (text_input ss)) = Err e ->
  main ss = (sidebar_events, Err e).
Proof. intros Hk. unfold main. cbv zeta. rewrite Hk. reflexivity. Qed.

Lemma main_decrypt_no_file (ss : session) (data : bytes) :
  to_url_safe_base64_32_bytes (PyStr (text_input ss)) = Ok (key_of data) ->
  radio ss = Decrypt_an_Image ->
  file_uploader ss = None ->
  main ss =
  (page_header Decrypt_an_Image ++ [Shown (st_warning upload_warning)], Ok tt).
Proof.
  intros Hk Hr Hfile. unfold main. cbv zeta. rewrite Hk, Hr, Hfile.
  reflexivity.
Qed.

Lemma sidebar_has_no_cipher_call (ev : event) :
  In ev sidebar_events -> is_cipher_call ev = false.
Proof.
  unfold sidebar_events. cbn [In].
  intros [<-|[<-|[<-|[<-|[]]]]]; reflexivity.
Qed.

Lemma header_has_no_cipher_call (a : action) (ev : event) :
  In ev (page_header a) -> is_cipher_call ev = false.
Proof.
  unfold page_header. cbn [In].
  intros [<-|[<-|[<-|[<-|[<-|[]]]]]]; reflexivity.
Qed.

(** In each case of the run: the result of [main]. *)
Lemma main_cases (ss : session) :
  (exists e,
      to_url_safe_base64_32_bytes (PyStr (text_input ss)) = Err e
      /\ main ss = (sidebar_events, Err e))
  \/ exists data,
       codecs.utf_8_encode (text_input ss) = Ok data
       /\ to_url_safe_base64_32_bytes (PyStr (text_input ss)) = Ok (key_of data)
       /\ ((radio ss = Encrypt_an_Image /\ file_uploader ss = None
            /\ main ss = (page_header Encrypt_an_Image, Ok tt))
           \/ (exists file e,
                  radio ss = Encrypt_an_Image /\ file_uploader ss = Some file
                  /\ Image_open file = Err e
                  /\ main ss = (page_header Encrypt_an_Image, Err e))
           \/ (exists file im,
                  radio ss = Encrypt_an_Image /\ file_uploader ss = Some file
                  /\ Image_open file = Ok im
                  /\ main ss =
                     (page_header Encrypt_an_Image
                        ++ Shown (st_image im (lit "Original Image"))
                        :: encrypt_events (fernet_of_key data) (key_bytes_of data)
                             im (urandom ss),
                      Ok tt))
           \/ (radio ss = Decrypt_an_Image /\ file_uploader ss = None
               /\ main ss =
                  (page_header Decrypt_an_Image
                     ++ [Shown (st_warning upload_warning)], Ok tt))
           \/ (exists blob,
                  radio ss = Decrypt_an_Image /\ file_uploader ss = Some blob
                  /\ main ss =
                     (page_header Decrypt_an_Image
                        ++ decrypt_events (fernet_of_key data) (key_bytes_of data)
                             blob,
                      Ok tt))).
Proof.
  destruct (codecs.utf_8_encode (text_input ss)) as [data|e] eqn:E.
  - right. exists data.
    assert (Hk : to_url_safe_base64_32_bytes (PyStr (text_input ss))
                 = Ok (key_of data)) by now rewrite derive_str, E.
    split; [reflexivity|]. split; [exact Hk|].
    destruct (radio ss) eqn:Hr; destruct (file_uploader ss) as [file|] eqn:Hfile.
    + destruct (Image_open file) as [im|e] eqn:Hopen.
      * right. right. left. exists file, im. repeat split; try assumption.
        now apply (main_encrypt_run ss data Hk file im).
      * right. left. exists file, e. repeat split; try assumption.
        now apply (main_encrypt_unreadable ss data Hk file e).
    + left. repeat split. now apply (main_encrypt_no_file ss data Hk).
    + right. right. right. right. exists file. repeat split.
      now apply (main_decrypt_run ss data Hk file).
    + right. right. right. left. repeat split.
      now apply (main_decrypt_no_file ss data Hk).
  - left. exists e.
    assert (Hk : to_url_safe_base64_32_bytes (PyStr (text_input ss)) = Err e)
      by now rewrite derive_str, E.
    split; [exact Hk | now apply main_derive_fails].
Qed.

Lemma encrypt_events_no_warning (f : fernet.Fernet) (kb : bytes) (im : image)
      (rnd : entropy) (body : pystr) :
  ~ In (Shown (st_warning body)) (encrypt_events f kb im rnd).
Proof.
  unfold encrypt_events. intros [H|H]; [discriminate H|].
  destruct (image_save im (image_format im)); cbn [In] in H;
    intuition discriminate.
Qed.

Lemma decrypt_events_no_warning (f : fernet.Fernet) (kb blob : bytes)
      (body : pystr) :
  ~ In (Shown (st_warning body)) (decrypt_events f kb blob).
Proof.
  unfold decrypt_events. intros [H|[H|H]]; try discriminate H.
  destruct (decrypt f blob) as [plain|e]; [|cbn [In] in H; intuition discriminate].
  destruct (Image_open plain) as [im|e]; [|cbn [In] in H; intuition discriminate].
  cbv zeta in H. destruct H as [H|H]; [discriminate H|].
  destruct (image_save im _); cbn [In] in H; intuition discriminate.
Qed.

Lemma sidebar_shows_no_warning (body : pystr) :
  ~ In (Shown (st_warning body)) sidebar_events.
Proof.
  unfold sidebar_events. cbn [In]. intuition discriminate.
Qed.

(** X6.  When key derivation raises, the exception leaves [main] right
    after the sidebar widgets: no file uploader is created, nothing is
    reported through st.error and the cipher is not called. *)
Theorem derivation_error_escapes_main (ss : session) (e : exn) :
  to_url_safe_base64_32_bytes (PyStr (text_input ss)) = Err e ->
  outcome (main ss) = Err e /\ events (main ss) = sidebar_events.
Proof. intros Hk. rewrite (main_derive_fails ss e Hk). now split. Qed.

(** X7.  In the encrypt branch an upload that the codec cannot open makes
    [Image.open] raise outside the try block: the exception leaves [main],
    no "Encryption failed" is shown and the cipher is not called. *)
Theorem unreadable_upload_escapes_main
        (ss : session) (k : pystr) (file : bytes) (e : exn) :
  to_url_safe_base64_32_bytes (PyStr (text_input ss)) = Ok k ->
  radio ss = Encrypt_an_Image ->
  file_uploader ss = Some file ->
  Image_open file = Err e ->
  outcome (main ss) = Err e /\ events (main ss) = page_header Encrypt_an_Image.
Proof.
  intros Hk Hr Hfile Hopen. destruct (derived_key_shape _ _ Hk) as [d ->].
  rewrite (main_encrypt_unreadable ss d Hk file e Hr Hfile Hopen). now split.
Qed.

(** X8.  In the decrypt branch, when the token decrypts to bytes that are
    not an image, the exception of [Image.open] is caught and shown as
    "Decryption failed: ..."; no image and no download button are shown
    and the run ends normally. *)
Theorem decrypted_non_image_is_reported
        (ss : session) (blob : bytes) (k : pystr) (f : fernet.Fernet)
        (plain : bytes) (e : exn) :
  radio ss = Decrypt_an_Image ->
  file_uploader ss = Some blob ->
  to_url_safe_base64_32_bytes (PyStr (text_input ss)) = Ok k ->
  fernet.__init__ (PyStr k) = Ok f ->
  decrypt f blob = Ok plain ->
  Image_open plain = Err e ->
  outcome (main ss) = Ok tt
  /\ exists key_bytes,
       codecs.utf_8_encode k = Ok key_bytes
       /\ events (main ss) =
          page_header Decrypt_an_Image
            ++ [FernetInit (PyBytes key_bytes); FernetDecrypt blob;
                Shown (st_error (lit "Decryption failed: " ++ exn_str e))].
Proof.
  intros Hr Hfile Hk Hf Hdec Hopen.
  destruct (derived_key_shape _ _ Hk) as [d ->].
  rewrite fernet_init_key in Hf.
  assert (Ef : f = fernet_of_key d) by congruence. subst f.
  rewrite (main_decrypt_run ss d Hk blob Hr Hfile).
  split; [reflexivity|].
  exists (key_bytes_of d). split; [apply key_of_encode|].
  cbn [events fst]. unfold decrypt_events. now rewrite Hdec, Hopen.
Qed.

(** X9.  In the decrypt branch, when the decrypted image cannot be saved
    for the download, the image has already been displayed; the exception
    is then caught and shown as "Decryption failed: ...", and no download
    button is offered. *)
Theorem save_failure_is_reported_after_display
        (ss : session) (blob : bytes) (k : pystr) (f : fernet.Fernet)
        (plain : bytes) (im : image) (e : exn) :
  radio ss = Decrypt_an_Image ->
  file_uploader ss = Some blob ->
  to_url_safe_base64_32_bytes (PyStr (text_input ss)) = Ok k ->
  fernet.__init__ (PyStr k) = Ok f ->
  decrypt f blob = Ok plain ->
  Image_open plain = Ok im ->
  image_save im (Some (str_or (image_format im) (lit "PNG"))) = Err e ->
  outcome (main ss) = Ok tt
  /\ exists key_bytes,
       codecs.utf_8_encode k = Ok key_bytes
       /\ events (main ss) =
          page_header Decrypt_an_Image
            ++ [FernetInit (PyBytes key_bytes); FernetDecrypt blob;
                Shown (st_image im (lit "Decrypted Image"));
                Shown (st_error (lit "Decryption failed: " ++ exn_str e))].
Proof.
  intros Hr Hfile Hk Hf Hdec Hopen Hsave.
  destruct (derived_key_shape _ _ Hk) as [d ->].
  rewrite fernet_init_key in Hf.
  assert (Ef : f = fernet_of_key d) by congruence. subst f.
  rewrite (main_decrypt_run ss d Hk blob Hr Hfile).
  split; [reflexivity|].
  exists (key_bytes_of d). split; [apply key_of_encode|].
  cbn [events fst]. unfold decrypt_events. rewrite Hdec, Hopen. cbv zeta.
  now rewrite Hsave.
Qed.

(** X10.  When the decrypted image carries a format, it is saved in that
    format and the download is named "decrypted_image." followed by the
    format in lower case, with MIME type "image/" followed by the same. *)
Theorem download_is_named_after_format
        (ss : session) (blob : bytes) (k : pystr) (f : fernet.Fernet)
        (plain : bytes) (im : image) (fmt : pystr) (out : bytes) :
  radio ss = Decrypt_an_Image ->
  file_uploader ss = Some blob ->
  to_url_safe_base64_32_bytes (PyStr (text_input ss)) = Ok k ->
  fernet.__init__ (PyStr k) = Ok f ->
  decrypt f blob = Ok plain ->
  Image_open plain = Ok im ->
  image_format im = Some fmt ->
  truthy fmt = true ->
  image_save im (Some fmt) = Ok out ->
  outcome (main ss) = Ok tt
  /\ exists key_bytes,
       codecs.utf_8_encode k = Ok key_bytes
       /\ events (main ss) =
          page_header Decrypt_an_Image
            ++ [FernetInit (PyBytes key_bytes); FernetDecrypt blob;
                Shown (st_image im (lit "Decrypted Image"));
                Shown (st_download_button (lit "Download Decrypted Image") out
                         (lit "decrypted_image." ++ lower fmt)
                         (lit "image/" ++ lower fmt))].
Proof.
  intros Hr Hfile Hk Hf Hdec Hopen Hfmt Htruthy Hsave.
  destruct (derived_key_shape _ _ Hk) as [d ->].
  rewrite fernet_init_key in Hf.
  assert (Ef : f = fernet_of_key d) by congruence. subst f.
  rewrite (main_decrypt_run ss d Hk blob Hr Hfile).
  split; [reflexivity|].
  exists (key_bytes_of d). split; [apply key_of_encode|].
  cbn [events fst]. unfold decrypt_events. rewrite Hdec, Hopen. cbv zeta.
  rewrite Hfmt. cbn [str_or]. rewrite Htruthy, Hsave. reflexivity.
Qed.

(** X11.  A successful encrypt run encrypts the codec's re-encoding of the
    opened image in the image's own format, not the uploaded bytes, and
    offers the token as "encrypted_image.enc" with MIME type
    "application/octet-stream". *)
Theorem encrypt_run_offers_token
        (ss : session) (k : pystr) (f : fernet.Fernet)
        (file : bytes) (im : image) (data : bytes) :
  radio ss = Encrypt_an_Image ->
  file_uploader ss = Some file ->
  to_url_safe_base64_32_bytes (PyStr (text_input ss)) = Ok k ->
  fernet.__init__ (PyStr k) = Ok f ->
  Image_open file = Ok im ->
  image_save im (image_format im) = Ok data ->
  outcome (main ss) = Ok tt
  /\ exists key_bytes,
       codecs.utf_8_encode k = Ok key_bytes
       /\ events (main ss) =
          page_header Encrypt_an_Image
            ++ [Shown (st_image im (lit "Original Image"));
                FernetInit (PyBytes key_bytes); FernetEncrypt data;
                Shown (st_success (lit "Image Encrypted Successfully!"));
                Shown (st_download_button (lit "Download Encrypted Image")
                         (encrypt f (urandom ss) data)
                         (lit "encrypted_image.enc")
                         (lit "application/octet-stream"))].
Proof.
  intros Hr Hfile Hk Hf Hopen Hsave.
  destruct (derived_key_shape _ _ Hk) as [d ->].
  rewrite fernet_init_key in Hf.
  assert (Ef : f = fernet_of_key d) by congruence. subst f.
  rewrite (main_encrypt_run ss d Hk file im Hr Hfile Hopen).
  split; [reflexivity|].
  exists (key_bytes_of d). split; [apply key_of_encode|].
  cbn [events fst]. unfold encrypt_events. now rewrite Hsave.
Qed.

End MainRuns.

Section MainInvariants.

Context {cipher : Cipher} {codec : Codec}.

Lemma encrypt_events_init (f : fernet.Fernet) (kb : bytes) (im : image)
      (rnd : entropy) (key : pyobj) :
  In (FernetInit key) (encrypt_events f kb im rnd) -> key = PyBytes kb.
Proof.
  unfold encrypt_events. intros [H|H]; [congruence|].
  destruct (image_save im (image_format im)); cbn [In] in H;
    intuition discriminate.
Qed.

Lemma decrypt_events_init (f : fernet.Fernet) (kb blob : bytes) (key : pyobj) :
  In (FernetInit key) (decrypt_events f kb blob) -> key = PyBytes kb.
Proof.
  unfold decrypt_events. intros [H|[H|H]]; [congruence | discriminate H |].
  destruct (decrypt f blob) as [plain|e]; [|cbn [In] in H; intuition discriminate].
  destruct (Image_open plain) as [im|e]; [|cbn [In] in H; intuition discriminate].
  cbv zeta in H. destruct H as [H|H]; [discriminate H|].
  destruct (image_save im _); cbn [In] in H; intuition discriminate.
Qed.

Lemma header_has_no_init (a : action) (key : pyobj) :
  ~ In (FernetInit key) (page_header a).
Proof.
  intros H. apply header_has_no_cipher_call in H. discriminate H.
Qed.

(** X12.  What an encrypt run offers for download, uploaded to a decrypt
    run with the same passphrase, is decrypted and displayed: the image
    shown is the one the codec reads from the re-encoding that was
    encrypted, provided the cipher decrypts its own tokens. *)
Theorem download_of_encrypt_run_decrypts
        (enc dec : session) (k : pystr) (file : bytes) (im im' : image)
        (data token : bytes) :
  decrypts_own_tokens cipher ->
  to_url_safe_base64_32_bytes (PyStr (text_input enc)) = Ok k ->
  text_input dec = text_input enc ->
  radio enc = Encrypt_an_Image ->
  file_uploader enc = Some file ->
  Image_open file = Ok im ->
  image_save im (image_format im) = Ok data ->
  Image_open data = Ok im' ->
  In (Shown (st_download_button (lit "Download Encrypted Image") token
               (lit "encrypted_image.enc") (lit "application/octet-stream")))
     (events (main enc)) ->
  radio dec = Decrypt_an_Image ->
  file_uploader dec = Some token ->
  outcome (main dec) = Ok tt
  /\ In (FernetDecrypt token) (events (main dec))
  /\ In (Shown (st_image im' (lit "Decrypted Image"))) (events (main dec)).
Proof.
  intros Hlaw Hk Htext Hre Hfe Hopen Hsave Hopen' Hin Hrd Hfd.
  destruct (derived_key_shape _ _ Hk) as [d ->].
  assert (Hk' : to_url_safe_base64_32_bytes (PyStr (text_input dec))
                = Ok (key_of d)) by now rewrite Htext.
  rewrite (main_encrypt_run enc d Hk file im Hre Hfe Hopen) in Hin.
  cbn [events fst] in Hin. unfold encrypt_events in Hin. rewrite Hsave in Hin.
  apply in_app_or in Hin as [Hin|Hin].
  { unfold page_header in Hin. cbn [In] in Hin. intuition discriminate. }
  assert (Et : token = encrypt (fernet_of_key d) (urandom enc) data).
  { cbn [In] in Hin.
    destruct Hin as [H|[H|[H|[H|[H|[]]]]]]; try discriminate H.
    now injection H. }
  subst token.
  rewrite (main_decrypt_run dec d Hk' _ Hrd Hfd).
  cbn [events outcome fst snd]. unfold decrypt_events.
  rewrite Hlaw, Hopen'. cbv zeta.
  split; [reflexivity|]. split.
  - apply in_or_app. right. right. left. reflexivity.
  - apply in_or_app. right. right. right. left. reflexivity.
Qed.

(** X13.  The only warning [main] ever shows is the one of the decrypt
    branch, and it is shown exactly when no file has been uploaded there.
    The warning of the encrypt branch is never shown. *)
Theorem warning_only_without_encrypted_file
        (ss : session) (k body : pystr) :
  to_url_safe_base64_32_bytes (PyStr (text_input ss)) = Ok k ->
  In (Shown (st_warning body)) (events (main ss))
  <-> radio ss = Decrypt_an_Image /\ file_uploader ss = None
      /\ body = upload_warning.
Proof.
  intros Hk. split.
  - intros H.
    destruct (main_cases ss) as [(e & Hk' & _)|(data & _ & _ & Hcase)];
      [congruence|].
    destruct Hcase as [(_ & _ & E)|[(file & e & _ & _ & _ & E)
      |[(file & im & _ & _ & _ & E)|[(Hr & Hf & E)|(blob & _ & _ & E)]]]];
      rewrite E in H; cbn [events fst] in H.
    + now apply header_shows_no_warning in H.
    + now apply header_shows_no_warning in H.
    + apply in_app_or in H as [H|[H|H]];
        [now apply header_shows_no_warning in H | discriminate H
        | now apply encrypt_events_no_warning in H].
    + apply in_app_or in H as [H|[H|[]]];
        [now apply header_shows_no_warning in H|].
      injection H as <-. now repeat split.
    + apply in_app_or in H as [H|H];
        [now apply header_shows_no_warning in H
        | now apply decrypt_events_no_warning in H].
  - intros (Hr & Hf & ->).
    destruct (derived_key_shape _ _ Hk) as [d ->].
    rewrite (main_decrypt_no_file ss d Hk Hr Hf). cbn [events fst].
    apply in_or_app. right. left. reflexivity.
Qed.

(** X14.  Without an uploaded file [main] never calls the cipher: no
    cipher object is constructed and nothing is encrypted or decrypted. *)
Theorem no_upload_no_cipher_call (ss : session) :
  file_uploader ss = None ->
  Forall (fun ev => is_cipher_call ev = false) (events (main ss)).
Proof.
  intros Hfile. apply Forall_forall. intros ev H.
  destruct (main_cases ss) as [(e & _ & E)|(data & _ & _ & Hcase)].
  - rewrite E in H. now apply sidebar_has_no_cipher_call in H.
  - destruct Hcase as [(_ & _ & E)|[(file & e & _ & Hf & _)
      |[(file & im & _ & Hf & _)|[(_ & _ & E)|(blob & _ & Hf & _)]]]];
      try congruence; rewrite E in H; cbn [events fst] in H.
    + now apply header_has_no_cipher_call in H.
    + apply in_app_or in H as [H|[<-|[]]];
        [now apply header_has_no_cipher_call in H | reflexivity].
Qed.

(** X15.  Whenever [main] constructs the cipher, the key it passes is the
    bytes of the derived key, the URL-safe base64 of the SHA-256 digest of
    the passphrase's UTF-8 encoding; the passphrase itself is never passed
    to the cipher. *)
Theorem cipher_is_built_from_derived_key (ss : session) (key : pyobj) :
  In (FernetInit key) (events (main ss)) ->
  exists utf8,
    codecs.utf_8_encode (text_input ss) = Ok utf8
    /\ key = PyBytes (base64.urlsafe_b64encode (hashlib.sha256_digest utf8))
    /\ file_uploader ss <> None.
Proof.
  intros H.
  destruct (main_cases ss) as [(e & _ & E)|(data & Hd & _ & Hcase)].
  - rewrite E in H. apply sidebar_has_no_cipher_call in H. discriminate H.
  - exists data. split; [exact Hd|].
    destruct Hcase as [(_ & _ & E)|[(file & e & _ & _ & _ & E)
      |[(file & im & _ & Hf & _ & E)|[(_ & _ & E)|(blob & _ & Hf & E)]]]];
      rewrite E in H; cbn [events fst] in H.
    + now apply header_has_no_init in H.
    + now apply header_has_no_init in H.
    + apply in_app_or in H as [H|[H|H]];
        [now apply header_has_no_init in H | discriminate H |].
      apply encrypt_events_init in H. split; [exact H | congruence].
    + apply in_app_or in H as [H|[H|[]]];
        [now apply header_has_no_init in H | discriminate H].
    + apply in_app_or in H as [H|H]; [now apply header_has_no_init in H|].
      apply decrypt_events_init in H. split; [exact H | congruence].
Qed.

(** On the codec that decodes on opening, an exception leaves [main]
    when key derivation raised or when the encrypt branch could not open
    the uploaded file. *)
Lemma main_escapes (ss : session) (e : exn) :
  outcome (main ss) = Err e ->
  to_url_safe_base64_32_bytes (PyStr (text_input ss)) = Err e
  \/ (radio ss = Encrypt_an_Image
      /\ exists file, file_uploader ss = Some file /\ Image_open file = Err e).
Proof.
  intros H.
  destruct (main_cases ss) as [(e' & Hk & E)|(data & _ & _ & Hcase)].
  - rewrite E in H. cbn [outcome snd] in H. left. congruence.
  - destruct Hcase as [(_ & _ & E)|[(file & e' & Hr & Hf & Ho & E)
      |[(file & im & _ & _ & _ & E)|[(_ & _ & E)|(blob & _ & _ & E)]]]];
      rewrite E in H; cbn [outcome snd] in H; try discriminate H.
    right. split; [exact Hr|]. exists file. split; [exact Hf | congruence].
Qed.

End MainInvariants.

(** ** More runs of the page *)

Section PageRuns.

Context {cipher : Cipher} {codec : Codec}.

Lemma labels_differ :
  lit "Download Encrypted Image" <> lit "Download Decrypted Image".
Proof. discriminate. Qed.

(** A token offered for download was made in this run, under the key of
    this run's passphrase. *)
Lemma offered_token_origin (ss : session) (d : bytes) (token : bytes)
      (name mime : pystr) :
  to_url_safe_base64_32_bytes (PyStr (text_input ss)) = Ok (key_of d) ->
  In (Shown (st_download_button (lit "Download Encrypted Image") token name mime))
     (events (main ss)) ->
  exists data, token = encrypt (fernet_of_key d) (urandom ss) data.
Proof.
  intros Hk Hin.
  destruct (radio ss) eqn:Hr; destruct (file_uploader ss) as [file|] eqn:Hfile.
  - destruct (Image_open file) as [im|e] eqn:Hopen.
    + rewrite (main_encrypt_run ss d Hk file im Hr Hfile Hopen) in Hin.
      cbn [events fst] in Hin. apply in_app_or in Hin as [Hin|Hin].
      { apply header_has_no_cipher_call in Hin as Hc.
        unfold page_header in Hin. cbn [In] in Hin.
        destruct Hin as [H|[H|[H|[H|[H|[]]]]]]; discriminate H. }
      destruct Hin as [Hin|Hin]; [discriminate Hin|].
      unfold encrypt_events in Hin.
      destruct Hin as [Hin|Hin]; [discriminate Hin|].
      destruct (image_save im (image_format im)) as [data|e].
      * cbn [In] in Hin.
        destruct Hin as [H|[H|[H|[]]]]; try discriminate H.
        exists data. now injection H.
      * cbn [In] in Hin. destruct Hin as [H|[]]. discriminate H.
    + rewrite (main_encrypt_unreadable ss d Hk file e Hr Hfile Hopen) in Hin.
      cbn [events fst] in Hin. unfold page_header in Hin. cbn [In] in Hin.
      destruct Hin as [H|[H|[H|[H|[H|[]]]]]]; discriminate H.
  - rewrite (main_encrypt_no_file ss d Hk Hr Hfile) in Hin.
    cbn [events fst] in Hin. unfold page_header in Hin. cbn [In] in Hin.
    destruct Hin as [H|[H|[H|[H|[H|[]]]]]]; discriminate H.
  - rewrite (main_decrypt_run ss d Hk file Hr Hfile) in Hin.
    cbn [events fst] in Hin. apply in_app_or in Hin as [Hin|Hin].
    { unfold page_header in Hin. cbn [In] in Hin.
      destruct Hin as [H|[H|[H|[H|[H|[]]]]]]; discriminate H. }
    unfold decrypt_events in Hin.
    destruct Hin as [H|[H|Hin]]; try discriminate H.
    destruct (decrypt (fernet_of_key d) file) as [plain|e];
      [|cbn [In] in Hin; destruct Hin as [H|[]]; discriminate H].
    destruct (Image_open plain) as [im|e];
      [|cbn [In] in Hin; destruct Hin as [H|[]]; discriminate H].
    cbv zeta in Hin. destruct Hin as [H|Hin]; [discriminate H|].
    destruct (image_save im _) as [out|e]; cbn [In] in Hin;
      destruct Hin as [H|[]]; [|discriminate H].
    exfalso. apply labels_differ. now injection H.
  - rewrite (main_decrypt_no_file ss d Hk Hr Hfile) in Hin.
    cbn [events fst] in Hin. apply in_app_or in Hin as [Hin|Hin].
    { unfold page_header in Hin. cbn [In] in Hin.
      destruct Hin as [H|[H|[H|[H|[H|[]]]]]]; discriminate H. }
    destruct Hin as [H|[]]. discriminate H.
Qed.

Lemma header_cipher_calls (a : action) :
  filter is_cipher_call (page_header a) = [].
Proof. reflexivity. Qed.

(** X19.  The calls a run makes to the cipher: none; or one construction
    followed by at most one call, which is encrypt in the encrypt branch
    and decrypt of the uploaded file in the decrypt branch.  The cipher is
    never constructed twice, the encrypt branch never decrypts and the
    decrypt branch never encrypts. *)
Theorem cipher_calls_of_a_run (ss : session) :
  filter is_cipher_call (events (main ss)) = []
  \/ exists key,
       (radio ss = Encrypt_an_Image
        /\ filter is_cipher_call (events (main ss)) = [FernetInit key])
       \/ (radio ss = Encrypt_an_Image
           /\ exists data,
                filter is_cipher_call (events (main ss))
                = [FernetInit key; FernetEncrypt data])
       \/ (radio ss = Decrypt_an_Image
           /\ exists blob,
                file_uploader ss = Some blob
                /\ filter is_cipher_call (events (main ss))
                   = [FernetInit key; FernetDecrypt blob]).
Proof.
  destruct (main_cases ss) as [(e & _ & E)|(d & _ & _ & Hcase)].
  { left. now rewrite E. }
  destruct Hcase as [(_ & _ & E)|[(file & e & _ & _ & _ & E)
    |[(file & im & Hr & _ & _ & E)|[(_ & _ & E)|(blob & Hr & Hf & E)]]]];
    rewrite E; cbn [events fst]; rewrite ?filter_app, ?header_cipher_calls.
  - now left.
  - now left.
  - right. exists (PyBytes (key_bytes_of d)).
    cbn [app filter is_cipher_call]. unfold encrypt_events.
    destruct (image_save im (image_format im)) as [data|e];
      cbn [filter is_cipher_call].
    + right. left. split; [exact Hr|]. now exists data.
    + left. now split.
  - now left.
  - right. exists (PyBytes (key_bytes_of d)). right. right.
    split; [exact Hr|]. exists blob. split; [exact Hf|].
    cbn [app]. unfold decrypt_events. cbn [filter is_cipher_call].
    destruct (decrypt (fernet_of_key d) blob) as [plain|e]; [|reflexivity].
    destruct (Image_open plain) as [im|e]; [|reflexivity].
    cbv zeta. cbn [filter is_cipher_call].
    destruct (image_save im _); reflexivity.
Qed.

End PageRuns.

Section WrongPassphrase.

Context {aes : BlockCipher} {codec : Codec}.

(** X17.  What an encrypt run offers for download, uploaded to a decrypt
    run with another passphrase, is refused when the HMAC-SHA256 of the
    token's signed bytes under the signing half of the second key differs
    from the one under the first: the cipher is called once, its
    InvalidToken is shown as "Decryption failed: ...", no image and no
    download button are shown and the run ends normally.  The cipher is
    Fernet as the library defines it, over any block cipher. *)
Theorem wrong_passphrase_is_reported
        (enc dec : session (cipher := token.cipher)) (k k2 : pystr)
        (f f2 : fernet.Fernet) (tok : bytes) :
  to_url_safe_base64_32_bytes (PyStr (text_input enc)) = Ok k ->
  to_url_safe_base64_32_bytes (PyStr (text_input dec)) = Ok k2 ->
  fernet.__init__ (PyStr k) = Ok f ->
  fernet.__init__ (PyStr k2) = Ok f2 ->
  In (Shown (st_download_button (lit "Download Encrypted Image") tok
               (lit "encrypted_image.enc") (lit "application/octet-stream")))
     (events (main enc)) ->
  radio dec = Decrypt_an_Image ->
  file_uploader dec = Some tok ->
  hmac.digest (fernet._signing_key f2) (signed_bytes tok)
  <> hmac.digest (fernet._signing_key f) (signed_bytes tok) ->
  outcome (main dec) = Ok tt
  /\ exists key_bytes,
       codecs.utf_8_encode k2 = Ok key_bytes
       /\ events (main dec) =
          page_header Decrypt_an_Image
            ++ [FernetInit (PyBytes key_bytes); FernetDecrypt tok;
                Shown (st_error (lit "Decryption failed: "
                                   ++ exn_str token.invalid_token))].
Proof.
  intros Hk Hk2 Hf Hf2 Hin Hrd Hfd Hne.
  destruct (derived_key_shape _ _ Hk) as [d1 ->].
  destruct (derived_key_shape _ _ Hk2) as [d2 ->].
  rewrite fernet_init_key in Hf, Hf2.
  apply Ok_inj in Hf, Hf2. subst f f2.
  destruct (offered_token_origin enc d1 tok _ _ Hk Hin) as [data ->].
  cbn [encrypt token.cipher] in *.
  rewrite signed_bytes_token in Hne.
  rewrite (main_decrypt_run dec d2 Hk2 _ Hrd Hfd).
  split; [reflexivity|].
  exists (key_bytes_of d2). split; [apply key_of_encode|].
  cbn [events fst]. unfold decrypt_events.
  cbn [decrypt token.cipher].
  now rewrite (token_refused _ _ _ data Hne).
Qed.

End WrongPassphrase.

(** ** A token decrypts under its own key *)

Section TokenRoundTrip.

Context {aes : BlockCipher}.

(** The block cipher gives back whole blocks as they were. *)
Hypothesis cbc_inverse :
  forall key iv data,
    (length data mod 16 = 0)%nat ->
    cbc_decrypt key iv (cbc_encrypt key iv data) = Ok data.

Lemma forallb_repeat (b : byte) (n : nat) :
  forallb (Byte.eqb b) (repeat b n) = true.
Proof.
  induction n as [|n IH]; [reflexivity|].
  cbn [repeat forallb]. rewrite IH.
  assert (H : Byte.eqb b b = true) by now apply byte_dec_lb.
  now rewrite H.
Qed.

Lemma pad_count (data : bytes) :
  let n := (16 - length data mod 16)%nat in
  (1 <= n <= 16)%nat /\ ((length data + n) mod 16 = 0)%nat.
Proof.
  cbv zeta.
  pose proof (Nat.mod_upper_bound (length data) 16 ltac:(lia)) as Hr.
  split; [lia|].
  pose proof (Nat.div_mod_eq (length data) 16) as Hd.
  replace (length data + (16 - length data mod 16))%nat
    with ((length data / 16 + 1) * 16)%nat by lia.
  apply Nat.Div0.mod_mul.
Qed.

Lemma pkcs7_pad_length (data : bytes) : (length (padding.pad data) mod 16 = 0)%nat.
Proof.
  unfold padding.pad. cbv zeta. rewrite length_app, repeat_length.
  apply pad_count.
Qed.

Lemma unpad_pad (data : bytes) : padding.unpad (padding.pad data) = Ok data.
Proof.
  pose proof (pkcs7_pad_length data) as Hlen.
  destruct (pad_count data) as [Hn _]. cbv zeta in Hn.
  unfold padding.pad in *. cbv zeta in *.
  set (n := (16 - length data mod 16)%nat) in *.
  set (b := byte_of_N (N.of_nat n)) in *.
  assert (Hb : N.to_nat (Byte.to_N b) = n).
  { unfold b. rewrite to_N_byte_of_N by lia. apply Nat2N.id. }
  unfold padding.unpad.
  destruct n as [|m] eqn:En; [lia|].
  cbn [repeat]. rewrite repeat_cons, app_assoc, rev_unit.
  rewrite <- app_assoc, <- repeat_cons.
  change (b :: repeat b m) with (repeat b (S m)).
  rewrite Hb, Hlen.
  rewrite length_app, repeat_length.
  replace (length data + S m - S m)%nat with (length data) by lia.
  rewrite skipn_app, Nat.sub_diag, skipn_all. cbn [skipn app].
  rewrite forallb_repeat.
  rewrite firstn_app, Nat.sub_diag, firstn_all. cbn [firstn]. rewrite app_nil_r.
  replace ((0 =? 0)%nat && (1 <=? S m)%nat && (S m <=? 16)%nat) with true.
  - reflexivity.
  - symmetry. rewrite !andb_true_iff.
    repeat split; try reflexivity; apply Nat.leb_le; lia.
Qed.

(** Whatever the time and the 16 bytes of the iv, a token decrypts, under
    the key that made it, to what was encrypted. *)
Lemma token_round_trip (f : fernet.Fernet) (rnd : token.clock_and_random)
      (data : bytes) :
  length (token.iv rnd) = 16%nat ->
  token.decrypt f (token.encrypt f rnd data) = Ok data.
Proof.
  intros Hiv. unfold token.decrypt. rewrite token_unverified. cbn [rbind].
  unfold token._decrypt_data, token._verify_signature.
  pose proof (hmac_digest_length (fernet._signing_key f) (token_body f rnd data))
    as Htag.
  destruct (signed_part_app (token_body f rnd data) _ Htag) as [-> ->].
  replace (token.bytes_eqb _ _) with true by (symmetry; now apply bytes_eqb_eq).
  cbn [rbind]. cbv zeta.
  revert Htag.
  generalize (hmac.digest (fernet._signing_key f) (token_body f rnd data)).
  intros tag Htag. unfold token_body.
  set (ct := cbc_encrypt (fernet._encryption_key f) (token.iv rnd)
               (padding.pad data)).
  assert (E9 : skipn 9 (([x80] ++ token.to_bytes8 (token.current_time rnd)
                           ++ token.iv rnd ++ ct) ++ tag)
               = token.iv rnd ++ ct ++ tag).
  { cbn [app token.to_bytes8 map skipn]. now rewrite <- app_assoc. }
  assert (E25 : skipn 25 (([x80] ++ token.to_bytes8 (token.current_time rnd)
                             ++ token.iv rnd ++ ct) ++ tag)
                = ct ++ tag).
  { change 25%nat with (16 + 9)%nat. rewrite <- skipn_skipn, E9.
    rewrite skipn_app, Hiv, Nat.sub_diag, skipn_all2 by lia. reflexivity. }
  rewrite E9, E25.
  rewrite firstn_app, Hiv, Nat.sub_diag, firstn_all2 by lia.
  cbn [firstn]. rewrite app_nil_r, Hiv. cbn [Nat.eqb negb].
  replace (length (([x80] ++ token.to_bytes8 (token.current_time rnd)
                      ++ token.iv rnd ++ ct) ++ tag) - 32 - 25)%nat
    with (length ct).
  2:{ rewrite !length_app, Hiv, Htag. cbn [length token.to_bytes8 map]. lia. }
  rewrite firstn_app, Nat.sub_diag, firstn_all. cbn [firstn]. rewrite app_nil_r.
  unfold ct. rewrite cbc_inverse by apply pkcs7_pad_length.
  now rewrite unpad_pad.
Qed.

End TokenRoundTrip.

(** ** Lazy opening and the runs of [main] *)

Section LazyRuns.

Context {cipher : Cipher} {lc : Lazy.LazyCodec}.

(** A run of main.py with the image decoded where st.image needs it is the
    run of [main] on the codec that decodes on opening: the same calls
    reach the screen and the cipher, in the same order, and the same
    exception, if any, leaves. *)
Lemma lazy_main_eager (ss : session) :
  Lazy.main ss = main (codec := Lazy.eager) ss.
Proof.
  unfold Lazy.main, main. cbv zeta.
  destruct (to_url_safe_base64_32_bytes (PyStr (text_input ss))) as [k|e];
    [|reflexivity].
  destruct (radio ss); destruct (file_uploader ss) as [file|]; try reflexivity.
  - cbn [Image_open Lazy.eager]. unfold Lazy.st_image_.
    destruct (Lazy.lazy_open file) as [im|e]; [|reflexivity].
    cbn [bind lift tell st ret app rbind].
    destruct (Lazy.load im) as [[]|e]; reflexivity.
  - cbn [bind lift tell st ret app rbind].
    destruct (truthy k); [|reflexivity].
    destruct (codecs.utf_8_encode k) as [kb|e]; [|reflexivity].
    unfold Lazy.decrypt_image, decrypt_image, Fernet, fernet_decrypt,
      Lazy.st_image_.
    cbn [Image_open image_save image_format Lazy.eager].
    cbn [bind lift tell st ret app rbind].
    destruct (fernet.__init__ (PyBytes kb)) as [f|e]; [|reflexivity].
    destruct (decrypt f file) as [plain|e]; [|reflexivity].
    destruct (Lazy.lazy_open plain) as [im|e]; [|reflexivity].
    cbn [bind lift tell st ret app rbind try_except].
    destruct (Lazy.load im) as [[]|e]; reflexivity.
Qed.

End LazyRuns.

Section LazyClaims.

Context {cipher : Cipher} {lc : Lazy.LazyCodec}.

(** X16.  An exception leaves main() in three cases only: key derivation
    raised; or, in the encrypt branch, [Image.open] raised on the uploaded
    file; or, in the encrypt branch, st.image raised while decoding the
    image that was opened.  Every other failure of the cipher or of the
    codec is caught and reported. *)
Theorem main_raises_in_three_cases_only (ss : session) (e : exn) :
  outcome (Lazy.main ss) = Err e ->
  to_url_safe_base64_32_bytes (PyStr (text_input ss)) = Err e
  \/ (radio ss = Encrypt_an_Image
      /\ exists file,
           file_uploader ss = Some file
           /\ (Lazy.lazy_open file = Err e
               \/ exists im, Lazy.lazy_open file = Ok im /\ Lazy.load im = Err e)).
Proof.
  rewrite lazy_main_eager. intros H.
  destruct (main_escapes (codec := Lazy.eager) ss e H)
    as [Hk|(Hr & file & Hf & Ho)]; [now left|].
  right. split; [exact Hr|]. exists file. split; [exact Hf|].
  cbn [Image_open Lazy.eager] in Ho.
  destruct (Lazy.lazy_open file) as [im|e0]; cbn [rbind] in Ho.
  - right. exists im. split; [reflexivity|].
    destruct (Lazy.load im) as [[]|e1]; cbn [rbind] in Ho; congruence.
  - left. exact Ho.
Qed.

(** X18.  In the encrypt branch, when the uploaded image opens and is
    displayed and then cannot be saved in its own format, the cipher
    object has been constructed but encrypt is not called: the exception
    is caught and shown as "Encryption failed: ..." after the original
    image, without success message or download button, and the run ends
    normally. *)
Theorem encrypt_save_failure_is_reported
        (ss : session) (k : pystr) (file : bytes) (im : Lazy.lazy_image)
        (e : exn) :
  radio ss = Encrypt_an_Image ->
  file_uploader ss = Some file ->
  to_url_safe_base64_32_bytes (PyStr (text_input ss)) = Ok k ->
  Lazy.lazy_open file = Ok im ->
  Lazy.load im = Ok tt ->
  Lazy.lazy_save im (Lazy.lazy_format im) = Err e ->
  outcome (Lazy.main ss) = Ok tt
  /\ exists key_bytes,
       codecs.utf_8_encode k = Ok key_bytes
       /\ events (Lazy.main ss) =
          page_header Encrypt_an_Image
            ++ [Shown (st_image (codec := Lazy.eager) im (lit "Original Image"));
                FernetInit (PyBytes key_bytes);
                Shown (st_error (lit "Encryption failed: " ++ exn_str e))].
Proof.
  intros Hr Hfile Hk Hopen Hload Hsave.
  destruct (derived_key_shape _ _ Hk) as [d ->].
  rewrite lazy_main_eager.
  assert (Ho : Image_open (Codec := Lazy.eager) file = Ok im).
  { cbn [Image_open Lazy.eager]. rewrite Hopen. cbn [rbind]. now rewrite Hload. }
  rewrite (main_encrypt_run (codec := Lazy.eager) ss d Hk file im Hr Hfile Ho).
  split; [reflexivity|].
  exists (key_bytes_of d). split; [apply key_of_encode|].
  cbn [events fst]. unfold encrypt_events.
  cbn [image_save image_format Lazy.eager]. now rewrite Hsave.
Qed.

End LazyClaims.

(** ** Keys the cipher refuses *)

Section ShortKeys.

Import binascii.

(** Four characters of input give at most three bytes of output. *)
Lemma a2b_step_bound (st : a2b_state) (c : byte) (n : nat) :
  quad_pos st < 4 ->
  (4 * length (bin_data st) + pending (quad_pos st) <= 3 * n)%nat ->
  quad_pos (a2b_step st c) < 4
  /\ (4 * length (bin_data (a2b_step st c))
      + pending (quad_pos (a2b_step st c)) <= 3 * S n)%nat.
Proof.
  intros Hq Hb. unfold a2b_step.
  destruct (finished st); [split; [exact Hq | lia]|].
  destruct (Byte.eqb c BASE64_PAD).
  - destruct (_ && _); cbn [quad_pos bin_data]; (split; [exact Hq | lia]).
  - destruct (a2b c) as [v|]; [|split; [exact Hq | lia]].
    assert (Hcases : quad_pos st = 0 \/ quad_pos st = 1
                     \/ quad_pos st = 2 \/ quad_pos st = 3) by lia.
    destruct Hcases as [E|[E|[E|E]]]; rewrite E in *;
      cbn [quad_pos bin_data length pending] in *; (split; lia).
Qed.

Lemma a2b_run_bound (cs : bytes) (st : a2b_state) (n : nat) :
  quad_pos st < 4 ->
  (4 * length (bin_data st) + pending (quad_pos st) <= 3 * n)%nat ->
  (4 * length (bin_data (fold_left a2b_step cs st)) <= 3 * (n + length cs))%nat.
Proof.
  revert st n. induction cs as [|c cs IH]; intros st n Hq Hb.
  - cbn [fold_left length]. lia.
  - cbn [fold_left length].
    destruct (a2b_step_bound st c n Hq Hb) as [Hq' Hb'].
    specialize (IH _ _ Hq' Hb'). lia.
Qed.

Lemma a2b_base64_bound (data out : bytes) :
  a2b_base64 data = Ok out -> (4 * length out <= 3 * length data)%nat.
Proof.
  unfold a2b_base64. cbv zeta.
  pose proof (a2b_run_bound data (A2B 0 0 0 [] false) 0) as H.
  cbn [quad_pos bin_data length pending] in H.
  specialize (H ltac:(lia) ltac:(lia)).
  destruct (_ || _).
  - intros E. apply Ok_inj in E. subst out. rewrite length_rev. lia.
  - destruct (_ =? 1); discriminate.
Qed.

Lemma a2b_base64_error (data : bytes) (e : exn) :
  a2b_base64 data = Err e -> exn_cls e = BinasciiError.
Proof.
  unfold a2b_base64. cbv zeta.
  destruct (_ || _); [discriminate|].
  destruct (_ =? 1); intros [= <-]; reflexivity.
Qed.

Lemma ascii_encode_length (s : pystr) (b : bytes) :
  codecs.ascii_encode s = Ok b -> length b = length s.
Proof.
  revert b. induction s as [|c s IH]; intros b.
  - now intros [= <-].
  - cbn [codecs.ascii_encode]. destruct (c <? 0x80); [|discriminate].
    destruct (codecs.ascii_encode s) as [bs|]; [|discriminate].
    cbn [rbind]. intros [= <-]. cbn [length]. now rewrite (IH bs).
Qed.

(** [Fernet(key)] on a key of 42 characters or fewer. *)
Lemma fernet_init_short (key : pyobj) :
  (pylen key <= 42)%nat ->
  exists e, fernet.__init__ key = Err e /\ exn_cls e = ValueError.
Proof.
  intros Hlen.
  assert (Hbytes : forall b : bytes,
             (length b <= 42)%nat ->
             fernet.__init__ (PyBytes b) = Err fernet.malformed_key).
  { intros b Hb. unfold fernet.__init__, base64.urlsafe_b64decode,
      base64.b64decode. cbn [base64._bytes_from_decode_data rbind].
    destruct (a2b_base64 _) as [raw|e] eqn:E.
    - apply a2b_base64_bound in E.
      unfold base64.translate in E. rewrite length_map in E.
      replace (length raw =? 32)%nat with false
        by (symmetry; apply Nat.eqb_neq; lia).
      reflexivity.
    - apply a2b_base64_error in E. now rewrite E. }
  destruct key as [s|b].
  - cbn [pylen] in Hlen.
    destruct (codecs.ascii_encode s) as [b|e0] eqn:E.
    + exists fernet.malformed_key. split; [|reflexivity].
      rewrite <- (Hbytes b) by (rewrite (ascii_encode_length s b E); exact Hlen).
      unfold fernet.__init__, base64.urlsafe_b64decode.
      cbn [base64._bytes_from_decode_data]. now rewrite E.
    + exists (Raise ValueError
                (lit "string argument should contain only ASCII characters")).
      split; [|reflexivity].
      unfold fernet.__init__, base64.urlsafe_b64decode.
      cbn [base64._bytes_from_decode_data]. rewrite E. reflexivity.
  - exists fernet.malformed_key. split; [now apply Hbytes | reflexivity].
Qed.

End ShortKeys.

(** X20.  [encrypt_image] and [decrypt_image] called with a key of 42
    characters or fewer, such as a passphrase that was not put through the
    key derivation, raise ValueError from the cipher's constructor:
    nothing is encrypted or decrypted. *)
Theorem short_key_is_refused
        {cipher : Cipher} {codec : Codec}
        (key : pyobj) (im : image) (rnd : entropy) (blob : bytes) :
  (pylen key <= 42)%nat ->
  exists e,
    exn_cls e = ValueError
    /\ encrypt_image im key rnd = ([FernetInit key], Err e)
    /\ decrypt_image blob key = ([FernetInit key], Err e).
Proof.
  intros Hlen. destruct (fernet_init_short key Hlen) as (e & He & Hcls).
  exists e. split; [exact Hcls|].
  unfold encrypt_image, decrypt_image, Fernet, bind, tell, lift.
  rewrite He. split; reflexivity.
Qed.

(** ** The further properties on the reference instances *)

Lemma derivation_error_escapes_main_witness :
  let ss := Session (cipher := Reference.cipher)
              Decrypt_an_Image [0x70; 0xD800] (Some (blit "token")) tt in
  outcome (main (codec := Reference.codec) ss) = Err codecs.surrogates_not_allowed
  /\ events (main (codec := Reference.codec) ss) = sidebar_events.
Proof.
  cbv zeta.
  apply (derivation_error_escapes_main
           (cipher := Reference.cipher) (codec := Reference.codec)
           (Session (cipher := Reference.cipher)
              Decrypt_an_Image [0x70; 0xD800] (Some (blit "token")) tt)).
  reflexivity.
Defined.

Lemma unreadable_upload_escapes_main_witness :
  let ss := Session (cipher := Reference.cipher)
              Encrypt_an_Image (lit "secret") (Some (blit "not an image")) tt in
  outcome (main (codec := Reference.codec) ss) = Err Reference.unidentified
  /\ events (main (codec := Reference.codec) ss)
     = page_header (codec := Reference.codec) Encrypt_an_Image.
Proof.
  cbv zeta.
  apply (unreadable_upload_escapes_main
           (cipher := Reference.cipher) (codec := Reference.codec)
           (Session (cipher := Reference.cipher)
              Encrypt_an_Image (lit "secret") (Some (blit "not an image")) tt)
           (key_of (blit "secret")) (blit "not an image")).
  - vm_compute. reflexivity.
  - reflexivity.
  - reflexivity.
  - reflexivity.
Defined.

Lemma decrypted_non_image_is_reported_witness :
  let blob := hashlib.sha256_digest (blit "secret") ++ blit "text" in
  let ss := Session (cipher := Reference.cipher)
              Decrypt_an_Image (lit "secret") (Some blob) tt in
  outcome (main (codec := Reference.codec) ss) = Ok tt
  /\ exists key_bytes,
       codecs.utf_8_encode (key_of (blit "secret")) = Ok key_bytes
       /\ events (main (codec := Reference.codec) ss) =
          page_header (codec := Reference.codec) Decrypt_an_Image
            ++ [FernetInit (PyBytes key_bytes); FernetDecrypt blob;
                Shown (st_error (lit "Decryption failed: "
                                   ++ exn_str Reference.unidentified))].
Proof.
  cbv zeta.
  apply (decrypted_non_image_is_reported
           (cipher := Reference.cipher) (codec := Reference.codec)
           (Session (cipher := Reference.cipher) Decrypt_an_Image (lit "secret")
              (Some (hashlib.sha256_digest (blit "secret") ++ blit "text")) tt)
           (hashlib.sha256_digest (blit "secret") ++ blit "text")
           (key_of (blit "secret")) (fernet_of_key (blit "secret"))
           (blit "text") Reference.unidentified).
  - reflexivity.
  - reflexivity.
  - vm_compute. reflexivity.
  - apply fernet_init_key.
  - vm_compute. reflexivity.
  - reflexivity.
Defined.

Lemma save_failure_is_reported_after_display_witness :
  let blob := hashlib.sha256_digest (blit "secret") ++ blit "Sabc" in
  let im := Reference.Picture (Some (lit "PSD")) [97; 98; 99] in
  let ss := Session (cipher := Reference.cipher)
              Decrypt_an_Image (lit "secret") (Some blob) tt in
  outcome (main (codec := Reference.codec) ss) = Ok tt
  /\ exists key_bytes,
       codecs.utf_8_encode (key_of (blit "secret")) = Ok key_bytes
       /\ events (main (codec := Reference.codec) ss) =
          page_header (codec := Reference.codec) Decrypt_an_Image
            ++ [FernetInit (PyBytes key_bytes); FernetDecrypt blob;
                Shown (st_image (codec := Reference.codec) im
                         (lit "Decrypted Image"));
                Shown (st_error (lit "Decryption failed: "
                         ++ exn_str (Raise (OtherError "KeyError") (lit "'PSD'"))))].
Proof.
  cbv zeta.
  apply (save_failure_is_reported_after_display
           (cipher := Reference.cipher) (codec := Reference.codec)
           (Session (cipher := Reference.cipher) Decrypt_an_Image (lit "secret")
              (Some (hashlib.sha256_digest (blit "secret") ++ blit "Sabc")) tt)
           (hashlib.sha256_digest (blit "secret") ++ blit "Sabc")
           (key_of (blit "secret")) (fernet_of_key (blit "secret"))
           (blit "Sabc") (Reference.Picture (Some (lit "PSD")) [97; 98; 99])
           (Raise (OtherError "KeyError") (lit "'PSD'"))).
  - reflexivity.
  - reflexivity.
  - vm_compute. reflexivity.
  - apply fernet_init_key.
  - vm_compute. reflexivity.
  - reflexivity.
  - reflexivity.
Defined.

Lemma download_is_named_after_format_witness :
  let blob := hashlib.sha256_digest (blit "secret") ++ [x4a; x01; x08; x0c] in
  let im := Reference.Picture (Some (lit "JPEG")) [8; 12] in
  let ss := Session (cipher := Reference.cipher)
              Decrypt_an_Image (lit "secret") (Some blob) tt in
  outcome (main (codec := Reference.codec) ss) = Ok tt
  /\ exists key_bytes,
       codecs.utf_8_encode (key_of (blit "secret")) = Ok key_bytes
       /\ events (main (codec := Reference.codec) ss) =
          page_header (codec := Reference.codec) Decrypt_an_Image
            ++ [FernetInit (PyBytes key_bytes); FernetDecrypt blob;
                Shown (st_image (codec := Reference.codec) im
                         (lit "Decrypted Image"));
                Shown (st_download_button (lit "Download Decrypted Image")
                         [x4a; x04; x02; x03]
                         (lit "decrypted_image." ++ lower (lit "JPEG"))
                         (lit "image/" ++ lower (lit "JPEG")))].
Proof.
  cbv zeta.
  apply (download_is_named_after_format
           (cipher := Reference.cipher) (codec := Reference.codec)
           (Session (cipher := Reference.cipher) Decrypt_an_Image (lit "secret")
              (Some (hashlib.sha256_digest (blit "secret")
                       ++ [x4a; x01; x08; x0c])) tt)
           (hashlib.sha256_digest (blit "secret") ++ [x4a; x01; x08; x0c])
           (key_of (blit "secret")) (fernet_of_key (blit "secret"))
           [x4a; x01; x08; x0c]
           (Reference.Picture (Some (lit "JPEG")) [8; 12]) (lit "JPEG")
           [x4a; x04; x02; x03]).
  - reflexivity.
  - reflexivity.
  - vm_compute. reflexivity.
  - apply fernet_init_key.
  - vm_compute. reflexivity.
  - reflexivity.
  - reflexivity.
  - reflexivity.
  - reflexivity.
Defined.

Example lower_jpeg :
  lit "decrypted_image." ++ lower (lit "JPEG") = lit "decrypted_image.jpeg"
  /\ lit "image/" ++ lower (lit "JPEG") = lit "image/jpeg".
Proof. split; reflexivity. Qed.

Lemma encrypt_run_offers_token_witness :
  let ss := Session (cipher := Reference.cipher)
              Encrypt_an_Image (lit "secret") (Some [x4a; x01; x05; x09]) tt in
  let im := Reference.Picture (Some (lit "JPEG")) [5; 9] in
  outcome (main (codec := Reference.codec) ss) = Ok tt
  /\ exists key_bytes,
       codecs.utf_8_encode (key_of (blit "secret")) = Ok key_bytes
       /\ events (main (codec := Reference.codec) ss) =
          page_header (codec := Reference.codec) Encrypt_an_Image
            ++ [Shown (st_image (codec := Reference.codec) im
                         (lit "Original Image"));
                FernetInit (PyBytes key_bytes);
                FernetEncrypt [x4a; x04; x01; x02];
                Shown (st_success (lit "Image Encrypted Successfully!"));
                Shown (st_download_button (lit "Download Encrypted Image")
                         (encrypt (Cipher := Reference.cipher)
                            (fernet_of_key (blit "secret")) tt
                            [x4a; x04; x01; x02])
                         (lit "encrypted_image.enc")
                         (lit "application/octet-stream"))].
Proof.
  cbv zeta.
  apply (encrypt_run_offers_token
           (cipher := Reference.cipher) (codec := Reference.codec)
           (Session (cipher := Reference.cipher) Encrypt_an_Image (lit "secret")
              (Some [x4a; x01; x05; x09]) tt)
           (key_of (blit "secret")) (fernet_of_key (blit "secret"))
           [x4a; x01; x05; x09]
           (Reference.Picture (Some (lit "JPEG")) [5; 9])
           [x4a; x04; x01; x02]).
  - reflexivity.
  - reflexivity.
  - vm_compute. reflexivity.
  - apply fernet_init_key.
  - reflexivity.
  - reflexivity.
Defined.

Lemma download_of_encrypt_run_decrypts_witness :
  let token := hashlib.sha256_digest (blit "secret") ++ blit "Pabc" in
  let enc := Session (cipher := Reference.cipher)
               Encrypt_an_Image (lit "secret") (Some (blit "Pabc")) tt in
  let dec := Session (cipher := Reference.cipher)
               Decrypt_an_Image (lit "secret") (Some token) tt in
  outcome (main (codec := Reference.codec) dec) = Ok tt
  /\ In (FernetDecrypt token) (events (main (codec := Reference.codec) dec))
  /\ In (Shown (st_image (codec := Reference.codec)
                  (Reference.Picture (Some (lit "PNG")) [97; 98; 99])
                  (lit "Decrypted Image")))
        (events (main (codec := Reference.codec) dec)).
Proof.
  cbv zeta.
  apply (download_of_encrypt_run_decrypts
           (cipher := Reference.cipher) (codec := Reference.codec)
           (Session (cipher := Reference.cipher)
              Encrypt_an_Image (lit "secret") (Some (blit "Pabc")) tt)
           (Session (cipher := Reference.cipher) Decrypt_an_Image (lit "secret")
              (Some (hashlib.sha256_digest (blit "secret") ++ blit "Pabc")) tt)
           (key_of (blit "secret")) (blit "Pabc")
           (Reference.Picture (Some (lit "PNG")) [97; 98; 99])
           (Reference.Picture (Some (lit "PNG")) [97; 98; 99])
           (blit "Pabc")).
  - exact reference_decrypts_own_tokens.
  - vm_compute. reflexivity.
  - reflexivity.
  - reflexivity.
  - reflexivity.
  - reflexivity.
  - reflexivity.
  - reflexivity.
  - apply (nth_error_In _ 9). vm_compute. reflexivity.
  - reflexivity.
  - reflexivity.
Defined.

Lemma warning_only_without_encrypted_file_witness :
  let ss := Session (cipher := Reference.cipher)
              Decrypt_an_Image (lit "secret") None tt in
  In (Shown (st_warning upload_warning))
     (events (main (codec := Reference.codec) ss))
  <-> radio ss = Decrypt_an_Image /\ file_uploader ss = None
      /\ upload_warning = upload_warning.
Proof.
  cbv zeta.
  apply (warning_only_without_encrypted_file
           (cipher := Reference.cipher) (codec := Reference.codec)
           (Session (cipher := Reference.cipher)
              Decrypt_an_Image (lit "secret") None tt)
           (key_of (blit "secret")) upload_warning).
  vm_compute. reflexivity.
Defined.

Lemma no_upload_no_cipher_call_witness :
  Forall (fun ev => is_cipher_call ev = false)
    (events (main (codec := Reference.codec)
               (Session (cipher := Reference.cipher)
                  Encrypt_an_Image (lit "secret") None tt))).
Proof.
  apply (no_upload_no_cipher_call
           (cipher := Reference.cipher) (codec := Reference.codec)
           (Session (cipher := Reference.cipher)
              Encrypt_an_Image (lit "secret") None tt)).
  reflexivity.
Defined.

Lemma cipher_is_built_from_derived_key_witness :
  let ss := Session (cipher := Reference.cipher)
              Decrypt_an_Image (lit "secret") (Some (blit "token")) tt in
  exists utf8,
    codecs.utf_8_encode (text_input ss) = Ok utf8
    /\ PyBytes (blit "K7gNU3sdo-OL0wNhqoVWhr3g6s1xYv72ol_pe_Unols=")
       = PyBytes (base64.urlsafe_b64encode (hashlib.sha256_digest utf8))
    /\ file_uploader ss <> None.
Proof.
  cbv zeta.
  apply (cipher_is_built_from_derived_key
           (cipher := Reference.cipher) (codec := Reference.codec)
           (Session (cipher := Reference.cipher)
              Decrypt_an_Image (lit "secret") (Some (blit "token")) tt)
           (PyBytes (blit "K7gNU3sdo-OL0wNhqoVWhr3g6s1xYv72ol_pe_Unols="))).
  apply (nth_error_In _ 5). vm_compute. reflexivity.
Defined.

Lemma short_key_is_refused_witness :
  exists e,
    exn_cls e = ValueError
    /\ encrypt_image (cipher := Reference.cipher) (codec := Reference.codec)
         (Reference.Picture (Some (lit "PNG")) [1; 2; 3])
         (PyBytes (blit "secret")) tt
       = ([FernetInit (PyBytes (blit "secret"))], Err e)
    /\ decrypt_image (cipher := Reference.cipher) (codec := Reference.codec)
         (blit "token") (PyBytes (blit "secret"))
       = ([FernetInit (PyBytes (blit "secret"))], Err e).
Proof.
  apply (short_key_is_refused
           (cipher := Reference.cipher) (codec := Reference.codec)
           (PyBytes (blit "secret"))
           (Reference.Picture (Some (lit "PNG")) [1; 2; 3]) tt (blit "token")).
  vm_compute. lia.
Defined.

Lemma wrong_passphrase_is_reported_witness :
  let rnd := token.ClockAndRandom 1700000000 (blit "0123456789abcdef") in
  let tok := token.encrypt (aes := XorCBC.block_cipher)
               (fernet_of_key (blit "secret")) rnd (blit "Pabc") in
  let dec := Session (cipher := token.cipher (aes := XorCBC.block_cipher))
               Decrypt_an_Image (lit "other") (Some tok) rnd in
  outcome (main (codec := Reference.codec) dec) = Ok tt
  /\ exists key_bytes,
       codecs.utf_8_encode (key_of (blit "other")) = Ok key_bytes
       /\ events (main (codec := Reference.codec) dec) =
          page_header (codec := Reference.codec) Decrypt_an_Image
            ++ [FernetInit (PyBytes key_bytes); FernetDecrypt tok;
                Shown (st_error (lit "Decryption failed: "
                                   ++ exn_str token.invalid_token))].
Proof.
  cbv zeta.
  apply (wrong_passphrase_is_reported
           (aes := XorCBC.block_cipher) (codec := Reference.codec)
           (Session (cipher := token.cipher (aes := XorCBC.block_cipher))
              Encrypt_an_Image (lit "secret") (Some (blit "Pabc"))
              (token.ClockAndRandom 1700000000 (blit "0123456789abcdef")))
           (Session (cipher := token.cipher (aes := XorCBC.block_cipher))
              Decrypt_an_Image (lit "other")
              (Some (token.encrypt (aes := XorCBC.block_cipher)
                       (fernet_of_key (blit "secret"))
                       (token.ClockAndRandom 1700000000 (blit "0123456789abcdef"))
                       (blit "Pabc")))
              (token.ClockAndRandom 1700000000 (blit "0123456789abcdef")))
           (key_of (blit "secret")) (key_of (blit "other"))
           (fernet_of_key (blit "secret")) (fernet_of_key (blit "other"))).
  - vm_compute. reflexivity.
  - vm_compute. reflexivity.
  - apply fernet_init_key.
  - apply fernet_init_key.
  - apply (nth_error_In _ 9). vm_compute. reflexivity.
  - reflexivity.
  - reflexivity.
  - intros H. vm_compute in H. discriminate H.
Defined.

Lemma main_raises_in_three_cases_only_witness :
  let ss := Session (cipher := Reference.cipher)
              Encrypt_an_Image (lit "secret") (Some (blit "Tabc")) tt in
  to_url_safe_base64_32_bytes (PyStr (text_input ss)) = Err Lazy.truncated
  \/ (radio ss = Encrypt_an_Image
      /\ exists file,
           file_uploader ss = Some file
           /\ (Lazy.lazy_open (LazyCodec := Lazy.reference) file = Err Lazy.truncated
               \/ exists im,
                    Lazy.lazy_open (LazyCodec := Lazy.reference) file = Ok im
                    /\ Lazy.load im = Err Lazy.truncated)).
Proof.
  cbv zeta.
  apply (main_raises_in_three_cases_only
           (cipher := Reference.cipher) (lc := Lazy.reference)
           (Session (cipher := Reference.cipher)
              Encrypt_an_Image (lit "secret") (Some (blit "Tabc")) tt)
           Lazy.truncated).
  vm_compute. reflexivity.
Defined.

Lemma encrypt_save_failure_is_reported_witness :
  let ss := Session (cipher := Reference.cipher)
              Encrypt_an_Image (lit "secret") (Some (blit "Sabc")) tt in
  let im := (true, Reference.Picture (Some (lit "PSD")) [97; 98; 99]) in
  outcome (Lazy.main (lc := Lazy.reference) ss) = Ok tt
  /\ exists key_bytes,
       codecs.utf_8_encode (key_of (blit "secret")) = Ok key_bytes
       /\ events (Lazy.main (lc := Lazy.reference) ss) =
          page_header (codec := Lazy.eager (lc := Lazy.reference)) Encrypt_an_Image
            ++ [Shown (st_image (codec := Lazy.eager (lc := Lazy.reference)) im
                         (lit "Original Image"));
                FernetInit (PyBytes key_bytes);
                Shown (st_error
                         (lit "Encryption failed: "
                            ++ exn_str (Raise (OtherError "KeyError") (lit "'PSD'"))))].
Proof.
  cbv zeta.
  apply (encrypt_save_failure_is_reported
           (cipher := Reference.cipher) (lc := Lazy.reference)
           (Session (cipher := Reference.cipher)
              Encrypt_an_Image (lit "secret") (Some (blit "Sabc")) tt)
           (key_of (blit "secret")) (blit "Sabc")
           (true, Reference.Picture (Some (lit "PSD")) [97; 98; 99])
           (Raise (OtherError "KeyError") (lit "'PSD'"))).
  - reflexivity.
  - reflexivity.
  - vm_compute. reflexivity.
  - reflexivity.
  - reflexivity.
  - reflexivity.
Defined.

(** A file cut short opens and does not decode: in the encrypt branch
    the exception of st.image leaves main(), in the decrypt branch it is
    caught and shown. *)
Example truncated_upload :
  Lazy.main (cipher := Reference.cipher) (lc := Lazy.reference)
    (Session (cipher := Reference.cipher)
       Encrypt_an_Image (lit "secret") (Some (blit "Tabc")) tt)
  = (page_header (codec := Lazy.eager (lc := Lazy.reference)) Encrypt_an_Image,
     Err Lazy.truncated)
  /\ events
       (Lazy.main (cipher := Reference.cipher) (lc := Lazy.reference)
          (Session (cipher := Reference.cipher) Decrypt_an_Image (lit "secret")
             (Some (hashlib.sha256_digest (blit "secret") ++ blit "Tabc")) tt))
     = page_header (codec := Lazy.eager (lc := Lazy.reference)) Decrypt_an_Image
         ++ [FernetInit (PyBytes (blit "K7gNU3sdo-OL0wNhqoVWhr3g6s1xYv72ol_pe_Unols="));
             FernetDecrypt (hashlib.sha256_digest (blit "secret") ++ blit "Tabc");
             Shown (st_error (lit "Decryption failed: image file is truncated"))].
Proof. split; vm_compute; reflexivity. Qed.
